(** * Crop-planting optimisation (CUMCM 2024, problem C): a shallow embedding

    The development follows the three model builders of the repository,
    [Question1_modeling.py] (module [Base]), [Question2_modeling.py]
    (module [Strict]) and [Question3_modeling.py] (module [Advanced]).  The
    functions of [data_preprocessing.py] that feed them are in module
    [Preprocessing].

    Conventions of the embedding.
    - Python [float]s are idealised as exact rationals ([Q]); equality on
      them is [Qeq] ([==]).
    - Python [str]s are [string]s holding the UTF-8 bytes of the text.  A
      valid UTF-8 needle occurs in a valid UTF-8 text at byte level exactly
      when it occurs at code-point level, so [in] and [==] on [str] are
      byte-level [contains] and [String.eqb].
    - A Python [dict] is an association list in insertion order without
      repeated keys; [d[k]] on a missing key raises [KeyError], which is
      [None] in the [option] monad.
    - The MIP solver (PuLP/CBC) is an external collaborator: a function from
      the built model to a status and variable values, or an exception.
    - numpy's global random generator is an explicit state threaded through
      the code that draws from it. *)

From Stdlib Require Import String Ascii List ZArith QArith Qround Qminmax Qpower Lia Lqa Bool.
From Stdlib Require Import Sorted.
Import ListNotations.
Local Open Scope string_scope.
Local Open Scope Q_scope.
Local Open Scope list_scope.

(* ================================================================== *)
(** * Python primitives *)

Module Py.

(** ** Exceptions ([None] = an exception was raised) *)

Definition bind {A B : Type} (m : option A) (f : A -> option B) : option B :=
  match m with
  | Some a => f a
  | None => None
  end.

Notation "x <- m ;; k" := (bind m (fun x => k))
  (at level 61, m at next level, right associativity).

Fixpoint mapM {A B : Type} (f : A -> option B) (l : list A) : option (list B) :=
  match l with
  | [] => Some []
  | a :: r =>
      b <- f a ;;
      bs <- mapM f r ;;
      Some (b :: bs)
  end.

(** [[e for a in l for e in f a]] where [f] may raise. *)
Definition flat_mapM {A B : Type} (f : A -> option (list B)) (l : list A)
  : option (list B) :=
  option_map (@concat B) (mapM f l).

(** [[a for a in l if p a]] where the test may raise. *)
Fixpoint filterM {A : Type} (p : A -> option bool) (l : list A) : option (list A) :=
  match l with
  | [] => Some []
  | a :: r =>
      b <- p a ;;
      rs <- filterM p r ;;
      Some (if b then a :: rs else rs)
  end.

(** ** Strings *)

(** [sub in s] *)
Fixpoint contains (sub s : string) : bool :=
  if prefix sub s then true
  else match s with
       | EmptyString => false
       | String _ r => contains sub r
       end.

(** [s in l] for a list of strings. *)
Definition str_in (s : string) (l : list string) : bool :=
  existsb (String.eqb s) l.

Definition code (c : ascii) : N := N_of_ascii c.

(** The code points [str.isspace] accepts, by their UTF-8 encodings:
    U+0009..000D, U+001C..0020 in one byte; U+0085, U+00A0 in two; U+1680,
    U+2000..200A, U+2028, U+2029, U+202F, U+205F, U+3000 in three. *)
Definition is_space1 (a : ascii) : bool :=
  let n := code a in
  ((9 <=? n) && (n <=? 13) || (28 <=? n) && (n <=? 32))%N.

Definition is_space2 (a b : ascii) : bool :=
  ((code a =? 194) && ((code b =? 133) || (code b =? 160)))%N.

Definition is_space3 (a b c : ascii) : bool :=
  let x := code a in
  let y := code b in
  let z := code c in
  ((x =? 225) && (y =? 154) && (z =? 128)
   || (x =? 226) && (y =? 128)
      && ((128 <=? z) && (z <=? 138) || (z =? 168) || (z =? 169) || (z =? 175))
   || (x =? 226) && (y =? 129) && (z =? 159)
   || (x =? 227) && (y =? 128) && (z =? 128))%N.

(** Drop white space at the head of a byte list. *)
Fixpoint lstrip_bytes (s : list ascii) : list ascii :=
  match s with
  | [] => []
  | a :: r1 =>
      if is_space1 a then lstrip_bytes r1
      else match r1 with
           | [] => s
           | b :: r2 =>
               if is_space2 a b then lstrip_bytes r2
               else match r2 with
                    | [] => s
                    | c :: r3 => if is_space3 a b c then lstrip_bytes r3 else s
                    end
           end
  end.

(** The same on the reversed text: the encodings are read backwards. *)
Fixpoint lstrip_rev_bytes (s : list ascii) : list ascii :=
  match s with
  | [] => []
  | a :: r1 =>
      if is_space1 a then lstrip_rev_bytes r1
      else match r1 with
           | [] => s
           | b :: r2 =>
               if is_space2 b a then lstrip_rev_bytes r2
               else match r2 with
                    | [] => s
                    | c :: r3 => if is_space3 c b a then lstrip_rev_bytes r3 else s
                    end
           end
  end.

Definition rstrip_bytes (s : list ascii) : list ascii :=
  rev (lstrip_rev_bytes (rev s)).

(** [s.strip()] *)
Definition strip (s : string) : string :=
  string_of_list_ascii (rstrip_bytes (lstrip_bytes (list_ascii_of_string s))).

(** ** Numbers *)

(** [a > b] and [a < b] on floats. *)
Definition Qgtb (a b : Q) : bool := negb (Qle_bool a b).
Definition Qltb (a b : Q) : bool := negb (Qle_bool b a).

(** [max(a, b)] and [min(a, b)]: the first argument wins a tie. *)
Definition max (a b : Q) : Q := if Qgtb b a then b else a.
Definition min (a b : Q) : Q := if Qltb b a then b else a.

(** Round half to even, as [round] does on an exact tie. *)
Definition round_half_even (q : Q) : Z :=
  let f := Qfloor q in
  match Qcompare (q - inject_Z f) (1 # 2) with
  | Lt => f
  | Gt => (f + 1)%Z
  | Eq => if Z.even f then f else (f + 1)%Z
  end.

(** [round(q, ndigits)] *)
Definition round (q : Q) (ndigits : nat) : Q :=
  let scale := inject_Z (10 ^ Z.of_nat ndigits) in
  inject_Z (round_half_even (q * scale)) / scale.

(** [b ** n] for a float base and an integer exponent. *)
Definition pow (b : Q) (n : Z) : Q := Qpower b n.

(** ** Dictionaries *)

Section Dict.
Context {K V : Type} (eqb : K -> K -> bool).

(** [d[k] = v]: an existing key keeps its place. *)
Fixpoint dict_set (d : list (K * V)) (k : K) (v : V) : list (K * V) :=
  match d with
  | [] => [(k, v)]
  | (k', v') :: r =>
      if eqb k' k then (k', v) :: r else (k', v') :: dict_set r k v
  end.

(** [d[k]] ([None]: [KeyError]) and [d.get(k)]. *)
Fixpoint dict_get (d : list (K * V)) (k : K) : option V :=
  match d with
  | [] => None
  | (k', v') :: r => if eqb k' k then Some v' else dict_get r k
  end.

(** [k in d] *)
Definition dict_mem (d : list (K * V)) (k : K) : bool :=
  match dict_get d k with
  | Some _ => true
  | None => false
  end.

(** The dictionary a loop of assignments [d[k] = v] builds. *)
Definition dict_of_list (l : list (K * V)) : list (K * V) :=
  fold_left (fun d kv => dict_set d (fst kv) (snd kv)) l [].

Definition dict_keys (d : list (K * V)) : list K := map fst d.
End Dict.

(** ** Result rows: a [dict] from column names to cells *)

Inductive cell : Type :=
| CInt (z : Z)
| CNum (q : Q)
| CStr (s : string).

Definition row : Type := list (string * cell).

Definition row_get (r : row) (column : string) : option cell :=
  dict_get String.eqb r column.

End Py.

Import Py.

(* ================================================================== *)
(** * The workbook [processed_data.xlsx] *)

(** Sheet 地块信息: 地块名称, 地块类型, 地块面积(亩). *)
Record land_row := {
  lr_name : string;
  lr_type : string;
  lr_area : Q
}.

(** Sheet 作物信息: 作物编号, 作物名称, 作物类型, 是否豆类. *)
Record crop_row := {
  cr_id : Z;
  cr_name : string;
  cr_type : string;
  cr_is_legume : bool
}.

(** Sheet 作物统计数据: land_type, season, crop_id, yield_per_mu,
    cost_per_mu, price_avg, profit_per_mu. *)
Record stat_row := {
  stat_land_type : string;
  stat_season : string;
  stat_crop_id : Z;
  stat_yield_per_mu : Q;
  stat_cost_per_mu : Q;
  stat_price_avg : Q;
  stat_profit_per_mu : Q
}.

(** Sheet 预期销售量: 作物编号, 预期销售量(斤). *)
Record sales_row := {
  sr_crop_id : Z;
  sr_expected : Q
}.

(** Sheet 2023年种植情况: block_name, crop_id. *)
Record planting_row := {
  pr_block_name : string;
  pr_crop_id : Z
}.

Record workbook := {
  land_df : list land_row;
  crop_df : list crop_row;
  stats_df : list stat_row;
  planting_2023_df : list planting_row;
  expected_sales_df : list sales_row
}.

Definition single_season : string := "单季".
Definition first_season : string := "第一季".
Definition second_season : string := "第二季".
Definition seasons : list string := [single_season; first_season; second_season].

Definition dry_lands : list string := ["平旱地"; "梯田"; "山坡地"].
Definition irrigated : string := "水浇地".
Definition greenhouses : list string := ["普通大棚"; "普通大棚 "].
Definition smart_greenhouse : string := "智慧大棚".

Definition rice : string := "水稻".
Definition winter_vegetables : list string := ["大白菜"; "白萝卜"; "红萝卜"].
Definition mushrooms : list string := ["香菇"; "羊肚菌"; "白灵菇"; "榆黄菇"].

(** [list(range(2024, 2031))] *)
Definition years : list Z := [2024; 2025; 2026; 2027; 2028; 2029; 2030]%Z.

(** [if l: ...]: the statements run when the list is not empty. *)
Definition when_nonempty {A B : Type} (l : list A) (body : list B) : list B :=
  match l with
  | [] => []
  | _ :: _ => body
  end.

(* ================================================================== *)
(** * Linear programs as PuLP builds them *)

Module LP.

(** The key of a planting variable: (land_name, year, season, crop_id). *)
Definition key : Type := string * Z * string * Z.

Definition key_eqb (a b : key) : bool :=
  let '(l1, y1, s1, c1) := a in
  let '(l2, y2, s2, c2) := b in
  String.eqb l1 l2 && Z.eqb y1 y2 && String.eqb s1 s2 && Z.eqb c1 c2.

Definition key_land (k : key) : string := let '(l, _, _, _) := k in l.
Definition key_year (k : key) : Z := let '(_, y, _, _) := k in y.
Definition key_season (k : key) : string := let '(_, _, s, _) := k in s.
Definition key_crop (k : key) : Z := let '(_, _, _, c) := k in c.

(** The variables of the three models. *)
Inductive var : Type :=
| Plant (k : key)                  (* area planted, continuous, lowBound 0 *)
| Water (land : string) (year : Z) (* irrigated land grows rice this year, binary *)
| Planted (k : key)                (* base model: planting_binary *)
| Grown (year : Z) (crop : Z).     (* crop indicator: crop_count / z_crop, binary *)

(** An affine expression: a sum of weighted variables and a constant. *)
Record expr := {
  terms : list (Q * var);
  const : Q
}.

Definition lpSum (vs : list var) : expr :=
  {| terms := map (fun v => (1, v)) vs; const := 0 |}.

Definition weighted (ts : list (Q * var)) : expr :=
  {| terms := ts; const := 0 |}.

Definition number (q : Q) : expr := {| terms := []; const := q |}.

Definition times (q : Q) (v : var) : expr := {| terms := [(q, v)]; const := 0 |}.

Definition plus (e1 e2 : expr) : expr :=
  {| terms := terms e1 ++ terms e2; const := const e1 + const e2 |}.

(** [q * (1 - v)] *)
Definition times_complement (q : Q) (v : var) : expr :=
  {| terms := [(- q, v)]; const := q |}.

Inductive sense : Type := LE | GE | EQ.

Record constraint := {
  lhs : expr;
  rel : sense;
  rhs : expr
}.

Definition le (l r : expr) : constraint := {| lhs := l; rel := LE; rhs := r |}.
Definition ge (l r : expr) : constraint := {| lhs := l; rel := GE; rhs := r |}.
Definition eq (l r : expr) : constraint := {| lhs := l; rel := EQ; rhs := r |}.

Record problem := {
  objective : expr;
  constraints : list constraint;
  continuous : list var;
  binaries : list var
}.

(** ** Solutions *)

Definition valuation : Type := var -> Q.

Fixpoint sum_terms (a : valuation) (ts : list (Q * var)) : Q :=
  match ts with
  | [] => 0
  | (c, v) :: r => c * a v + sum_terms a r
  end.

Definition eval (a : valuation) (e : expr) : Q := sum_terms a (terms e) + const e.

Definition holds (a : valuation) (c : constraint) : Prop :=
  match rel c with
  | LE => eval a (lhs c) <= eval a (rhs c)
  | GE => eval a (rhs c) <= eval a (lhs c)
  | EQ => eval a (lhs c) == eval a (rhs c)
  end.

Definition holdsb (a : valuation) (c : constraint) : bool :=
  match rel c with
  | LE => Qle_bool (eval a (lhs c)) (eval a (rhs c))
  | GE => Qle_bool (eval a (rhs c)) (eval a (lhs c))
  | EQ => Qeq_bool (eval a (lhs c)) (eval a (rhs c))
  end.

Definition is_binary (q : Q) : Prop := q == 0 \/ q == 1.

(** A solution the solver may return: every constraint holds, planted areas
    are not negative and binaries are 0 or 1. *)
Definition feasible (a : valuation) (p : problem) : Prop :=
  Forall (holds a) (constraints p)
  /\ Forall (fun v => 0 <= a v) (continuous p)
  /\ Forall (fun v => is_binary (a v)) (binaries p).

Definition feasibleb (a : valuation) (p : problem) : bool :=
  forallb (holdsb a) (constraints p)
  && forallb (fun v => Qle_bool 0 (a v)) (continuous p)
  && forallb (fun v => Qeq_bool (a v) 0 || Qeq_bool (a v) 1) (binaries p).

(** Total area of a list of planting keys under a valuation. *)
Fixpoint total_area (a : valuation) (ks : list key) : Q :=
  match ks with
  | [] => 0
  | k :: r => a (Plant k) + total_area a r
  end.

(** ** The solver *)

(** [prob.solve(...)] either raises or leaves a status ([LpStatus[prob.status]])
    and a [varValue] on every variable ([None] when it has none). *)
Inductive outcome : Type :=
| Raised
| Solved (status : string) (varValue : var -> option Q).

(** The solver: time limit in seconds when one is given, and the problem. *)
Definition solver : Type := option Z -> problem -> outcome.

(** [status in ['Optimal', 'Feasible']] *)
Definition status_ok (status : string) : bool := str_in status ["Optimal"; "Feasible"].

End LP.

Import LP.

(* ================================================================== *)
(** * The base model: [CorrectedCropOptimizer] of [Question1_modeling.py] *)

Module Base.

Record land_info := {
  type : string;
  area : Q
}.

Record crop_info := {
  name : string;
  kind : string;            (* the entry 'type' of the crop *)
  is_legume : bool;
  is_grain : bool;
  is_rice : bool;
  is_vegetable : bool;
  is_mushroom : bool;
  is_winter_vegetable : bool;
  is_regular_vegetable : bool
}.

(** One entry of [valid_planting_options]: the statistics of the row and the
    entries of the crop ([**crop_info]). *)
Record planting_option := {
  land_type : string;
  season : string;
  crop_id : Z;
  crop_name : string;
  yield_per_mu : Q;
  cost_per_mu : Q;
  price_avg : Q;
  profit_per_mu : Q;
  info : crop_info
}.

(** The fields [_process_data] leaves on [self]. *)
Record optimizer := {
  lands : list (string * land_info);
  crops : list (Z * crop_info);
  expected_sales : list (Z * Q);
  valid_planting_options : list planting_option;
  viable_options : list planting_option;
  legume_planted_2023 : list (string * bool)
}.

Definition classify (r : crop_row) : crop_info :=
  let crop_name := cr_name r in
  let crop_type := cr_type r in
  let is_grain := contains "粮食" crop_type && negb (String.eqb crop_name rice) in
  let is_rice := String.eqb crop_name rice in
  let is_vegetable := contains "蔬菜" crop_type in
  let is_mushroom := str_in crop_name mushrooms in
  let is_winter_vegetable := str_in crop_name winter_vegetables in
  {| name := crop_name;
     kind := crop_type;
     is_legume := cr_is_legume r;
     is_grain := is_grain;
     is_rice := is_rice;
     is_vegetable := is_vegetable;
     is_mushroom := is_mushroom;
     is_winter_vegetable := is_winter_vegetable;
     is_regular_vegetable := is_vegetable && negb is_winter_vegetable |}.

Definition _is_valid_planting_combination
  (land_type season : string) (crop_info : crop_info) : bool :=
  if str_in land_type dry_lands then
    String.eqb season single_season && is_grain crop_info
  else if String.eqb land_type irrigated then
    if String.eqb season single_season then is_rice crop_info
    else if String.eqb season first_season then is_regular_vegetable crop_info
    else if String.eqb season second_season then is_winter_vegetable crop_info
    else false
  else if str_in land_type greenhouses then
    if String.eqb season first_season then is_regular_vegetable crop_info
    else if String.eqb season second_season then is_mushroom crop_info
    else false
  else if String.eqb land_type smart_greenhouse then
    if str_in season [first_season; second_season] then is_regular_vegetable crop_info
    else false
  else false.

Definition make_option (row : stat_row) (crop_info : crop_info) : planting_option :=
  {| land_type := stat_land_type row;
     season := stat_season row;
     crop_id := stat_crop_id row;
     crop_name := name crop_info;
     yield_per_mu := stat_yield_per_mu row;
     cost_per_mu := stat_cost_per_mu row;
     price_avg := stat_price_avg row;
     profit_per_mu := stat_profit_per_mu row;
     info := crop_info |}.

(** The loop over [stats_df] that fills [valid_planting_options]. *)
Definition select_valid (crops : list (Z * crop_info)) (stats : list stat_row)
  : list planting_option :=
  flat_map
    (fun row =>
       match dict_get Z.eqb crops (stat_crop_id row) with
       | None => []
       | Some crop_info =>
           if _is_valid_planting_combination
                (stat_land_type row) (stat_season row) crop_info
           then [make_option row crop_info]
           else []
       end)
    stats.

(** [opt['crop_id'] in expected_sales and expected_sales[opt['crop_id']] > 0] *)
Definition tradeable (expected_sales : list (Z * Q)) (opt : planting_option) : bool :=
  match dict_get Z.eqb expected_sales (crop_id opt) with
  | Some sale => Qgtb sale 0
  | None => false
  end.

(** [list.sort(key=profit_per_mu, reverse=True)]: stable, largest first. *)
Fixpoint insert_desc (o : planting_option) (l : list planting_option)
  : list planting_option :=
  match l with
  | [] => [o]
  | p :: r =>
      if Qle_bool (profit_per_mu o) (profit_per_mu p)
      then p :: insert_desc o r
      else o :: p :: r
  end.

Definition sort_desc (l : list planting_option) : list planting_option :=
  fold_left (fun acc o => insert_desc o acc) l [].

Definition crop_is_legume (crops : list (Z * crop_info)) (crop_id : Z) : bool :=
  match dict_get Z.eqb crops crop_id with
  | Some crop_info => is_legume crop_info
  | None => false
  end.

(** The loop over [planting_2023_df]. *)
Definition legume_history (crops : list (Z * crop_info)) (rows : list planting_row)
  : list (string * bool) :=
  fold_left
    (fun d row =>
       let land_name := pr_block_name row in
       let d1 := if dict_mem String.eqb d land_name then d
                 else dict_set String.eqb d land_name false in
       if crop_is_legume crops (pr_crop_id row)
       then dict_set String.eqb d1 land_name true
       else d1)
    rows [].

Definition _process_data (wb : workbook) : optimizer :=
  let lands :=
    dict_of_list String.eqb
      (map (fun r => (lr_name r, {| type := lr_type r; area := lr_area r |}))
           (land_df wb)) in
  let crops :=
    dict_of_list Z.eqb (map (fun r => (cr_id r, classify r)) (crop_df wb)) in
  let expected_sales :=
    dict_of_list Z.eqb
      (map (fun r => (sr_crop_id r, sr_expected r)) (expected_sales_df wb)) in
  let valid_planting_options := select_valid crops (stats_df wb) in
  {| lands := lands;
     crops := crops;
     expected_sales := expected_sales;
     valid_planting_options := valid_planting_options;
     viable_options :=
       sort_desc (filter (tradeable expected_sales) valid_planting_options);
     legume_planted_2023 := legume_history crops (planting_2023_df wb) |}.

(** [next((o for o in viable_options if ...), None)] *)
Definition find_option (self : optimizer) (land_type season : string) (crop_id : Z)
  : option planting_option :=
  find (fun o => String.eqb (Base.land_type o) land_type
                 && String.eqb (Base.season o) season
                 && Z.eqb (Base.crop_id o) crop_id)
       (viable_options self).

(** ** [create_model] *)

Definition var_keys (self : optimizer) : list key :=
  flat_map
    (fun '(land_name, land_info) =>
       flat_map
         (fun year =>
            flat_map
              (fun opt =>
                 if String.eqb (land_type opt) (type land_info)
                 then [(land_name, year, season opt, crop_id opt)]
                 else [])
              (viable_options self))
         years)
    (lands self).

(** [LpVariable.dicts("plant", var_keys, lowBound=0)] *)
Definition x (self : optimizer) : list (key * var) :=
  dict_of_list key_eqb (map (fun k => (k, Plant k)) (var_keys self)).

Definition x_keys (self : optimizer) : list key := dict_keys (x self).

Definition water_land_choice (self : optimizer) : list ((string * Z) * var) :=
  flat_map
    (fun '(land_name, land_info) =>
       if String.eqb (type land_info) irrigated
       then map (fun year => ((land_name, year), Water land_name year)) years
       else [])
    (lands self).

(** The keys of [planting_binary]: every land, year, season and crop with an
    expected sale. *)
Definition planting_binary_keys (self : optimizer) : list key :=
  flat_map
    (fun land_name =>
       flat_map
         (fun year =>
            flat_map
              (fun season =>
                 map (fun crop_id => (land_name, year, season, crop_id))
                     (dict_keys (expected_sales self)))
              seasons)
         years)
    (dict_keys (lands self)).

(** [k in planting_binary] *)
Definition in_planting_binary (self : optimizer) (k : key) : bool :=
  existsb (key_eqb k) (planting_binary_keys self).

(** The objective: the loop over [var_keys]. *)
Definition objective_terms (self : optimizer) (bonus : Q) : option (list (Q * var)) :=
  flat_mapM
    (fun k : key =>
       let '(land_name, year, season, crop_id) := k in
       land_info <- dict_get String.eqb (lands self) land_name ;;
       match find_option self (type land_info) season crop_id with
       | Some opt =>
           let base_profit := profit_per_mu opt in
           let base_profit :=
             if crop_is_legume (crops self) crop_id
             then base_profit + bonus else base_profit in
           Some [(base_profit, Plant k)]
       | None => Some []
       end)
    (var_keys self).

(** [[x[k] for k in x.keys() if p k]] *)
Definition pick (keys : list key) (p : key -> bool) : list var :=
  map Plant (filter p keys).

Definition at_season (land_name : string) (year : Z) (season : string) (k : key) : bool :=
  String.eqb (key_land k) land_name && Z.eqb (key_year k) year
  && String.eqb (key_season k) season.

Definition at_key (land_name : string) (year : Z) (season : string) (crop_id : Z)
  (k : key) : bool :=
  at_season land_name year season k && Z.eqb (key_crop k) crop_id.

(** 1. Area of each land, year and season. *)
Definition area_constraints (self : optimizer) : list constraint :=
  let keys := x_keys self in
  flat_map
    (fun '(land_name, land_info) =>
       let max_area := area land_info in
       flat_map
         (fun year =>
            if negb (String.eqb (type land_info) irrigated) then
              flat_map
                (fun season =>
                   let season_vars := pick keys (at_season land_name year season) in
                   when_nonempty season_vars [le (lpSum season_vars) (number max_area)])
                seasons
            else
              let single_vars := pick keys (at_season land_name year single_season) in
              let first_vars := pick keys (at_season land_name year first_season) in
              let second_vars := pick keys (at_season land_name year second_season) in
              when_nonempty single_vars [le (lpSum single_vars) (number max_area)]
              ++ when_nonempty first_vars [le (lpSum first_vars) (number max_area)]
              ++ when_nonempty second_vars [le (lpSum second_vars) (number max_area)])
         years)
    (lands self).

(** The production terms of one crop over the horizon. *)
Definition total_production_vars (self : optimizer) (crop_id : Z)
  : option (list (Q * var)) :=
  flat_mapM
    (fun year =>
       flat_mapM
         (fun season =>
            flat_mapM
              (fun k : key =>
                 let '(land_name, y, s, c_id) := k in
                 if Z.eqb y year && String.eqb s season && Z.eqb c_id crop_id then
                   land_info <- dict_get String.eqb (lands self) land_name ;;
                   match find_option self (type land_info) s c_id with
                   | Some opt => Some [(yield_per_mu opt, Plant k)]
                   | None => Some []
                   end
                 else Some [])
              (x_keys self))
         seasons)
    years.

(** 2. Sales: production over the seven years against the expected sale. *)
Definition sales_constraints (self : optimizer) (scenario : Z)
  : option (list constraint) :=
  flat_mapM
    (fun '(crop_id, expected_sale) =>
       total_production_vars <- total_production_vars self crop_id ;;
       Some (when_nonempty total_production_vars
               [if Z.eqb scenario 1
                then le (weighted total_production_vars) (number (expected_sale * 7))
                else le (weighted total_production_vars) (number (expected_sale * 10))]))
    (expected_sales self).

(** [years[:-1]] *)
Definition years_but_last : list Z := removelast years.

Definition M : Q := 1000.

(** 3. No replanting of a crop in consecutive years, through the binaries. *)
Definition replanting_constraints (self : optimizer) : list constraint :=
  let keys := x_keys self in
  flat_map
    (fun land_name =>
       flat_map
         (fun crop_id =>
            flat_map
              (fun year =>
                 flat_map
                   (fun season =>
                      let current_key := (land_name, year, season, crop_id) in
                      let next_key := (land_name, (year + 1)%Z, season, crop_id) in
                      if in_planting_binary self current_key
                         && in_planting_binary self next_key
                      then
                        let current_binary := Planted current_key in
                        let next_binary := Planted next_key in
                        let current_vars :=
                          pick keys (at_key land_name year season crop_id) in
                        let next_vars :=
                          pick keys (at_key land_name (year + 1)%Z season crop_id) in
                        [le (lpSum [current_binary; next_binary]) (number 1)]
                        ++ when_nonempty current_vars
                             [le (lpSum current_vars) (times M current_binary);
                              ge (lpSum current_vars) (times 0.01 current_binary)]
                        ++ when_nonempty next_vars
                             [le (lpSum next_vars) (times M next_binary);
                              ge (lpSum next_vars) (times 0.01 next_binary)]
                      else [])
                   seasons)
              years_but_last)
         (dict_keys (expected_sales self)))
    (dict_keys (lands self)).

(** The keys of a land and a year in the first or the second season. *)
Definition in_double_season (land_name : string) (year : Z) (k : key) : bool :=
  String.eqb (key_land k) land_name
  && Z.eqb (key_year k) year
  && str_in (key_season k) [first_season; second_season].

(** 4. Irrigated land: rice in a single season or vegetables in two. *)
Definition water_constraints (self : optimizer) : list constraint :=
  let keys := x_keys self in
  flat_map
    (fun '(land_name, land_info) =>
       if String.eqb (type land_info) irrigated then
         flat_map
           (fun year =>
              match dict_get
                      (fun a b => String.eqb (fst a) (fst b) && Z.eqb (snd a) (snd b))
                      (water_land_choice self) (land_name, year) with
              | Some use_rice =>
                  let M_water := area land_info in
                  let single_vars := pick keys (at_season land_name year single_season) in
                  let multi_vars := pick keys (in_double_season land_name year) in
                  let first_vars := pick keys (at_season land_name year first_season) in
                  let second_vars := pick keys (at_season land_name year second_season) in
                  when_nonempty single_vars
                    [le (lpSum single_vars) (times M_water use_rice)]
                  ++ when_nonempty multi_vars
                       [le (lpSum multi_vars) (times_complement M_water use_rice)]
                  ++ when_nonempty first_vars
                       (when_nonempty second_vars
                          [eq (lpSum first_vars) (lpSum second_vars)])
              | None => []
              end)
           years
       else [])
    (lands self).

(** The legume keys of a land within a window of years. *)
Definition legume_keys (self : optimizer) (land_name : string) (window : list Z)
  : list key :=
  flat_map
    (fun year =>
       if existsb (Z.eqb year) years then
         filter
           (fun k => String.eqb (key_land k) land_name && Z.eqb (key_year k) year
                     && crop_is_legume (crops self) (key_crop k))
           (x_keys self)
       else [])
    window.

(** 5. Legumes within 2024-2026 on a land that grew none in 2023. *)
Definition legume_constraints (self : optimizer) : list constraint :=
  flat_map
    (fun '(land_name, land_info) =>
       if match dict_get String.eqb (legume_planted_2023 self) land_name with
          | Some b => b
          | None => false
          end
       then []
       else
         let legume_vars :=
           map Plant (legume_keys self land_name [2024; 2025; 2026]%Z) in
         let min_legume_area := max 0.1 (area land_info * 0.05) in
         when_nonempty legume_vars [ge (lpSum legume_vars) (number min_legume_area)])
    (lands self).

(** 6. A planted patch is at least 0.1 mu and at most the land. *)
Definition patch_constraints (self : optimizer) : option (list constraint) :=
  flat_mapM
    (fun k : key =>
       if in_planting_binary self k then
         land_info <- dict_get String.eqb (lands self) (key_land k) ;;
         let binary_var := Planted k in
         Some [ge (lpSum [Plant k]) (times 0.1 binary_var);
               le (lpSum [Plant k]) (times (area land_info) binary_var)]
       else Some [])
    (x_keys self).

Definition _add_fixed_constraints (self : optimizer) (scenario : Z)
  : option (list constraint) :=
  sales <- sales_constraints self scenario ;;
  patches <- patch_constraints self ;;
  Some (area_constraints self
        ++ sales
        ++ replanting_constraints self
        ++ water_constraints self
        ++ legume_constraints self
        ++ patches).

Definition create_model (self : optimizer) (scenario : Z) : option problem :=
  total_profit <- objective_terms self 200 ;;
  constraints <- _add_fixed_constraints self scenario ;;
  Some {| objective := weighted total_profit;
          constraints := constraints;
          continuous := map Plant (x_keys self);
          binaries := map snd (water_land_choice self)
                      ++ map Planted (planting_binary_keys self) |}.

(** ** [solve_and_save] *)

(** What a run returns: [(results, total_profit)], or [(None, 0)]. *)
Definition run_result : Type := option (list row) * Q.

Definition failure : run_result := (None, 0).

Definition _get_crop_category (self : optimizer) (crop_id : Z) : option string :=
  crop_info <- dict_get Z.eqb (crops self) crop_id ;;
  Some (if is_rice crop_info then "水稻"
        else if is_grain crop_info then "粮食类"
        else if is_winter_vegetable crop_info then "冬季蔬菜"
        else if is_mushroom crop_info then "食用菌"
        else if is_regular_vegetable crop_info then "普通蔬菜"
        else "其他").

(** [area and area > 0.01] on a [varValue] *)
Definition planted (value : option Q) : option Q :=
  match value with
  | Some area =>
      if negb (Qeq_bool area 0) && Qgtb area 0.01 then Some area else None
  | None => None
  end.

(** The income of one decision, by scenario. *)
Definition revenue_of (scenario : Z) (production expected_sale price_avg : Q) : Q :=
  if Z.eqb scenario 1 then
    let yearly_expected := expected_sale in
    let sold_amount := min production yearly_expected in
    sold_amount * price_avg
  else
    let yearly_expected := expected_sale in
    let normal_sale := min production yearly_expected in
    let excess_sale := max 0 (production - yearly_expected) in
    normal_sale * price_avg + excess_sale * price_avg * 0.5.

Definition result_row (year : Z) (land_name land_type season : string) (crop_id : Z)
  (crop_name category : string) (area production cost revenue profit : Q) : row :=
  [("年份", CInt year);
   ("地块名称", CStr land_name);
   ("地块类型", CStr land_type);
   ("种植季次", CStr season);
   ("作物编号", CInt crop_id);
   ("作物名称", CStr crop_name);
   ("作物分类", CStr category);
   ("种植面积", CNum (round area 2));
   ("产量", CNum (round production 1));
   ("成本", CNum (round cost 1));
   ("收入", CNum (round revenue 1));
   ("利润", CNum (round profit 1))].

(** The body of the extraction loop for one key: the row it appends and the
    profit it adds to [total_profit], if any.  [revenue] is the income rule. *)
Definition extract_key (self : optimizer)
  (revenue : Q -> Q -> Q -> Q) (varValue : var -> option Q) (k : key)
  : option (list (row * Q)) :=
  let '(land_name, year, season, crop_id) := k in
  match planted (varValue (Plant k)) with
  | Some area =>
      land_info <- dict_get String.eqb (lands self) land_name ;;
      let land_type := type land_info in
      crop_info <- dict_get Z.eqb (crops self) crop_id ;;
      let crop_name := name crop_info in
      match find_option self land_type season crop_id with
      | Some opt =>
          let production := area * yield_per_mu opt in
          let cost := area * cost_per_mu opt in
          let expected_sale :=
            match dict_get Z.eqb (expected_sales self) crop_id with
            | Some sale => sale
            | None => 0
            end in
          let revenue := revenue production expected_sale (price_avg opt) in
          let profit := revenue - cost in
          category <- _get_crop_category self crop_id ;;
          Some [(result_row year land_name land_type season crop_id crop_name
                   category area production cost revenue profit, profit)]
      | None => Some []
      end
  | None => Some []
  end.

Definition finish (extracted : list (row * Q)) : run_result :=
  let results := map fst extracted in
  let total_profit := fold_left Qplus (map snd extracted) 0 in
  match results with
  | [] => failure
  | _ :: _ => (Some results, total_profit)
  end.

(** The extraction loop of [solve_and_save]. *)
Definition extract (self : optimizer) (scenario : Z) (varValue : var -> option Q)
  : option run_result :=
  extracted <- flat_mapM (extract_key self (revenue_of scenario) varValue)
                         (x_keys self) ;;
  Some (finish extracted).

(** [_extract_and_save_results]: every unit sells at the full price. *)
Definition _extract_and_save_results (self : optimizer) (varValue : var -> option Q)
  : option run_result :=
  extracted <- flat_mapM
                 (extract_key self
                    (fun production _ price_avg => production * price_avg) varValue)
                 (x_keys self) ;;
  Some (finish extracted).

(** ** [_solve_relaxed_model] *)

Definition relaxed_area_constraints (self : optimizer) : list constraint :=
  let keys := x_keys self in
  flat_map
    (fun '(land_name, land_info) =>
       let max_area := area land_info in
       flat_map
         (fun year =>
            flat_map
              (fun season =>
                 let season_vars := pick keys (at_season land_name year season) in
                 when_nonempty season_vars [le (lpSum season_vars) (number max_area)])
              seasons)
         years)
    (lands self).

Definition relaxed_production_vars (self : optimizer) (crop_id : Z)
  : option (list (Q * var)) :=
  flat_mapM
    (fun k : key =>
       let '(land_name, year, season, c_id) := k in
       if Z.eqb c_id crop_id then
         land_info <- dict_get String.eqb (lands self) land_name ;;
         match find_option self (type land_info) season c_id with
         | Some opt => Some [(yield_per_mu opt, Plant k)]
         | None => Some []
         end
       else Some [])
    (x_keys self).

Definition relaxed_sales_constraints (self : optimizer) : option (list constraint) :=
  flat_mapM
    (fun '(crop_id, expected_sale) =>
       total_production_vars <- relaxed_production_vars self crop_id ;;
       Some (when_nonempty total_production_vars
               [le (weighted total_production_vars) (number (expected_sale * 20))]))
    (expected_sales self).

Definition relaxed_model (self : optimizer) : option problem :=
  total_profit <- objective_terms self 100 ;;
  sales <- relaxed_sales_constraints self ;;
  Some {| objective := weighted total_profit;
          constraints := relaxed_area_constraints self ++ sales;
          continuous := map Plant (x_keys self);
          binaries := [] |}.



End Base.

(* ================================================================== *)
(** * The strict model: [Q2Optimizer] of [Question2_modeling.py] *)

Module Strict.

Record land_info := {
  type : string;
  area : Q
}.

(** A crop after [_classify_crops_strictly] has added its flags. *)
Record crop_info := {
  name : string;
  kind : string;            (* the entry 'type' of the crop *)
  is_legume : bool;
  is_rice : bool;
  is_grain_non_rice : bool;
  is_winter_vegetable : bool;
  is_regular_vegetable : bool;
  is_mushroom : bool
}.

Record planting_option := {
  land_type : string;
  season : string;
  crop_id : Z;
  crop_name : string;
  base_yield : Q;
  base_cost : Q;
  base_price : Q;
  base_profit : Q
}.

Record params := {
  sales_multiplier : Q;
  yield_multiplier : Q;
  cost_multiplier : Q;
  price_multiplier : Q
}.

Record optimizer := {
  lands : list (string * land_info);
  crops : list (Z * crop_info);
  expected_sales : list (Z * Q);
  legume_planted_2023 : list string;
  valid_options : list planting_option;
  expected_params : list (Z * list (Z * params))
}.

Definition classify (r : crop_row) : crop_info :=
  let crop_name := cr_name r in
  let crop_type := cr_type r in
  {| name := crop_name;
     kind := crop_type;
     is_legume := cr_is_legume r;
     is_rice := String.eqb crop_name rice;
     is_grain_non_rice :=
       contains "粮食" crop_type && negb (String.eqb crop_name rice);
     is_winter_vegetable := str_in crop_name winter_vegetables;
     is_regular_vegetable :=
       contains "蔬菜" crop_type && negb (str_in crop_name winter_vegetables);
     is_mushroom := str_in crop_name mushrooms |}.

(** The rules of [_is_valid_strict_combination] on the crop it looked up. *)
Definition valid_combination (land_type season : string) (crop_info : crop_info)
  : bool :=
  if str_in land_type dry_lands then
    String.eqb season single_season && is_grain_non_rice crop_info
  else if String.eqb land_type irrigated then
    if String.eqb season single_season then is_rice crop_info
    else if String.eqb season first_season then is_regular_vegetable crop_info
    else if String.eqb season second_season then is_winter_vegetable crop_info
    else false
  else if str_in land_type greenhouses then
    if String.eqb season first_season then is_regular_vegetable crop_info
    else if String.eqb season second_season then is_mushroom crop_info
    else false
  else if String.eqb land_type smart_greenhouse then
    str_in season [first_season; second_season] && is_regular_vegetable crop_info
  else false.

Definition _is_valid_strict_combination (crops : list (Z * crop_info))
  (land_type season : string) (crop_id : Z) : option bool :=
  crop_info <- dict_get Z.eqb crops crop_id ;;
  Some (valid_combination land_type season crop_info).

Definition make_option (row : stat_row) (crop_info : crop_info) : planting_option :=
  {| land_type := strip (stat_land_type row);
     season := stat_season row;
     crop_id := stat_crop_id row;
     crop_name := name crop_info;
     base_yield := stat_yield_per_mu row;
     base_cost := stat_cost_per_mu row;
     base_price := stat_price_avg row;
     base_profit := stat_profit_per_mu row |}.

(** The loop over [stats_df] that fills [valid_options]. *)
Definition select_valid (crops : list (Z * crop_info)) (stats : list stat_row)
  : list planting_option :=
  flat_map
    (fun row =>
       let land_type := strip (stat_land_type row) in
       match dict_get Z.eqb crops (stat_crop_id row) with
       | None => []
       | Some crop_info =>
           if valid_combination land_type (stat_season row) crop_info
           then [make_option row crop_info]
           else []
       end)
    stats.

(** The set of lands that grew a legume in 2023. *)
Definition legume_history (crops : list (Z * crop_info)) (rows : list planting_row)
  : list string :=
  fold_left
    (fun s row =>
       match dict_get Z.eqb crops (pr_crop_id row) with
       | Some crop_info =>
           if is_legume crop_info && negb (str_in (pr_block_name row) s)
           then s ++ [pr_block_name row]
           else s
       | None => s
       end)
    rows [].

Definition wheat_and_corn : list string := ["小麦"; "玉米"].

Definition params_of (years_from_base : Z) (crop_info : crop_info) : params :=
  let crop_name := name crop_info in
  {| sales_multiplier :=
       if str_in crop_name wheat_and_corn then pow 1.075 years_from_base else 1.0;
     yield_multiplier := 0.95;
     cost_multiplier := pow 1.05 years_from_base;
     price_multiplier :=
       if is_grain_non_rice crop_info || is_rice crop_info then 1.0
       else if is_regular_vegetable crop_info || is_winter_vegetable crop_info
       then pow 1.05 years_from_base
       else if is_mushroom crop_info then
         if String.eqb crop_name "羊肚菌"
         then pow 0.95 years_from_base
         else pow 0.97 years_from_base
       else 1.0 |}.

Definition _calculate_expected_parameters (crops : list (Z * crop_info))
  : list (Z * list (Z * params)) :=
  dict_of_list Z.eqb
    (map (fun year =>
            (year,
             dict_of_list Z.eqb
               (map (fun '(crop_id, crop_info) =>
                       (crop_id, params_of (year - 2023)%Z crop_info))
                    crops)))
         years).

(** [__init__] *)
Definition init (wb : workbook) : optimizer :=
  let lands :=
    dict_of_list String.eqb
      (map (fun r => (lr_name r, {| type := strip (lr_type r); area := lr_area r |}))
           (land_df wb)) in
  let crops :=
    dict_of_list Z.eqb (map (fun r => (cr_id r, classify r)) (crop_df wb)) in
  {| lands := lands;
     crops := crops;
     expected_sales :=
       dict_of_list Z.eqb
         (map (fun r => (sr_crop_id r, sr_expected r)) (expected_sales_df wb));
     legume_planted_2023 := legume_history crops (planting_2023_df wb);
     valid_options := select_valid crops (stats_df wb);
     expected_params := _calculate_expected_parameters crops |}.

(** [self.expected_params[year][crop_id]] *)
Definition params_at (self : optimizer) (year crop_id : Z) : option params :=
  by_crop <- dict_get Z.eqb (expected_params self) year ;;
  dict_get Z.eqb by_crop crop_id.

(** The first option of [valid_options] for a land type, season and crop. *)
Definition find_option (self : optimizer) (land_type season : string) (crop_id : Z)
  : option planting_option :=
  find (fun o => String.eqb (Strict.land_type o) land_type
                 && String.eqb (Strict.season o) season
                 && Z.eqb (Strict.crop_id o) crop_id)
       (valid_options self).

(** ** [create_strict_model] *)

Definition var_keys (self : optimizer) : list key :=
  flat_map
    (fun '(land_name, land_info) =>
       flat_map
         (fun year =>
            flat_map
              (fun opt =>
                 if String.eqb (land_type opt) (type land_info)
                 then [(land_name, year, season opt, crop_id opt)]
                 else [])
              (valid_options self))
         years)
    (lands self).

Definition x (self : optimizer) : list (key * var) :=
  dict_of_list key_eqb (map (fun k => (k, Plant k)) (var_keys self)).

Definition x_keys (self : optimizer) : list key := dict_keys (x self).

Definition pair_eqb (a b : string * Z) : bool :=
  String.eqb (fst a) (fst b) && Z.eqb (snd a) (snd b).

Definition y_water (self : optimizer) : list ((string * Z) * var) :=
  flat_map
    (fun '(land_name, land_info) =>
       if String.eqb (type land_info) irrigated
       then map (fun year => ((land_name, year), Water land_name year)) years
       else [])
    (lands self).

Definition objective_terms (self : optimizer) : option (list (Q * var)) :=
  flat_mapM
    (fun k : key =>
       let '(land_name, year, season, crop_id) := k in
       params <- params_at self year crop_id ;;
       land_info <- dict_get String.eqb (lands self) land_name ;;
       match find_option self (type land_info) season crop_id with
       | Some opt =>
           let expected_yield := base_yield opt * yield_multiplier params in
           let expected_cost := base_cost opt * cost_multiplier params in
           let expected_price := base_price opt * price_multiplier params in
           let profit_per_mu := expected_yield * expected_price - expected_cost in
           crop_info <- dict_get Z.eqb (crops self) crop_id ;;
           let profit_per_mu :=
             if is_legume crop_info then profit_per_mu + 100 else profit_per_mu in
           Some [(profit_per_mu, Plant k)]
       | None => Some []
       end)
    (x_keys self).

Definition pick (keys : list key) (p : key -> bool) : list var :=
  map Plant (filter p keys).

Definition at_season (land_name : string) (year : Z) (season : string) (k : key) : bool :=
  String.eqb (key_land k) land_name && Z.eqb (key_year k) year
  && String.eqb (key_season k) season.

(** The two seasons of a greenhouse or of irrigated land under vegetables must
    cover the same area. *)
Definition equal_seasons (keys : list key) (land_name : string) (year : Z)
  : list constraint :=
  let first_vars := pick keys (at_season land_name year first_season) in
  let second_vars := pick keys (at_season land_name year second_season) in
  when_nonempty first_vars
    (when_nonempty second_vars [eq (lpSum first_vars) (lpSum second_vars)]).

(** 1. Area of each land and year, by the type of the land. *)
Definition area_constraints (self : optimizer) : option (list constraint) :=
  let keys := x_keys self in
  flat_mapM
    (fun '(land_name, land_info) =>
       let max_area := area land_info in
       let land_type := type land_info in
       flat_mapM
         (fun year =>
            if String.eqb land_type irrigated then
              match dict_get pair_eqb (y_water self) (land_name, year) with
              | Some choice =>
                  rice_keys <-
                    filterM
                      (fun k =>
                         if at_season land_name year single_season k then
                           crop_info <- dict_get Z.eqb (crops self) (key_crop k) ;;
                           Some (is_rice crop_info)
                         else Some false)
                      keys ;;
                  let rice_vars := map Plant rice_keys in
                  Some (when_nonempty rice_vars
                          [le (lpSum rice_vars) (times max_area choice)]
                        ++ flat_map
                             (fun season =>
                                let veg_vars :=
                                  pick keys (at_season land_name year season) in
                                when_nonempty veg_vars
                                  [le (lpSum veg_vars)
                                      (times_complement max_area choice)])
                             [first_season; second_season]
                        ++ equal_seasons keys land_name year)
              | None => Some []
              end
            else if str_in land_type dry_lands then
              let season_vars := pick keys (at_season land_name year single_season) in
              Some (when_nonempty season_vars
                      [le (lpSum season_vars) (number max_area)])
            else if str_in land_type (greenhouses ++ [smart_greenhouse]) then
              Some (flat_map
                      (fun season =>
                         let season_vars :=
                           pick keys (at_season land_name year season) in
                         when_nonempty season_vars
                           [le (lpSum season_vars) (number max_area)])
                      [first_season; second_season]
                    ++ equal_seasons keys land_name year)
            else Some [])
         years)
    (lands self).

(** The production terms of one crop in one year. *)
Definition production_vars (self : optimizer) (params : params) (year crop_id : Z)
  : option (list (Q * var)) :=
  flat_mapM
    (fun k : key =>
       let '(land_name, yr, season, c_id) := k in
       if Z.eqb yr year && Z.eqb c_id crop_id then
         land_info <- dict_get String.eqb (lands self) land_name ;;
         match find_option self (type land_info) season c_id with
         | Some opt =>
             let expected_yield := base_yield opt * yield_multiplier params in
             Some [(expected_yield, Plant k)]
         | None => Some []
         end
       else Some [])
    (x_keys self).

(** 2. Sales of each crop and year. *)
Definition sales_constraints (self : optimizer) : option (list constraint) :=
  flat_mapM
    (fun '(crop_id, base_sales) =>
       crop_info <- dict_get Z.eqb (crops self) crop_id ;;
       let crop_name := name crop_info in
       flat_mapM
         (fun year =>
            params <- params_at self year crop_id ;;
            let max_sales :=
              if str_in crop_name wheat_and_corn
              then base_sales * sales_multiplier params
              else base_sales * 1.05 in
            production_vars <- production_vars self params year crop_id ;;
            Some (when_nonempty production_vars
                    [le (weighted production_vars) (number max_sales)]))
         years)
    (expected_sales self).

Definition years_but_last : list Z := removelast years.

Definition at_crop (land_name season : string) (crop_id year : Z) (k : key) : bool :=
  String.eqb (key_land k) land_name && String.eqb (key_season k) season
  && Z.eqb (key_crop k) crop_id && Z.eqb (key_year k) year.

(** 3. No replanting of a crop on a land in consecutive years. *)
Definition replanting_constraints (self : optimizer) : list constraint :=
  let keys := x_keys self in
  flat_map
    (fun land_name =>
       flat_map
         (fun crop_id =>
            flat_map
              (fun season =>
                 flat_map
                   (fun year =>
                      let current_vars :=
                        pick keys (at_crop land_name season crop_id year) in
                      let next_vars :=
                        pick keys (at_crop land_name season crop_id (year + 1)%Z) in
                      flat_map
                        (fun curr_var =>
                           map (fun next_var =>
                                  le (lpSum [curr_var; next_var]) (number 0.1))
                               next_vars)
                        current_vars)
                   years_but_last)
              seasons)
         (dict_keys (crops self)))
    (dict_keys (lands self)).

(** The legume keys of a land within a window of years. *)
Definition legume_keys (self : optimizer) (land_name : string) (window : list Z)
  : option (list key) :=
  flat_mapM
    (fun year =>
       filterM
         (fun k =>
            if String.eqb (key_land k) land_name && Z.eqb (key_year k) year then
              crop_info <- dict_get Z.eqb (crops self) (key_crop k) ;;
              Some (is_legume crop_info)
            else Some false)
         (x_keys self))
    window.

Definition early_window : list Z := [2024; 2025; 2026]%Z.
Definition late_window : list Z := [2027; 2028; 2029]%Z.

(** 4. Legumes at least once in three years. *)
Definition legume_constraints (self : optimizer) : option (list constraint) :=
  flat_mapM
    (fun land_name =>
       early <-
         (if negb (str_in land_name (legume_planted_2023 self)) then
            legume_keys_early <- legume_keys self land_name early_window ;;
            let legume_vars_early := map Plant legume_keys_early in
            Some (when_nonempty legume_vars_early
                    [ge (lpSum legume_vars_early) (number 0.1)])
          else Some []) ;;
       legume_keys_late <-
         legume_keys self land_name (filter (fun year => (year <=? 2030)%Z) late_window) ;;
       let legume_vars_late := map Plant legume_keys_late in
       Some (early
             ++ when_nonempty legume_vars_late
                  [ge (lpSum legume_vars_late) (number 0.1)]))
    (dict_keys (lands self)).

(** The planting keys of a crop in a year. *)
Definition crop_year_keys (keys : list key) (year crop_id : Z) : list key :=
  filter (fun k => Z.eqb (key_year k) year && Z.eqb (key_crop k) crop_id) keys.

(** 5. At least five crops a year, counted by binary indicators. *)
Definition diversity_constraints (self : optimizer) : list constraint :=
  let keys := x_keys self in
  flat_map
    (fun year =>
       flat_map
         (fun crop_id =>
            let crop_vars := map Plant (crop_year_keys keys year crop_id) in
            when_nonempty crop_vars
              [le (lpSum crop_vars) (times 1000 (Grown year crop_id));
               ge (lpSum crop_vars) (times 0.01 (Grown year crop_id))])
         (dict_keys (crops self))
       ++ [ge (lpSum (map (Grown year) (dict_keys (crops self)))) (number 5)])
    years.

Definition crop_count_vars (self : optimizer) : list var :=
  flat_map (fun year => map (Grown year) (dict_keys (crops self))) years.

Definition _add_strict_constraints (self : optimizer) : option (list constraint) :=
  areas <- area_constraints self ;;
  sales <- sales_constraints self ;;
  legumes <- legume_constraints self ;;
  Some (areas
        ++ sales
        ++ replanting_constraints self
        ++ legumes
        ++ diversity_constraints self).

Definition create_strict_model (self : optimizer) : option problem :=
  total_profit <- objective_terms self ;;
  constraints <- _add_strict_constraints self ;;
  Some {| objective := weighted total_profit;
          constraints := constraints;
          continuous := map Plant (x_keys self);
          binaries := map snd (y_water self) ++ crop_count_vars self |}.

(** ** [solve_strict_model] *)

Definition run_result : Type := option (list row) * Q.

Definition failure : run_result := (None, 0).

Definition _get_crop_category_strict (self : optimizer) (crop_id : Z)
  : option string :=
  crop_info <- dict_get Z.eqb (crops self) crop_id ;;
  Some (if is_rice crop_info then "水稻"
        else if is_legume crop_info then "豆类"
        else if is_grain_non_rice crop_info then "粮食类"
        else if is_winter_vegetable crop_info then "冬季蔬菜"
        else if is_mushroom crop_info then "食用菌"
        else if is_regular_vegetable crop_info then "普通蔬菜"
        else "其他").

Definition complies : string := "✅严格符合".
Definition violates : string := "❌违反约束".

Definition _check_strict_constraints (self : optimizer)
  (land_type season : string) (crop_id : Z) : option string :=
  valid <- _is_valid_strict_combination (crops self) land_type season crop_id ;;
  Some (if valid then complies else violates).

Definition planted (value : option Q) : option Q :=
  match value with
  | Some area =>
      if negb (Qeq_bool area 0) && Qgtb area 0.01 then Some area else None
  | None => None
  end.

Definition result_row (year : Z) (land_name land_type season : string) (crop_id : Z)
  (crop_name category : string) (area production cost revenue profit : Q)
  (check : string) : row :=
  [("年份", CInt year);
   ("地块名称", CStr land_name);
   ("地块类型", CStr land_type);
   ("种植季次", CStr season);
   ("作物编号", CInt crop_id);
   ("作物名称", CStr crop_name);
   ("作物分类", CStr category);
   ("种植面积", CNum (round area 2));
   ("期望产量", CNum (round production 1));
   ("期望成本", CNum (round cost 1));
   ("期望收入", CNum (round revenue 1));
   ("期望利润", CNum (round profit 1));
   ("约束验证", CStr check)].

(** The body of the extraction loop for one key; [check] fills the column
    约束验证. *)
Definition extract_key (self : optimizer)
  (check : string -> string -> Z -> option string)
  (varValue : var -> option Q) (k : key) : option (list (row * Q)) :=
  let '(land_name, year, season, crop_id) := k in
  match planted (varValue (Plant k)) with
  | Some area =>
      crop_info <- dict_get Z.eqb (crops self) crop_id ;;
      let crop_name := name crop_info in
      land_info <- dict_get String.eqb (lands self) land_name ;;
      let land_type := type land_info in
      params <- params_at self year crop_id ;;
      match find_option self land_type season crop_id with
      | Some opt =>
          let expected_yield := base_yield opt * yield_multiplier params in
          let expected_cost := base_cost opt * cost_multiplier params in
          let expected_price := base_price opt * price_multiplier params in
          let production := area * expected_yield in
          let cost := area * expected_cost in
          let revenue := production * expected_price in
          let profit := revenue - cost in
          let profit := if is_legume crop_info then profit + area * 100 else profit in
          category <- _get_crop_category_strict self crop_id ;;
          flag <- check land_type season crop_id ;;
          Some [(result_row year land_name land_type season crop_id crop_name
                   category area production cost revenue profit flag, profit)]
      | None => Some []
      end
  | None => Some []
  end.

Definition extract_with (self : optimizer)
  (check : string -> string -> Z -> option string)
  (varValue : var -> option Q) : option run_result :=
  extracted <- flat_mapM (extract_key self check varValue) (x_keys self) ;;
  Some (Some (map fst extracted), fold_left Qplus (map snd extracted) 0).

(** [_extract_strict_results]; the summary [_validate_strict_solution] prints
    changes nothing. *)
Definition _extract_strict_results (self : optimizer) (varValue : var -> option Q)
  : option run_result :=
  extract_with self (_check_strict_constraints self) varValue.

(** [solve_strict_model]: the model is built outside the [try], the solve and
    the extraction run inside it. *)
Definition solve_strict_model (self : optimizer) (solve : solver)
  : option run_result :=
  prob <- create_strict_model self ;;
  match solve None prob with
  | Raised => Some failure
  | Solved status varValue =>
      if status_ok status then
        match _extract_strict_results self varValue with
        | Some result => Some result
        | None => Some failure
        end
      else Some failure
  end.

End Strict.

(* ================================================================== *)
(** * The advanced model: [AdvancedCropOptimizer] of [Question3_modeling.py] *)

Module Advanced.

Record land_info := {
  type : string;
  area : Q
}.

Record crop_info := {
  name : string;
  kind : string;            (* the entry 'type' of the crop *)
  is_legume : bool;
  category : string
}.

Record planting_option := {
  land_type : string;
  season : string;
  crop_id : Z;
  crop_name : string;
  base_yield : Q;
  base_cost : Q;
  base_price : Q;
  base_profit : Q
}.

Record params := {
  sales_multiplier : Q;
  yield_multiplier : Q;
  cost_multiplier : Q;
  price_multiplier : Q;
  scale_economy : Q;
  risk_factor : Q
}.

Record optimizer := {
  lands : list (string * land_info);
  crops : list (Z * crop_info);
  expected_sales : list (Z * Q);
  valid_options : list planting_option;
  demand_elasticity : list (Z * Q);
  correlation_params : list (Z * list (Z * params));
  risk_aversion : Q;
  correlation_risk_adjustment : Q;
  diversity_incentive : Q
}.

Definition _classify_crop_category (crop_name crop_type : string) : string :=
  if String.eqb crop_name rice then "rice"
  else if contains "粮食" crop_type && negb (String.eqb crop_name rice) then "grain"
  else if str_in crop_name winter_vegetables then "winter_vegetable"
  else if str_in crop_name mushrooms then "mushroom"
  else if contains "蔬菜" crop_type && negb (str_in crop_name winter_vegetables)
  then "vegetable"
  else "other".

Definition classify (r : crop_row) : crop_info :=
  let crop_name := cr_name r in
  {| name := crop_name;
     kind := cr_type r;
     is_legume := cr_is_legume r;
     category := _classify_crop_category crop_name (cr_type r) |}.

(** The rules of [_is_valid_combination] on the crop it looked up. *)
Definition valid_combination (land_type season : string) (crop_info : crop_info)
  : bool :=
  let category := category crop_info in
  let crop_name := name crop_info in
  if str_in land_type dry_lands then
    String.eqb season single_season
    && String.eqb category "grain"
    && negb (String.eqb crop_name rice)
  else if String.eqb land_type irrigated then
    if String.eqb season single_season then String.eqb crop_name rice
    else if String.eqb season first_season then
      String.eqb category "vegetable" && negb (str_in crop_name winter_vegetables)
    else if String.eqb season second_season then str_in crop_name winter_vegetables
    else false
  else if str_in land_type greenhouses then
    if String.eqb season first_season then
      String.eqb category "vegetable" && negb (str_in crop_name winter_vegetables)
    else if String.eqb season second_season then String.eqb category "mushroom"
    else false
  else if String.eqb land_type smart_greenhouse then
    str_in season [first_season; second_season]
    && String.eqb category "vegetable"
    && negb (str_in crop_name winter_vegetables)
  else false.

Definition _is_valid_combination (crops : list (Z * crop_info))
  (land_type season : string) (crop_id : Z) : option bool :=
  crop_info <- dict_get Z.eqb crops crop_id ;;
  Some (valid_combination land_type season crop_info).

Definition make_option (row : stat_row) (crop_info : crop_info) : planting_option :=
  {| land_type := strip (stat_land_type row);
     season := stat_season row;
     crop_id := stat_crop_id row;
     crop_name := name crop_info;
     base_yield := stat_yield_per_mu row;
     base_cost := stat_cost_per_mu row;
     base_price := stat_price_avg row;
     base_profit := stat_profit_per_mu row |}.

Definition _get_valid_planting_options (crops : list (Z * crop_info))
  (stats : list stat_row) : list planting_option :=
  flat_map
    (fun row =>
       let land_type := strip (stat_land_type row) in
       match dict_get Z.eqb crops (stat_crop_id row) with
       | None => []
       | Some crop_info =>
           if valid_combination land_type (stat_season row) crop_info
           then [make_option row crop_info]
           else []
       end)
    stats.

(** The elasticities of [_define_crop_relationships]; its two matrices enter
    neither the model nor the result rows. *)
Definition elasticity_of (category : string) : Q :=
  if str_in category ["grain"; "rice"] then - 0.3
  else if str_in category ["vegetable"; "winter_vegetable"] then - 0.8
  else if String.eqb category "mushroom" then - 1.2
  else - 0.5.

Definition _calculate_scale_economy (crop_info : crop_info) : Q :=
  let category := category crop_info in
  if str_in category ["grain"; "rice"] then 0.15
  else if str_in category ["vegetable"; "winter_vegetable"] then 0.10
  else if String.eqb category "mushroom" then 0.20
  else 0.05.

Definition _calculate_risk_factor (crop_info : crop_info) : Q :=
  let category := category crop_info in
  if str_in category ["grain"; "rice"] then 0.1
  else if str_in category ["vegetable"; "winter_vegetable"] then 0.2
  else if String.eqb category "mushroom" then 0.3
  else 0.15.

Definition wheat_and_corn : list string := ["小麦"; "玉米"].

(** ** The random coefficients *)

Section Random.

(** The state of numpy's global generator and [np.random.uniform]. *)
Variable generator : Type.
Variable uniform : Q -> Q -> generator -> Q * generator.

(** The body of the loop over crops for one year. *)
Definition draw_params (years_from_base : Z) (crop_info : crop_info)
  (g : generator) : params * generator :=
  let crop_name := name crop_info in
  let category := category crop_info in
  let '(sales_growth, g) :=
    if str_in crop_name wheat_and_corn then (0.075, g)
    else uniform (- 0.05) 0.05 g in
  let '(yield_change, g) := uniform (- 0.10) 0.10 g in
  let cost_growth := 0.05 in
  let '(price_change, g) :=
    if str_in category ["grain"; "rice"] then uniform (- 0.02) 0.02 g
    else if str_in category ["vegetable"; "winter_vegetable"] then (0.05, g)
    else if String.eqb category "mushroom" then
      if String.eqb crop_name "羊肚菌" then (- 0.05, g)
      else uniform (- 0.05) (- 0.01) g
    else (0.0, g) in
  ({| sales_multiplier := pow (1 + sales_growth) years_from_base;
      yield_multiplier := 1 + yield_change;
      cost_multiplier := pow (1 + cost_growth) years_from_base;
      price_multiplier := pow (1 + price_change) years_from_base;
      scale_economy := _calculate_scale_economy crop_info;
      risk_factor := _calculate_risk_factor crop_info |}, g).

(** A loop that threads the generator through its body. *)
Fixpoint for_each {A B : Type} (body : A -> generator -> B * generator)
  (l : list A) (g : generator) : list B * generator :=
  match l with
  | [] => ([], g)
  | a :: r =>
      let '(b, g) := body a g in
      let '(bs, g) := for_each body r g in
      (b :: bs, g)
  end.

Definition _calculate_correlation_parameters (crops : list (Z * crop_info))
  (g : generator) : list (Z * list (Z * params)) * generator :=
  let '(table, g) :=
    for_each
      (fun year g =>
         let '(by_crop, g) :=
           for_each
             (fun '(crop_id, crop_info) g =>
                let '(p, g) := draw_params (year - 2023)%Z crop_info g in
                ((crop_id, p), g))
             crops g in
         ((year, dict_of_list Z.eqb by_crop), g))
      years g in
  (dict_of_list Z.eqb table, g).

(** [__init__]: the optimizer and the generator it leaves behind. *)
Definition init (wb : workbook) (g : generator) : optimizer * generator :=
  let lands :=
    dict_of_list String.eqb
      (map (fun r => (lr_name r, {| type := strip (lr_type r); area := lr_area r |}))
           (land_df wb)) in
  let crops :=
    dict_of_list Z.eqb (map (fun r => (cr_id r, classify r)) (crop_df wb)) in
  let '(correlation_params, g) := _calculate_correlation_parameters crops g in
  ({| lands := lands;
      crops := crops;
      expected_sales :=
        dict_of_list Z.eqb
          (map (fun r => (sr_crop_id r, sr_expected r)) (expected_sales_df wb));
      valid_options := _get_valid_planting_options crops (stats_df wb);
      demand_elasticity :=
        dict_of_list Z.eqb
          (map (fun '(crop_id, crop_info) =>
                  (crop_id, elasticity_of (category crop_info)))
               crops);
      correlation_params := correlation_params;
      risk_aversion := 0.3;
      correlation_risk_adjustment := 0.1;
      diversity_incentive := 50 |}, g).

End Random.

(** [self.correlation_params[year][crop_id]] *)
Definition params_at (self : optimizer) (year crop_id : Z) : option params :=
  by_crop <- dict_get Z.eqb (correlation_params self) year ;;
  dict_get Z.eqb by_crop crop_id.

Definition _find_option (self : optimizer) (land_name season : string) (crop_id : Z)
  : option (option planting_option) :=
  land_info <- dict_get String.eqb (lands self) land_name ;;
  let land_type := type land_info in
  Some (find (fun o => String.eqb (Advanced.land_type o) land_type
                       && String.eqb (Advanced.season o) season
                       && Z.eqb (Advanced.crop_id o) crop_id)
             (valid_options self)).

(** ** [create_advanced_model] *)

Definition var_keys (self : optimizer) : list key :=
  flat_map
    (fun '(land_name, land_info) =>
       flat_map
         (fun year =>
            flat_map
              (fun opt =>
                 if String.eqb (land_type opt) (type land_info)
                 then [(land_name, year, season opt, crop_id opt)]
                 else [])
              (valid_options self))
         years)
    (lands self).

Definition x (self : optimizer) : list (key * var) :=
  dict_of_list key_eqb (map (fun k => (k, Plant k)) (var_keys self)).

Definition x_keys (self : optimizer) : list key := dict_keys (x self).

Definition pair_eqb (a b : string * Z) : bool :=
  String.eqb (fst a) (fst b) && Z.eqb (snd a) (snd b).

Definition y_water (self : optimizer) : list ((string * Z) * var) :=
  flat_map
    (fun '(land_name, land_info) =>
       if String.eqb (type land_info) irrigated
       then map (fun year => ((land_name, year), Water land_name year)) years
       else [])
    (lands self).

(** The keys (year, crop_id) of [z_crop]. *)
Definition z_crop_keys (self : optimizer) : list (Z * Z) :=
  flat_map (fun year => map (fun crop_id => (year, crop_id)) (dict_keys (crops self)))
           years.

Definition in_z_crop (self : optimizer) (year crop_id : Z) : bool :=
  existsb (fun yc => Z.eqb (fst yc) year && Z.eqb (snd yc) crop_id) (z_crop_keys self).

Definition _build_advanced_objective (self : optimizer) : option (list (Q * var)) :=
  profits <-
    flat_mapM
      (fun k : key =>
         let '(land_name, year, season, crop_id) := k in
         params <- params_at self year crop_id ;;
         found <- _find_option self land_name season crop_id ;;
         match found with
         | Some opt =>
             let expected_yield := base_yield opt * yield_multiplier params in
             let expected_cost := base_cost opt * cost_multiplier params in
             let expected_price := base_price opt * price_multiplier params in
             let base_profit := expected_yield * expected_price - expected_cost in
             let scale_benefit := scale_economy params * 100 in
             let risk_penalty := risk_factor params * 50 in
             crop_info <- dict_get Z.eqb (crops self) crop_id ;;
             let complementarity_bonus := if is_legume crop_info then 100 else 0 in
             let adjusted_profit :=
               base_profit + scale_benefit - risk_penalty + complementarity_bonus in
             Some [(adjusted_profit, Plant k)]
         | None => Some []
         end)
      (x_keys self) ;;
  Some (profits
        ++ flat_map
             (fun year =>
                flat_map
                  (fun crop_id =>
                     if in_z_crop self year crop_id
                     then [(diversity_incentive self, Grown year crop_id)]
                     else [])
                  (dict_keys (crops self)))
             years).

Definition pick (keys : list key) (p : key -> bool) : list var :=
  map Plant (filter p keys).

Definition at_season (land_name : string) (year : Z) (season : string) (k : key) : bool :=
  String.eqb (key_land k) land_name && Z.eqb (key_year k) year
  && String.eqb (key_season k) season.

Definition equal_seasons (keys : list key) (land_name : string) (year : Z)
  : list constraint :=
  let first_vars := pick keys (at_season land_name year first_season) in
  let second_vars := pick keys (at_season land_name year second_season) in
  when_nonempty first_vars
    (when_nonempty second_vars [eq (lpSum first_vars) (lpSum second_vars)]).

Definition named_rice (self : optimizer) (crop_id : Z) : bool :=
  match dict_get Z.eqb (crops self) crop_id with
  | Some crop_info => String.eqb (name crop_info) rice
  | None => false
  end.

(** 1. Area of each land and year, and no area on a combination the rules
    forbid. *)
Definition _add_basic_constraints (self : optimizer) : option (list constraint) :=
  let keys := x_keys self in
  let areas :=
    flat_map
      (fun '(land_name, land_info) =>
         let max_area := area land_info in
         let land_type := type land_info in
         flat_map
           (fun year =>
              if String.eqb land_type irrigated then
                match dict_get pair_eqb (y_water self) (land_name, year) with
                | Some choice =>
                    let rice_vars :=
                      pick keys
                        (fun k => at_season land_name year single_season k
                                  && named_rice self (key_crop k)) in
                    when_nonempty rice_vars
                      [le (lpSum rice_vars) (times max_area choice)]
                    ++ flat_map
                         (fun season =>
                            let veg_vars :=
                              pick keys (at_season land_name year season) in
                            when_nonempty veg_vars
                              [le (lpSum veg_vars)
                                  (times_complement max_area choice)])
                         [first_season; second_season]
                    ++ equal_seasons keys land_name year
                | None => []
                end
              else if str_in land_type dry_lands then
                let season_vars :=
                  pick keys (at_season land_name year single_season) in
                when_nonempty season_vars [le (lpSum season_vars) (number max_area)]
              else if str_in land_type (greenhouses ++ [smart_greenhouse]) then
                flat_map
                  (fun season =>
                     let season_vars := pick keys (at_season land_name year season) in
                     when_nonempty season_vars
                       [le (lpSum season_vars) (number max_area)])
                  [first_season; second_season]
                ++ equal_seasons keys land_name year
              else [])
           years)
      (lands self) in
  rules <-
    flat_mapM
      (fun k : key =>
         let '(land_name, year, season, crop_id) := k in
         land_info <- dict_get String.eqb (lands self) land_name ;;
         valid <- _is_valid_combination (crops self) (type land_info) season crop_id ;;
         Some (if negb valid then [eq (lpSum [Plant k]) (number 0)] else []))
      keys ;;
  Some (areas ++ rules).

(** The production terms of one crop in one year. *)
Definition production_vars (self : optimizer) (keys : list key) (params : params)
  (year crop_id : Z) : option (list (Q * var)) :=
  flat_mapM
    (fun k : key =>
       let '(land_name, yr, season, c_id) := k in
       if Z.eqb yr year && Z.eqb c_id crop_id then
         found <- _find_option self land_name season c_id ;;
         match found with
         | Some opt =>
             let expected_yield := base_yield opt * yield_multiplier params in
             Some [(expected_yield, Plant k)]
         | None => Some []
         end
       else Some [])
    keys.

(** 2. Production against the demand the price change leaves. *)
Definition _add_demand_elasticity_constraints (self : optimizer)
  : option (list constraint) :=
  flat_mapM
    (fun '(crop_id, base_sales) =>
       elasticity <- dict_get Z.eqb (demand_elasticity self) crop_id ;;
       flat_mapM
         (fun year =>
            params <- params_at self year crop_id ;;
            let price_effect := 1 + elasticity * (price_multiplier params - 1) in
            let adjusted_demand :=
              base_sales * sales_multiplier params * price_effect in
            production_vars <-
              production_vars self (x_keys self) params year crop_id ;;
            Some (when_nonempty production_vars
                    [le (weighted production_vars) (number (adjusted_demand * 1.1))]))
         years)
    (expected_sales self).

Definition crop_year_keys (keys : list key) (year crop_id : Z) : list key :=
  filter (fun k => Z.eqb (key_year k) year && Z.eqb (key_crop k) crop_id) keys.

(** 3. The crop indicators. *)
Definition _add_crop_indicator_constraints (self : optimizer) : list constraint :=
  let keys := x_keys self in
  flat_map
    (fun year =>
       flat_map
         (fun crop_id =>
            let crop_vars := map Plant (crop_year_keys keys year crop_id) in
            when_nonempty crop_vars
              [le (lpSum crop_vars) (times 1000 (Grown year crop_id));
               ge (lpSum crop_vars) (times 0.1 (Grown year crop_id))])
         (dict_keys (crops self)))
    years.

(** 4. At least six crops a year and one of each main category. *)
Definition _add_diversity_constraints (self : optimizer) : list constraint :=
  flat_map
    (fun year =>
       let crop_indicators :=
         map (Grown year)
             (filter (in_z_crop self year) (dict_keys (crops self))) in
       when_nonempty crop_indicators [ge (lpSum crop_indicators) (number 6)]
       ++ flat_map
            (fun wanted =>
               let category_indicators :=
                 map (fun '(crop_id, _) => Grown year crop_id)
                     (filter
                        (fun '(crop_id, crop_info) =>
                           String.eqb (category crop_info) wanted
                           && in_z_crop self year crop_id)
                        (crops self)) in
               when_nonempty category_indicators
                 [ge (lpSum category_indicators) (number 1)])
            ["grain"; "vegetable"; "mushroom"])
    years.

Definition years_but_last : list Z := removelast years.

Definition at_key (land_name : string) (year : Z) (season : string) (crop_id : Z)
  (k : key) : bool :=
  at_season land_name year season k && Z.eqb (key_crop k) crop_id.

Definition replanting_constraints (keys : list key) (self : optimizer)
  : list constraint :=
  flat_map
    (fun land_name =>
       flat_map
         (fun crop_id =>
            flat_map
              (fun season =>
                 flat_map
                   (fun year =>
                      let current_vars :=
                        pick keys (at_key land_name year season crop_id) in
                      let next_vars :=
                        pick keys (at_key land_name (year + 1)%Z season crop_id) in
                      when_nonempty current_vars
                        (when_nonempty next_vars
                           [le (plus (lpSum current_vars) (lpSum next_vars))
                               (number 0.1)]))
                   years_but_last)
              seasons)
         (dict_keys (crops self)))
    (dict_keys (lands self)).

(** The legume keys of a land within a window of years. *)
Definition legume_keys (self : optimizer) (land_name : string) (window : list Z)
  : option (list key) :=
  flat_mapM
    (fun year =>
       if existsb (Z.eqb year) years then
         filterM
           (fun k =>
              if String.eqb (key_land k) land_name && Z.eqb (key_year k) year then
                crop_info <- dict_get Z.eqb (crops self) (key_crop k) ;;
                Some (is_legume crop_info)
              else Some false)
           (x_keys self)
       else Some [])
    window.

Definition early_window : list Z := [2024; 2025; 2026]%Z.
Definition late_window : list Z := [2027; 2028; 2029]%Z.

Definition legume_constraints (self : optimizer) : option (list constraint) :=
  flat_mapM
    (fun land_name =>
       legume_keys_early <- legume_keys self land_name early_window ;;
       let legume_vars_early := map Plant legume_keys_early in
       legume_keys_late <- legume_keys self land_name late_window ;;
       let legume_vars_late := map Plant legume_keys_late in
       Some (when_nonempty legume_vars_early
               [ge (lpSum legume_vars_early) (number 0.2)]
             ++ when_nonempty legume_vars_late
                  [ge (lpSum legume_vars_late) (number 0.2)]))
    (dict_keys (lands self)).

(** 5. No replanting, and legumes at least once in three years. *)
Definition _add_rotation_constraints (self : optimizer) : option (list constraint) :=
  legumes <- legume_constraints self ;;
  Some (replanting_constraints (x_keys self) self ++ legumes).

(** [sum(info['area'] for info in self.lands.values())] *)
Definition total_land_area (self : optimizer) : Q :=
  fold_left Qplus (map (fun '(_, land_info) => area land_info) (lands self)) 0.

(** 6. No crop on more than 40% of the land, mushrooms on at most 15%. *)
Definition _add_risk_control_constraints (self : optimizer) : option (list constraint) :=
  let keys := x_keys self in
  let total_area := total_land_area self in
  let single :=
    flat_map
      (fun crop_id =>
         flat_map
           (fun year =>
              let crop_vars := map Plant (crop_year_keys keys year crop_id) in
              when_nonempty crop_vars
                [le (lpSum crop_vars) (number (total_area * 0.4))])
           years)
      (dict_keys (crops self)) in
  mushroom <-
    flat_mapM
      (fun year =>
         mushroom_keys <-
           filterM
             (fun k =>
                if Z.eqb (key_year k) year then
                  crop_info <- dict_get Z.eqb (crops self) (key_crop k) ;;
                  Some (String.eqb (category crop_info) "mushroom")
                else Some false)
             keys ;;
         let mushroom_vars := map Plant mushroom_keys in
         Some (when_nonempty mushroom_vars
                 [le (lpSum mushroom_vars) (number (total_area * 0.15))]))
      years ;;
  Some (single ++ mushroom).

(** [q * lpSum(vs)] *)
Definition scaled_sum (q : Q) (vs : list var) : expr :=
  {| terms := map (fun v => (q * 1, v)) vs; const := q * 0 |}.

(** 7. Legumes on 5% to 25% of the planted area of each year. *)
Definition _add_complementarity_constraints (self : optimizer)
  : option (list constraint) :=
  flat_mapM
    (fun year =>
       flags <-
         mapM
           (fun k =>
              crop_info <- dict_get Z.eqb (crops self) (key_crop k) ;;
              Some (k, is_legume crop_info))
           (filter (fun k => Z.eqb (key_year k) year) (x_keys self)) ;;
       let legume_vars := map (fun kb => Plant (fst kb)) (filter snd flags) in
       let non_legume_vars :=
         map (fun kb => Plant (fst kb)) (filter (fun kb => negb (snd kb)) flags) in
       let total_vars := legume_vars ++ non_legume_vars in
       Some (when_nonempty legume_vars
               (when_nonempty non_legume_vars
                  [ge (lpSum legume_vars) (scaled_sum 0.05 total_vars);
                   le (lpSum legume_vars) (scaled_sum 0.25 total_vars)])))
    years.

Definition _add_advanced_constraints (self : optimizer) : option (list constraint) :=
  basic <- _add_basic_constraints self ;;
  demand <- _add_demand_elasticity_constraints self ;;
  rotation <- _add_rotation_constraints self ;;
  risk <- _add_risk_control_constraints self ;;
  complementarity <- _add_complementarity_constraints self ;;
  Some (basic
        ++ demand
        ++ _add_crop_indicator_constraints self
        ++ _add_diversity_constraints self
        ++ rotation
        ++ risk
        ++ complementarity).

Definition create_advanced_model (self : optimizer) : option problem :=
  total_objective <- _build_advanced_objective self ;;
  constraints <- _add_advanced_constraints self ;;
  Some {| objective := weighted total_objective;
          constraints := constraints;
          continuous := map Plant (x_keys self);
          binaries := map snd (y_water self)
                      ++ map (fun yc => Grown (fst yc) (snd yc)) (z_crop_keys self) |}.

(** ** [solve_advanced_model] *)

Definition run_result : Type := option (list row) * Q.

Definition failure : run_result := (None, 0).

Definition planted (value : option Q) : option Q :=
  match value with
  | Some area =>
      if negb (Qeq_bool area 0) && Qgtb area 0.01 then Some area else None
  | None => None
  end.

(** The figures [_extract_advanced_results] computes for one decision. *)
Record economics := {
  scale_effect : Q;
  production : Q;
  cost : Q;
  price_effect : Q;
  revenue : Q;
  profit : Q;
  risk_adjustment : Q;
  adjusted_profit : Q
}.

Definition advanced_economics (risk_aversion : Q) (opt : planting_option)
  (params : params) (elasticity area : Q) : economics :=
  let expected_yield := base_yield opt * yield_multiplier params in
  let expected_cost := base_cost opt * cost_multiplier params in
  let expected_price := base_price opt * price_multiplier params in
  let scale_effect := 1 - scale_economy params * (area / 10) in
  let adjusted_cost := expected_cost * scale_effect in
  let production := area * expected_yield in
  let cost := area * adjusted_cost in
  let price_effect := 1 + elasticity * (price_multiplier params - 1) * 0.5 in
  let adjusted_price := expected_price * price_effect in
  let revenue := production * adjusted_price in
  let profit := revenue - cost in
  let risk_adjustment := profit * risk_factor params * risk_aversion in
  let adjusted_profit := profit - risk_adjustment in
  {| scale_effect := scale_effect;
     production := production;
     cost := cost;
     price_effect := price_effect;
     revenue := revenue;
     profit := profit;
     risk_adjustment := risk_adjustment;
     adjusted_profit := adjusted_profit |}.

Definition result_row (year : Z) (land_name land_type season : string) (crop_id : Z)
  (crop_name category : string)
  (area production cost revenue profit scale elasticity risk : Q) : row :=
  [("年份", CInt year);
   ("地块名称", CStr land_name);
   ("地块类型", CStr land_type);
   ("种植季次", CStr season);
   ("作物编号", CInt crop_id);
   ("作物名称", CStr crop_name);
   ("作物分类", CStr category);
   ("种植面积", CNum (round area 2));
   ("预期产量", CNum (round production 1));
   ("调整成本", CNum (round cost 1));
   ("调整收入", CNum (round revenue 1));
   ("风险调整利润", CNum (round profit 1));
   ("规模效应", CNum (round scale 1));
   ("需求弹性影响", CNum (round elasticity 1));
   ("风险调整", CNum (round risk 1))].

(** The body of the loop of [_extract_advanced_results] for one key. *)
Definition extract_key (self : optimizer) (varValue : var -> option Q) (k : key)
  : option (list (row * Q)) :=
  let '(land_name, year, season, crop_id) := k in
  match planted (varValue (Plant k)) with
  | Some area =>
      crop_info <- dict_get Z.eqb (crops self) crop_id ;;
      let crop_name := name crop_info in
      land_info <- dict_get String.eqb (lands self) land_name ;;
      let land_type := type land_info in
      params <- params_at self year crop_id ;;
      found <- _find_option self land_name season crop_id ;;
      match found with
      | Some opt =>
          elasticity <- dict_get Z.eqb (demand_elasticity self) crop_id ;;
          let e := advanced_economics (risk_aversion self) opt params elasticity area in
          Some [(result_row year land_name land_type season crop_id crop_name
                   (category crop_info) area (production e) (cost e) (revenue e)
                   (adjusted_profit e)
                   ((1 - scale_effect e) * 100)
                   ((price_effect e - 1) * 100)
                   (risk_adjustment e),
                 adjusted_profit e)]
      | None => Some []
      end
  | None => Some []
  end.

(** [_extract_advanced_results]; the analysis it prints is left out. *)
Definition _extract_advanced_results (self : optimizer) (varValue : var -> option Q)
  : option run_result :=
  extracted <- flat_mapM (extract_key self varValue) (x_keys self) ;;
  Some (Some (map fst extracted), fold_left Qplus (map snd extracted) 0).

(** ** [_solve_simplified_model] *)

Definition simplified_objective (self : optimizer) : option (list (Q * var)) :=
  flat_mapM
    (fun k : key =>
       let '(land_name, year, season, crop_id) := k in
       params <- params_at self year crop_id ;;
       found <- _find_option self land_name season crop_id ;;
       match found with
       | Some opt =>
           let expected_yield := base_yield opt * yield_multiplier params in
           let expected_cost := base_cost opt * cost_multiplier params in
           let expected_price := base_price opt * price_multiplier params in
           let base_profit := expected_yield * expected_price - expected_cost in
           crop_info <- dict_get Z.eqb (crops self) crop_id ;;
           let base_profit :=
             if is_legume crop_info then base_profit + 100 else base_profit in
           Some [(base_profit, Plant k)]
       | None => Some []
       end)
    (x_keys self).

Definition simplified_area_constraints (self : optimizer) : list constraint :=
  let keys := x_keys self in
  flat_map
    (fun '(land_name, land_info) =>
       let max_area := area land_info in
       flat_map
         (fun year =>
            flat_map
              (fun season =>
                 let season_vars := pick keys (at_season land_name year season) in
                 when_nonempty season_vars [le (lpSum season_vars) (number max_area)])
              seasons)
         years)
    (lands self).

Definition simplified_sales_constraints (self : optimizer) : option (list constraint) :=
  flat_mapM
    (fun '(crop_id, base_sales) =>
       flat_mapM
         (fun year =>
            params <- params_at self year crop_id ;;
            let max_sales := base_sales * sales_multiplier params * 1.2 in
            production_vars <-
              production_vars self (x_keys self) params year crop_id ;;
            Some (when_nonempty production_vars
                    [le (weighted production_vars) (number max_sales)]))
         years)
    (expected_sales self).

Definition _add_simplified_constraints (self : optimizer) : option (list constraint) :=
  sales <- simplified_sales_constraints self ;;
  Some (simplified_area_constraints self
        ++ sales
        ++ replanting_constraints (x_keys self) self).

Definition simplified_model (self : optimizer) : option problem :=
  total_objective_simple <- simplified_objective self ;;
  constraints <- _add_simplified_constraints self ;;
  Some {| objective := weighted total_objective_simple;
          constraints := constraints;
          continuous := map Plant (x_keys self);
          binaries := [] |}.

Definition simplified_row (year : Z) (land_name land_type season : string)
  (crop_id : Z) (crop_name category : string)
  (area production cost revenue profit : Q) : row :=
  [("年份", CInt year);
   ("地块名称", CStr land_name);
   ("地块类型", CStr land_type);
   ("种植季次", CStr season);
   ("作物编号", CInt crop_id);
   ("作物名称", CStr crop_name);
   ("作物分类", CStr category);
   ("种植面积", CNum (round area 2));
   ("预期产量", CNum (round production 1));
   ("调整成本", CNum (round cost 1));
   ("调整收入", CNum (round revenue 1));
   ("风险调整利润", CNum (round profit 1));
   ("规模效应", CNum 0.0);
   ("需求弹性影响", CNum 0.0);
   ("风险调整", CNum 0.0)].

Definition extract_simplified_key (self : optimizer) (varValue : var -> option Q)
  (k : key) : option (list (row * Q)) :=
  let '(land_name, year, season, crop_id) := k in
  match planted (varValue (Plant k)) with
  | Some area =>
      crop_info <- dict_get Z.eqb (crops self) crop_id ;;
      let crop_name := name crop_info in
      land_info <- dict_get String.eqb (lands self) land_name ;;
      let land_type := type land_info in
      params <- params_at self year crop_id ;;
      found <- _find_option self land_name season crop_id ;;
      match found with
      | Some opt =>
          let expected_yield := base_yield opt * yield_multiplier params in
          let expected_cost := base_cost opt * cost_multiplier params in
          let expected_price := base_price opt * price_multiplier params in
          let production := area * expected_yield in
          let cost := area * expected_cost in
          let revenue := production * expected_price in
          let profit := revenue - cost in
          let profit := if is_legume crop_info then profit + area * 100 else profit in
          Some [(simplified_row year land_name land_type season crop_id crop_name
                   (category crop_info) area production cost revenue profit, profit)]
      | None => Some []
      end
  | None => Some []
  end.

Definition _extract_simplified_results (self : optimizer) (varValue : var -> option Q)
  : option run_result :=
  extracted <- flat_mapM (extract_simplified_key self varValue) (x_keys self) ;;
  Some (Some (map fst extracted), fold_left Qplus (map snd extracted) 0).

(** [_solve_simplified_model]: the whole body runs inside a [try]. *)
Definition _solve_simplified_model (self : optimizer) (solve : solver) : run_result :=
  match simplified_model self with
  | None => failure
  | Some prob_simple =>
      match solve None prob_simple with
      | Raised => failure
      | Solved status varValue =>
          if status_ok status then
            match _extract_simplified_results self varValue with
            | Some result => result
            | None => failure
            end
          else failure
      end
  end.

(** [solve_advanced_model]: the model is built outside the [try]; the solve and
    the extraction run inside it, and every failure there leads to the
    simplified model. *)
Definition solve_advanced_model (self : optimizer) (solve : solver)
  : option run_result :=
  prob <- create_advanced_model self ;;
  match solve None prob with
  | Raised => Some (_solve_simplified_model self solve)
  | Solved status varValue =>
      if status_ok status then
        match _extract_advanced_results self varValue with
        | Some result => Some result
        | None => Some (_solve_simplified_model self solve)
        end
      else Some (_solve_simplified_model self solve)
  end.

End Advanced.

(* ================================================================== *)
(** * Example data and the predicates of the statements *)



(** A regular vegetable. *)
Definition cucumber : crop_row :=
  {| cr_id := 22; cr_name := "黄瓜"; cr_type := "蔬菜"; cr_is_legume := false |}.

(** A statistics row whose land-type label ends in a blank. *)
Definition smart_greenhouse_row : stat_row :=
  {| stat_land_type := "智慧大棚 ";
     stat_season := first_season;
     stat_crop_id := 22;
     stat_yield_per_mu := 15000;
     stat_cost_per_mu := 3000;
     stat_price_avg := 7;
     stat_profit_per_mu := 102000 |}.

(** One dry field of 10 mu, two legumes with statistics and six grains
    without. *)
Definition farm : workbook :=
  {| land_df := [ {| lr_name := "A1"; lr_type := "平旱地"; lr_area := 10 |} ];
     crop_df :=
       [ {| cr_id := 1; cr_name := "黄豆"; cr_type := "粮食（豆类）"; cr_is_legume := true |};
         {| cr_id := 2; cr_name := "黑豆"; cr_type := "粮食（豆类）"; cr_is_legume := true |};
         {| cr_id := 6; cr_name := "小麦"; cr_type := "粮食"; cr_is_legume := false |};
         {| cr_id := 7; cr_name := "玉米"; cr_type := "粮食"; cr_is_legume := false |};
         {| cr_id := 8; cr_name := "谷子"; cr_type := "粮食"; cr_is_legume := false |};
         {| cr_id := 9; cr_name := "高粱"; cr_type := "粮食"; cr_is_legume := false |};
         {| cr_id := 10; cr_name := "黍子"; cr_type := "粮食"; cr_is_legume := false |};
         {| cr_id := 11; cr_name := "荞麦"; cr_type := "粮食"; cr_is_legume := false |} ];
     stats_df :=
       [ {| stat_land_type := "平旱地"; stat_season := "单季"; stat_crop_id := 1;
            stat_yield_per_mu := 400; stat_cost_per_mu := 400; stat_price_avg := 3.25;
            stat_profit_per_mu := 900 |};
         {| stat_land_type := "平旱地"; stat_season := "单季"; stat_crop_id := 2;
            stat_yield_per_mu := 500; stat_cost_per_mu := 400; stat_price_avg := 7.5;
            stat_profit_per_mu := 3350 |} ];
     planting_2023_df := [ {| pr_block_name := "A1"; pr_crop_id := 6 |} ];
     expected_sales_df :=
       [ {| sr_crop_id := 1; sr_expected := 57000 |};
         {| sr_crop_id := 2; sr_expected := 21850 |} ] |}.

(** Both legumes on 0.1 mu in 2024 and in 2027, nothing else. *)
Definition plan : valuation :=
  fun v =>
    match v with
    | Plant k => if Z.eqb (key_year k) 2024 || Z.eqb (key_year k) 2027 then 0.1 else 0
    | Grown year crop =>
        if (crop <=? 2)%Z
        then if Z.eqb year 2024 || Z.eqb year 2027 then 1 else 0
        else 1
    | Planted k => if Z.eqb (key_year k) 2024 || Z.eqb (key_year k) 2027 then 1 else 0
    | Water _ _ => 0
    end.

(** A generator that always draws the middle of the interval. *)
Definition midpoint (a b : Q) (g : unit) : Q * unit := ((a + b) / 2, g).

(** The three optimizers on that farm. *)
Definition strict_farm : Strict.optimizer := Strict.init farm.

Definition advanced_farm : Advanced.optimizer := fst (Advanced.init unit midpoint farm tt).

Definition base_farm : Base.optimizer := Base._process_data farm.

(** Both legumes on 0.5 mu in 2024 and nothing afterwards. *)
Definition early_only_plan : valuation :=
  fun v =>
    match v with
    | Plant k => if Z.eqb (key_year k) 2024 then 0.5 else 0
    | Planted k => if Z.eqb (key_year k) 2024 then 1 else 0
    | Grown _ _ => 0
    | Water _ _ => 0
    end.

(** The column that holds the verdict of the check. *)
Definition check_column : string := "约束验证".

(** The solver's values for a plan: every variable has its value. *)
Definition values_of (a : valuation) : var -> option Q := fun v => Some (a v).

(** The number of rows of a run, when it has rows. *)
Definition row_count (r : option (option (list row) * Q)) : option nat :=
  match r with
  | Some (Some rows, _) => Some (length rows)
  | _ => None
  end.













(** A text that starts, or a reversed text that ends, with white space. *)
Definition head_space (s : list ascii) : bool :=
  match s with
  | [] => false
  | a :: r1 =>
      is_space1 a
      || match r1 with
         | [] => false
         | b :: r2 =>
             is_space2 a b
             || match r2 with
                | [] => false
                | c :: _ => is_space3 a b c
                end
         end
  end.

Definition tail_space (s : list ascii) : bool :=
  match s with
  | [] => false
  | a :: r1 =>
      is_space1 a
      || match r1 with
         | [] => false
         | b :: r2 =>
             is_space2 b a
             || match r2 with
                | [] => false
                | c :: _ => is_space3 c b a
                end
         end
  end.

(** The workbook with the land-type labels of both sheets stripped. *)
Definition strip_labels (wb : workbook) : workbook :=
  {| land_df :=
       map (fun r => {| lr_name := lr_name r;
                        lr_type := strip (lr_type r);
                        lr_area := lr_area r |})
           (land_df wb);
     crop_df := crop_df wb;
     stats_df :=
       map (fun r => {| stat_land_type := strip (stat_land_type r);
                        stat_season := stat_season r;
                        stat_crop_id := stat_crop_id r;
                        stat_yield_per_mu := stat_yield_per_mu r;
                        stat_cost_per_mu := stat_cost_per_mu r;
                        stat_price_avg := stat_price_avg r;
                        stat_profit_per_mu := stat_profit_per_mu r |})
           (stats_df wb);
     planting_2023_df := planting_2023_df wb;
     expected_sales_df := expected_sales_df wb |}.

(** One irrigated field of 15 mu with rice, a first-season legume and a
    winter vegetable; the field grew the legume in 2023. *)
Definition paddy : workbook :=
  {| land_df := [ {| lr_name := "D1"; lr_type := "水浇地"; lr_area := 15 |} ];
     crop_df :=
       [ {| cr_id := 16; cr_name := "水稻"; cr_type := "粮食"; cr_is_legume := false |};
         {| cr_id := 17; cr_name := "豇豆"; cr_type := "蔬菜（豆类）"; cr_is_legume := true |};
         {| cr_id := 35; cr_name := "大白菜"; cr_type := "蔬菜"; cr_is_legume := false |} ];
     stats_df :=
       [ {| stat_land_type := "水浇地"; stat_season := "单季"; stat_crop_id := 16;
            stat_yield_per_mu := 500; stat_cost_per_mu := 680; stat_price_avg := 7;
            stat_profit_per_mu := 2820 |};
         {| stat_land_type := "水浇地"; stat_season := "第一季"; stat_crop_id := 17;
            stat_yield_per_mu := 3000; stat_cost_per_mu := 2000; stat_price_avg := 8;
            stat_profit_per_mu := 22000 |};
         {| stat_land_type := "水浇地"; stat_season := "第二季"; stat_crop_id := 35;
            stat_yield_per_mu := 5000; stat_cost_per_mu := 2000; stat_price_avg := 2.5;
            stat_profit_per_mu := 10500 |} ];
     planting_2023_df := [ {| pr_block_name := "D1"; pr_crop_id := 17 |} ];
     expected_sales_df :=
       [ {| sr_crop_id := 16; sr_expected := 21000 |};
         {| sr_crop_id := 17; sr_expected := 36480 |};
         {| sr_crop_id := 35; sr_expected := 150000 |} ] |}.

Definition paddy_farm : Base.optimizer := Base._process_data paddy.

(** Rice on the whole field in the even years, nothing in the odd ones. *)
Definition rice_plan : valuation :=
  fun v =>
    match v with
    | Plant k => if Z.eqb (key_crop k) 16 && Z.even (key_year k) then 15 else 0
    | Planted k =>
        if Z.eqb (key_crop k) 16 && Z.even (key_year k)
           && String.eqb (key_season k) single_season
        then 1 else 0
    | Water _ year => if Z.even year then 1 else 0
    | Grown _ _ => 0
    end.

(** The keys whose value passes [area and area > 0.01]. *)
Definition planted_keys (varValue : var -> option Q) (keys : list key) : list key :=
  filter (fun k => match Base.planted (varValue (Plant k)) with
                   | Some _ => true
                   | None => false
                   end)
         keys.

(** The decision a result row stands for, read from its columns. *)
Definition row_key (r : row) : option key :=
  match row_get r "地块名称", row_get r "年份", row_get r "种植季次",
        row_get r "作物编号" with
  | Some (CStr land_name), Some (CInt year), Some (CStr season), Some (CInt crop_id) =>
      Some (land_name, year, season, crop_id)
  | _, _, _, _ => None
  end.

(** [_calculate_correlation_benefits]: a frame of no rows has no column 年份
    and [groupby] raises [KeyError]; on rows of the extraction the function
    only prints. *)
Definition _calculate_correlation_benefits (results : list row) : option unit :=
  match results with
  | [] => None
  | _ :: _ => Some tt
  end.

(** [_extract_advanced_results] together with the report it ends on. *)
Definition extract_and_report (self : Advanced.optimizer) (varValue : var -> option Q)
  : option Advanced.run_result :=
  result <- Advanced._extract_advanced_results self varValue ;;
  match fst result with
  | Some results => _ <- _calculate_correlation_benefits results ;; Some result
  | None => Some result
  end.

(** [solve_advanced_model] with that extraction inside its [try]. *)
Definition solve_and_report (self : Advanced.optimizer) (solve : solver)
  : option Advanced.run_result :=
  prob <- Advanced.create_advanced_model self ;;
  match solve None prob with
  | Raised => Some (Advanced._solve_simplified_model self solve)
  | Solved status varValue =>
      if status_ok status then
        match extract_and_report self varValue with
        | Some result => Some result
        | None => Some (Advanced._solve_simplified_model self solve)
        end
      else Some (Advanced._solve_simplified_model self solve)
  end.

(** A solver that reports success and leaves every variable at zero. *)
Definition idle_solver : solver := fun _ _ => Solved "Optimal" (fun _ => Some 0).

(** An irrigated field with the three crops of [paddy] and five crops that
    have no row in the statistics, hence no variable. *)
Definition wet_farm : workbook :=
  {| land_df := land_df paddy;
     crop_df :=
       crop_df paddy
       ++ [ {| cr_id := 6; cr_name := "小麦"; cr_type := "粮食"; cr_is_legume := false |};
            {| cr_id := 7; cr_name := "玉米"; cr_type := "粮食"; cr_is_legume := false |};
            {| cr_id := 8; cr_name := "谷子"; cr_type := "粮食"; cr_is_legume := false |};
            {| cr_id := 9; cr_name := "高粱"; cr_type := "粮食"; cr_is_legume := false |};
            {| cr_id := 10; cr_name := "黍子"; cr_type := "粮食"; cr_is_legume := false |} ];
     stats_df := stats_df paddy;
     planting_2023_df := planting_2023_df paddy;
     expected_sales_df := expected_sales_df paddy |}.

(** A tenth of a mu of rice in the even years, and of cowpea and then cabbage
    in 2027; the indicators of the crops without variables set. *)
Definition wet_plan : valuation :=
  fun v =>
    match v with
    | Plant k =>
        if Z.eqb (key_crop k) 16 then if Z.even (key_year k) then 0.1 else 0
        else if Z.eqb (key_year k) 2027 then 0.1 else 0
    | Water _ year => if Z.even year then 1 else 0
    | Grown year crop =>
        if Z.eqb crop 16 then if Z.even year then 1 else 0
        else if (crop <=? 10)%Z then 1
        else if Z.eqb year 2027 then 1 else 0
    | Planted _ => 0
    end.

(** [self.crops[crop_id]['is_legume']] on the crop of a key. *)
Definition legume_key (self : Advanced.optimizer) (k : key) : bool :=
  match dict_get Z.eqb (Advanced.crops self) (key_crop k) with
  | Some crop_info => Advanced.is_legume crop_info
  | None => false
  end.

(** [self.crops[crop_id]['category'] == 'mushroom'] on the crop of a key. *)
Definition mushroom_key (self : Advanced.optimizer) (k : key) : bool :=
  match dict_get Z.eqb (Advanced.crops self) (key_crop k) with
  | Some crop_info => String.eqb (Advanced.category crop_info) "mushroom"
  | None => false
  end.

(** The dry field of [farm] with statistics for all its eight crops, and six
    more crops that have no row in the statistics. *)
Definition mixed_farm : workbook :=
  {| land_df := land_df farm;
     crop_df :=
       crop_df farm
       ++ map (fun id => {| cr_id := id; cr_name := "杂粮"; cr_type := "粮食";
                            cr_is_legume := false |})
              [3; 4; 5; 12; 13; 14]%Z;
     stats_df :=
       map (fun id => {| stat_land_type := "平旱地"; stat_season := single_season;
                         stat_crop_id := id; stat_yield_per_mu := 400;
                         stat_cost_per_mu := 400; stat_price_avg := 3;
                         stat_profit_per_mu := 800 |})
           [1; 2; 6; 7; 8; 9; 10; 11]%Z;
     planting_2023_df := planting_2023_df farm;
     expected_sales_df :=
       map (fun id => {| sr_crop_id := id; sr_expected := 50000 |})
           [1; 2; 6; 7; 8; 9; 10; 11]%Z |}.

(** A tenth of a mu of soybeans with wheat, maize and millet in 2024 and 2026,
    of black beans with the three other grains in 2027 and 2029. *)
Definition mixed_plan : valuation :=
  let grown (year crop : Z) : bool :=
    ((Z.eqb year 2024 || Z.eqb year 2026)
     && (Z.eqb crop 1 || Z.eqb crop 6 || Z.eqb crop 7 || Z.eqb crop 8))
    || ((Z.eqb year 2027 || Z.eqb year 2029)
        && (Z.eqb crop 2 || Z.eqb crop 9 || Z.eqb crop 10 || Z.eqb crop 11)) in
  fun v =>
    match v with
    | Plant k => if grown (key_year k) (key_crop k) then 0.1 else 0
    | Grown year crop =>
        if existsb (Z.eqb crop) [3; 4; 5; 12; 13; 14]%Z then 1
        else if grown year crop then 1 else 0
    | Planted _ => 0
    | Water _ _ => 0
    end.

(** The advanced optimizer on that farm. *)
Definition mixed_advanced : Advanced.optimizer :=
  fst (Advanced.init unit midpoint mixed_farm tt).

(** [o] stands before [p] in a list sorted by profit, largest first. *)
Definition profit_desc (o p : Base.planting_option) : Prop :=
  Base.profit_per_mu p <= Base.profit_per_mu o.

(** A row of the 2023 sheet that names the land with a known legume. *)
Definition legume_row (wb : workbook) (land_name : string) (row : planting_row) : Prop :=
  pr_block_name row = land_name
  /\ Base.crop_is_legume (Base.crops (Base._process_data wb)) (pr_crop_id row) = true.

(* ================================================================== *)
(** * [_define_crop_relationships] of [Question3_modeling.py]: the two
    matrices *)

(** [self.substitution_matrix[i][j] = ...] *)
Definition substitution_entry (crops : list (Z * Advanced.crop_info)) (i j : Z)
  : option Q :=
  if Z.eqb i j then Some 1.0
  else
    crop_i <- dict_get Z.eqb crops i ;;
    crop_j <- dict_get Z.eqb crops j ;;
    let cat_i := Advanced.category crop_i in
    let cat_j := Advanced.category crop_j in
    if String.eqb cat_i cat_j then
      if str_in cat_i ["grain"; "vegetable"] then Some 0.8
      else if str_in cat_i ["mushroom"] then Some 0.6
      else Some 0.4
    else if String.eqb cat_i "grain" && Advanced.is_legume crop_j
            || String.eqb cat_j "grain" && Advanced.is_legume crop_i
    then Some 0.3
    else Some 0.1.

(** [self.complementarity_matrix[i][j] = ...] *)
Definition complementarity_entry (crops : list (Z * Advanced.crop_info)) (i j : Z)
  : option Q :=
  if Z.eqb i j then Some 0.0
  else
    crop_i <- dict_get Z.eqb crops i ;;
    crop_j <- dict_get Z.eqb crops j ;;
    if Advanced.is_legume crop_i && negb (Advanced.is_legume crop_j) then Some 0.6
    else if negb (Advanced.is_legume crop_i) && Advanced.is_legume crop_j then Some 0.6
    else if negb (String.eqb (Advanced.category crop_i) (Advanced.category crop_j))
    then Some 0.2
    else Some (- 0.1).

(** The two nested loops over [crop_ids] that fill a matrix. *)
Definition matrix_of (entry : Z -> Z -> option Q) (crop_ids : list Z)
  : option (list (Z * list (Z * Q))) :=
  rows <-
    mapM (fun i =>
            row <- mapM (fun j => v <- entry i j ;; Some (j, v)) crop_ids ;;
            Some (i, dict_of_list Z.eqb row))
         crop_ids ;;
  Some (dict_of_list Z.eqb rows).

Record relationships := {
  substitution_matrix : list (Z * list (Z * Q));
  complementarity_matrix : list (Z * list (Z * Q))
}.

Definition _define_crop_relationships (crops : list (Z * Advanced.crop_info))
  : option relationships :=
  let crop_ids := dict_keys crops in
  substitution <- matrix_of (substitution_entry crops) crop_ids ;;
  complementarity <- matrix_of (complementarity_entry crops) crop_ids ;;
  Some {| substitution_matrix := substitution;
          complementarity_matrix := complementarity |}.

(** [matrix[i][j]] *)
Definition matrix_get (matrix : list (Z * list (Z * Q))) (i j : Z) : option Q :=
  row <- dict_get Z.eqb matrix i ;;
  dict_get Z.eqb row j.

(** The value an entry holds, or zero where the entry raises. *)
Definition entry_value (entry : Z -> Z -> option Q) (i j : Z) : Q :=
  match entry i j with
  | Some v => v
  | None => 0
  end.

(* ================================================================== *)
(** * [data_preprocessing.py]: from the two attachments to the workbook *)

Module Preprocessing.

(** A value of [land_info]. *)
Record land := {
  type : string;
  area : Q
}.

(** A record of [statistics_data]. *)
Record statistic := {
  crop_id : Z;
  crop_name : string;
  land_type : string;
  season : string;
  yield_per_mu : Q;
  cost_per_mu : Q;
  price_min : Q;
  price_max : Q;
  price_avg : Q;
  revenue_per_mu : Q;
  profit_per_mu : Q;
  profit_rate : Q
}.

(** A record of [planting_data]. *)
Record planting := {
  pl_block_name : string;
  pl_crop_id : Z;
  pl_crop_name : string;
  pl_crop_type : string;
  pl_area : Q;
  pl_season : string
}.

(** [process_land_data]: the type is stripped, later rows overwrite. *)
Definition process_land_data (land_df : list land_row) : list (string * land) :=
  dict_of_list String.eqb
    (map (fun row => (lr_name row, {| type := strip (lr_type row); area := lr_area row |}))
         land_df).

Definition common_greenhouse : string := "普通大棚".

(** The test of [supplement_smart_greenhouse_data] on one record. *)
Definition first_season_vegetable (stat : statistic) : bool :=
  String.eqb (strip (land_type stat)) common_greenhouse
  && String.eqb (strip (season stat)) first_season
  && (negb (contains "菇" (crop_name stat)) && negb (contains "菌" (crop_name stat))).

(** [smart_stat = stat.copy(); smart_stat['land_type'] = '智慧大棚'] *)
Definition as_smart_greenhouse (stat : statistic) : statistic :=
  {| crop_id := crop_id stat;
     crop_name := crop_name stat;
     land_type := smart_greenhouse;
     season := season stat;
     yield_per_mu := yield_per_mu stat;
     cost_per_mu := cost_per_mu stat;
     price_min := price_min stat;
     price_max := price_max stat;
     price_avg := price_avg stat;
     revenue_per_mu := revenue_per_mu stat;
     profit_per_mu := profit_per_mu stat;
     profit_rate := profit_rate stat |}.

Definition supplement_smart_greenhouse_data (statistics_data : list statistic)
  : list statistic :=
  let greenhouse_first_season := filter first_season_vegetable statistics_data in
  let supplemented_data := map as_smart_greenhouse greenhouse_first_season in
  statistics_data ++ supplemented_data.

(** The keys of [stats_lookup]: crop, land type and season. *)
Definition stat_key : Type := Z * string * string.

Definition stat_key_eqb (a b : stat_key) : bool :=
  let '(crop_a, type_a, season_a) := a in
  let '(crop_b, type_b, season_b) := b in
  Z.eqb crop_a crop_b && String.eqb type_a type_b && String.eqb season_a season_b.

Definition stats_lookup (statistics_data : list statistic) : list (stat_key * statistic) :=
  dict_of_list stat_key_eqb
    (map (fun stat => ((crop_id stat, land_type stat, season stat), stat))
         statistics_data).

(** The type of the land of a planting, ['平旱地'] for an unknown land. *)
Definition land_type_of (land_info : list (string * land)) (block_name : string)
  : string :=
  match dict_get String.eqb land_info block_name with
  | Some info => type info
  | None => "平旱地"
  end.

(** The production of 2023 a planting adds, when the statistics know its
    crop on its type of land in its season. *)
Definition total_yield (lookup : list (stat_key * statistic))
  (land_info : list (string * land)) (p : planting) : option Q :=
  let key := (pl_crop_id p, land_type_of land_info (pl_block_name p), pl_season p) in
  match dict_get stat_key_eqb lookup key with
  | Some stat => Some (pl_area p * yield_per_mu stat)
  | None => None
  end.

Definition calculate_expected_sales (planting_data : list planting)
  (statistics_data : list statistic) (land_info : list (string * land))
  : option (list (Z * Q)) :=
  let stats_lookup := stats_lookup statistics_data in
  fold_left
    (fun acc p =>
       expected_sales <- acc ;;
       match total_yield stats_lookup land_info p with
       | Some total_yield =>
           let crop_id := pl_crop_id p in
           let expected_sales :=
             if dict_mem Z.eqb expected_sales crop_id then expected_sales
             else dict_set Z.eqb expected_sales crop_id 0 in
           old <- dict_get Z.eqb expected_sales crop_id ;;
           Some (dict_set Z.eqb expected_sales crop_id (old + total_yield))
       | None => Some expected_sales
       end)
    planting_data (Some []).

End Preprocessing.

(** ** Data and predicates for the statements on the preprocessing *)

(** The productions that the plantings of a crop add, in the order of the
    sheet. *)
Definition yields_of (lookup : list (Preprocessing.stat_key * Preprocessing.statistic))
  (land_info : list (string * Preprocessing.land)) (crop_id : Z)
  (planting_data : list Preprocessing.planting) : list Q :=
  flat_map
    (fun p =>
       if Z.eqb (Preprocessing.pl_crop_id p) crop_id then
         match Preprocessing.total_yield lookup land_info p with
         | Some total_yield => [total_yield]
         | None => []
         end
       else [])
    planting_data.

(** [0 + y1 + y2 + ...] on top of what the dictionary held. *)
Definition accumulate (held : option Q) (yields : list Q) : option Q :=
  match yields with
  | [] => held
  | _ :: _ =>
      Some (fold_left Qplus yields
              match held with
              | Some v => v
              | None => 0
              end)
  end.

(** A shiitake record of the statistics whose label ends in a space, as the
    attachment writes the common greenhouses, and a planting it should
    serve. *)
Definition padded_statistic : Preprocessing.statistic :=
  {| Preprocessing.crop_id := 38;
     Preprocessing.crop_name := "香菇";
     Preprocessing.land_type := "普通大棚 ";
     Preprocessing.season := second_season;
     Preprocessing.yield_per_mu := 4000;
     Preprocessing.cost_per_mu := 2000;
     Preprocessing.price_min := 18;
     Preprocessing.price_max := 20;
     Preprocessing.price_avg := 19;
     Preprocessing.revenue_per_mu := 76000;
     Preprocessing.profit_per_mu := 74000;
     Preprocessing.profit_rate := 3700 |}.

Definition shiitake_planting : Preprocessing.planting :=
  {| Preprocessing.pl_block_name := "E1";
     Preprocessing.pl_crop_id := 38;
     Preprocessing.pl_crop_name := "香菇";
     Preprocessing.pl_crop_type := "食用菌";
     Preprocessing.pl_area := 0.6;
     Preprocessing.pl_season := second_season |}.

Definition greenhouse_sheet : list land_row :=
  [ {| lr_name := "E1"; lr_type := "普通大棚 "; lr_area := 0.6 |} ].

(* ================================================================== *)
(** * [_validate_planting_rules] of [Question2_modeling.py] *)




(* ================================================================== *)
(** * General lemmas *)

Lemma bind_Some {A B : Type} (m : option A) (f : A -> option B) (b : B) :
  bind m f = Some b -> exists a, m = Some a /\ f a = Some b.
Proof.
  destruct m as [a|]; simpl; intros H; [exists a; auto | discriminate].
Qed.

Lemma mapM_Some {A B : Type} (f : A -> option B) (l : list A) (r : list B) :
  mapM f l = Some r -> Forall2 (fun a b => f a = Some b) l r.
Proof.
  revert r; induction l as [|a l IH]; simpl; intros r H.
  - inversion H; constructor.
  - apply bind_Some in H; destruct H as (b & Hb & H).
    apply bind_Some in H; destruct H as (bs & Hbs & H).
    inversion H; subst; constructor; auto.
Qed.

Lemma flat_mapM_Some {A B : Type} (f : A -> option (list B)) (l : list A) (r : list B) :
  flat_mapM f l = Some r ->
  exists parts, Forall2 (fun a bs => f a = Some bs) l parts /\ r = concat parts.
Proof.
  unfold flat_mapM; destruct (mapM f l) as [parts|] eqn:E; simpl; intros H.
  - inversion H; subst; exists parts; split; [apply mapM_Some; assumption | reflexivity].
  - discriminate.
Qed.

(** Every element of the result comes from the body at some element. *)
Lemma flat_mapM_elim {A B : Type} (f : A -> option (list B)) (l : list A) (r : list B) (b : B) :
  flat_mapM f l = Some r -> In b r ->
  exists a bs, In a l /\ f a = Some bs /\ In b bs.
Proof.
  intros H Hb; apply flat_mapM_Some in H; destruct H as (parts & HF & ->).
  apply in_concat in Hb; destruct Hb as (bs & Hbs & Hb).
  induction HF as [|a bs' l parts Hf HF IH]; simpl in Hbs; [contradiction|].
  destruct Hbs as [->|Hbs].
  - exists a, bs; simpl; auto.
  - destruct (IH Hbs) as (a' & bs'' & Ha & Hf' & Hb'').
    exists a', bs''; simpl; auto.
Qed.

(** The body succeeds at every element and its output is in the result. *)
Lemma flat_mapM_intro {A B : Type} (f : A -> option (list B)) (l : list A) (r : list B) (a : A) :
  flat_mapM f l = Some r -> In a l ->
  exists bs, f a = Some bs /\ incl bs r.
Proof.
  intros H Ha; apply flat_mapM_Some in H; destruct H as (parts & HF & ->).
  induction HF as [|a' bs' l parts Hf HF IH]; simpl in Ha; [contradiction|].
  destruct Ha as [->|Ha].
  - exists bs'; split; auto. simpl; apply incl_appl, incl_refl.
  - destruct (IH Ha) as (bs & Hbs & Hincl).
    exists bs; split; auto. simpl; apply incl_appr; assumption.
Qed.

Ltac unbind H :=
  let a := fresh "v" in
  let E := fresh "E" in
  apply bind_Some in H; destruct H as (a & E & H).

Section DictFacts.
Context {K V : Type} (eqb : K -> K -> bool).
Hypothesis eqb_eq : forall a b, eqb a b = true <-> a = b.

Lemma dict_get_In (d : list (K * V)) (k : K) (v : V) :
  dict_get eqb d k = Some v -> In (k, v) d.
Proof.
  induction d as [|[k' v'] d IH]; simpl; [discriminate|].
  destruct (eqb k' k) eqn:E; intros H.
  - apply eqb_eq in E; inversion H; subst; auto.
  - auto.
Qed.

Lemma dict_get_key (d : list (K * V)) (k : K) (v : V) :
  dict_get eqb d k = Some v -> In k (dict_keys d).
Proof.
  intros H; apply dict_get_In in H.
  unfold dict_keys; apply in_map_iff; exists (k, v); auto.
Qed.

Lemma dict_key_get (d : list (K * V)) (k : K) :
  In k (dict_keys d) -> exists v, dict_get eqb d k = Some v.
Proof.
  induction d as [|[k' v'] d IH]; simpl; [contradiction|].
  intros [->|H].
  - assert (E : eqb k k = true) by (apply eqb_eq; reflexivity).
    rewrite E; eauto.
  - destruct (eqb k' k); eauto.
Qed.

Lemma dict_set_In (d : list (K * V)) (k k0 : K) (v v0 : V) :
  In (k0, v0) (dict_set eqb d k v) -> In (k0, v0) d \/ (k0, v0) = (k, v).
Proof.
  induction d as [|[k' v'] d IH]; simpl.
  - intros [H|[]]; auto.
  - destruct (eqb k' k) eqn:E; simpl.
    + apply eqb_eq in E; subst.
      intros [H|H]; [right; congruence | auto].
    + intros [H|H]; [auto | destruct (IH H); auto].
Qed.

Lemma dict_set_keys (d : list (K * V)) (k k0 : K) (v : V) :
  In k0 (dict_keys (dict_set eqb d k v)) <-> In k0 (dict_keys d) \/ k0 = k.
Proof.
  unfold dict_keys; induction d as [|[k' v'] d IH]; simpl.
  - intuition congruence.
  - destruct (eqb k' k) eqn:E; simpl.
    + apply eqb_eq in E; subst; intuition congruence.
    + rewrite IH; tauto.
Qed.

Lemma dict_of_list_In (l : list (K * V)) (k : K) (v : V) :
  In (k, v) (dict_of_list eqb l) -> In (k, v) l.
Proof.
  unfold dict_of_list.
  assert (G : forall acc,
             In (k, v) (fold_left (fun d kv => dict_set eqb d (fst kv) (snd kv)) l acc) ->
             In (k, v) acc \/ In (k, v) l).
  { induction l as [|[k1 v1] l IH]; simpl; intros acc H; [auto|].
    apply IH in H; destruct H as [H|H]; [|auto].
    apply dict_set_In in H; destruct H as [H|H]; [auto|].
    right; left; congruence. }
  intros H; apply G in H; destruct H as [[]|H]; assumption.
Qed.

Lemma dict_of_list_keys (l : list (K * V)) (k : K) :
  In k (dict_keys (dict_of_list eqb l)) <-> In k (map fst l).
Proof.
  unfold dict_of_list.
  assert (G : forall acc,
             In k (dict_keys
                     (fold_left (fun d kv => dict_set eqb d (fst kv) (snd kv)) l acc)) <->
             In k (dict_keys acc) \/ In k (map fst l)).
  { induction l as [|[k1 v1] l IH]; simpl; intros acc; [tauto|].
    rewrite IH, dict_set_keys; simpl; intuition congruence. }
  rewrite G; simpl; tauto.
Qed.
End DictFacts.

Lemma key_eqb_eq (a b : key) : key_eqb a b = true <-> a = b.
Proof.
  destruct a as [[[l1 y1] s1] c1], b as [[[l2 y2] s2] c2]; simpl.
  rewrite !andb_true_iff, !String.eqb_eq, !Z.eqb_eq.
  split; [intros [[[-> ->] ->] ->]; reflexivity | intros H; inversion H; auto].
Qed.

Lemma pair_eqb_eq (a b : string * Z) :
  (String.eqb (fst a) (fst b) && Z.eqb (snd a) (snd b) = true) <-> a = b.
Proof.
  destruct a, b; simpl; rewrite andb_true_iff, String.eqb_eq, Z.eqb_eq.
  split; [intros [-> ->]; reflexivity | intros H; inversion H; auto].
Qed.

Lemma when_nonempty_In {A B : Type} (l : list A) (body : list B) (b : B) :
  l <> [] -> In b body -> In b (when_nonempty l body).
Proof. destruct l; [congruence | simpl; auto]. Qed.

(** ** Linear expressions *)

Lemma sum_terms_lpSum (a : valuation) (ks : list key) :
  sum_terms a (terms (lpSum (map Plant ks))) == total_area a ks.
Proof.
  induction ks as [|k ks IH]; simpl; [reflexivity|].
  simpl in IH; rewrite IH; ring.
Qed.

Lemma eval_lpSum (a : valuation) (ks : list key) :
  eval a (lpSum (map Plant ks)) == total_area a ks.
Proof. unfold eval; rewrite sum_terms_lpSum; simpl; ring. Qed.

Lemma eval_number (a : valuation) (q : Q) : eval a (number q) == q.
Proof. unfold eval; simpl; ring. Qed.

Lemma eval_times (a : valuation) (q : Q) (v : var) : eval a (times q v) == q * a v.
Proof. unfold eval; simpl; ring. Qed.

Lemma feasible_holds (a : valuation) (p : problem) (c : constraint) :
  feasible a p -> In c (constraints p) -> holds a c.
Proof.
  intros (H & _ & _) Hc; rewrite Forall_forall in H; auto.
Qed.

Lemma feasible_binary (a : valuation) (p : problem) (v : var) :
  feasible a p -> In v (binaries p) -> is_binary (a v).
Proof.
  intros (_ & _ & H) Hv; rewrite Forall_forall in H; auto.
Qed.

Lemma holdsb_holds (a : valuation) (c : constraint) :
  holdsb a c = true -> holds a c.
Proof.
  unfold holdsb, holds; destruct (rel c); intros H.
  - apply Qle_bool_iff; assumption.
  - apply Qle_bool_iff; assumption.
  - apply Qeq_bool_iff; assumption.
Qed.

Lemma feasibleb_feasible (a : valuation) (p : problem) :
  feasibleb a p = true -> feasible a p.
Proof.
  unfold feasibleb, feasible; rewrite !andb_true_iff, !forallb_forall.
  intros [[H1 H2] H3]; repeat split; apply Forall_forall; intros x Hx.
  - apply holdsb_holds; auto.
  - apply Qle_bool_iff; auto.
  - specialize (H3 x Hx); apply orb_true_iff in H3.
    destruct H3 as [H|H]; apply Qeq_bool_iff in H; [left | right]; assumption.
Qed.

(* ================================================================== *)
(** * The catalogue of planting options *)

Lemma insert_desc_In (o p : Base.planting_option) (l : list Base.planting_option) :
  In p (Base.insert_desc o l) <-> p = o \/ In p l.
Proof.
  induction l as [|q l IH]; simpl.
  - intuition.
  - destruct (Qle_bool (Base.profit_per_mu o) (Base.profit_per_mu q)); simpl.
    + rewrite IH; intuition.
    + intuition.
Qed.

Lemma sort_desc_In (l : list Base.planting_option) (o : Base.planting_option) :
  In o (Base.sort_desc l) <-> In o l.
Proof.
  unfold Base.sort_desc.
  assert (G : forall acc,
             In o (fold_left (fun acc o => Base.insert_desc o acc) l acc) <->
             In o acc \/ In o l).
  { induction l as [|p l IH]; simpl; intros acc; [tauto|].
    rewrite IH, insert_desc_In; intuition. }
  rewrite G; simpl; tauto.
Qed.

Lemma base_select_valid_In (crops : list (Z * Base.crop_info)) (stats : list stat_row)
  (o : Base.planting_option) :
  In o (Base.select_valid crops stats) <->
  exists row crop_info,
    In row stats
    /\ dict_get Z.eqb crops (stat_crop_id row) = Some crop_info
    /\ Base._is_valid_planting_combination
         (stat_land_type row) (stat_season row) crop_info = true
    /\ o = Base.make_option row crop_info.
Proof.
  unfold Base.select_valid; rewrite in_flat_map; split.
  - intros (row & Hrow & Ho).
    destruct (dict_get Z.eqb crops (stat_crop_id row)) as [ci|] eqn:E; [|contradiction].
    destruct (Base._is_valid_planting_combination _ _ ci) eqn:V; [|contradiction].
    destruct Ho as [<-|[]]; exists row, ci; auto.
  - intros (row & ci & Hrow & E & V & ->).
    exists row; split; [assumption|]; rewrite E, V; simpl; auto.
Qed.

Lemma strict_select_valid_In (crops : list (Z * Strict.crop_info)) (stats : list stat_row)
  (o : Strict.planting_option) :
  In o (Strict.select_valid crops stats) <->
  exists row crop_info,
    In row stats
    /\ dict_get Z.eqb crops (stat_crop_id row) = Some crop_info
    /\ Strict.valid_combination
         (strip (stat_land_type row)) (stat_season row) crop_info = true
    /\ o = Strict.make_option row crop_info.
Proof.
  unfold Strict.select_valid; rewrite in_flat_map; split.
  - intros (row & Hrow & Ho).
    destruct (dict_get Z.eqb crops (stat_crop_id row)) as [ci|] eqn:E; [|contradiction].
    destruct (Strict.valid_combination _ _ ci) eqn:V; [|contradiction].
    destruct Ho as [<-|[]]; exists row, ci; auto.
  - intros (row & ci & Hrow & E & V & ->).
    exists row; split; [assumption|]; rewrite E, V; simpl; auto.
Qed.

Lemma advanced_valid_options_In (crops : list (Z * Advanced.crop_info))
  (stats : list stat_row) (o : Advanced.planting_option) :
  In o (Advanced._get_valid_planting_options crops stats) <->
  exists row crop_info,
    In row stats
    /\ dict_get Z.eqb crops (stat_crop_id row) = Some crop_info
    /\ Advanced.valid_combination
         (strip (stat_land_type row)) (stat_season row) crop_info = true
    /\ o = Advanced.make_option row crop_info.
Proof.
  unfold Advanced._get_valid_planting_options; rewrite in_flat_map; split.
  - intros (row & Hrow & Ho).
    destruct (dict_get Z.eqb crops (stat_crop_id row)) as [ci|] eqn:E; [|contradiction].
    destruct (Advanced.valid_combination _ _ ci) eqn:V; [|contradiction].
    destruct Ho as [<-|[]]; exists row, ci; auto.
  - intros (row & ci & Hrow & E & V & ->).
    exists row; split; [assumption|]; rewrite E, V; simpl; auto.
Qed.

Lemma advanced_init_fields (generator : Type)
  (uniform : Q -> Q -> generator -> Q * generator) (wb : workbook) (g : generator) :
  let self := fst (Advanced.init generator uniform wb g) in
  Advanced.crops self
  = dict_of_list Z.eqb (map (fun r => (cr_id r, Advanced.classify r)) (crop_df wb))
  /\ Advanced.valid_options self
     = Advanced._get_valid_planting_options (Advanced.crops self) (stats_df wb)
  /\ Advanced.lands self
     = dict_of_list String.eqb
         (map (fun r => (lr_name r,
                         {| Advanced.type := strip (lr_type r);
                            Advanced.area := lr_area r |}))
              (land_df wb))
  /\ Advanced.risk_aversion self = 0.3
  /\ Advanced.correlation_params self
     = fst (Advanced._calculate_correlation_parameters generator uniform
              (Advanced.crops self) g).
Proof.
  unfold Advanced.init; cbv zeta.
  destruct (Advanced._calculate_correlation_parameters generator uniform _ g)
    as [table g'] eqn:E; cbn [fst Advanced.crops Advanced.valid_options Advanced.lands
                               Advanced.risk_aversion Advanced.correlation_params].
  rewrite E; repeat split; reflexivity.
Qed.

(** C1. Catalogue soundness.  In each of the three variants an option is in
    the catalogue exactly when it was made from a row of the statistics whose
    crop is known and whose (land type, season, crop) passes the eligibility
    predicate (on the stripped label in the strict and advanced variants), and
    the predicate holds of the triple every option of the catalogue carries;
    the tradeable options of the base variant are options of its catalogue. *)
Theorem catalog_soundness (wb : workbook) :
  let base := Base._process_data wb in
  let strict := Strict.init wb in
  (forall o,
      In o (Base.valid_planting_options base) <->
      exists row crop_info,
        In row (stats_df wb)
        /\ dict_get Z.eqb (Base.crops base) (stat_crop_id row) = Some crop_info
        /\ Base._is_valid_planting_combination
             (stat_land_type row) (stat_season row) crop_info = true
        /\ o = Base.make_option row crop_info)
  /\ (forall o,
         In o (Base.valid_planting_options base) ->
         exists crop_info,
           dict_get Z.eqb (Base.crops base) (Base.crop_id o) = Some crop_info
           /\ Base._is_valid_planting_combination
                (Base.land_type o) (Base.season o) crop_info = true)
  /\ (forall o,
         In o (Base.viable_options base) -> In o (Base.valid_planting_options base))
  /\ (forall o,
         In o (Strict.valid_options strict) <->
         exists row crop_info,
           In row (stats_df wb)
           /\ dict_get Z.eqb (Strict.crops strict) (stat_crop_id row) = Some crop_info
           /\ Strict.valid_combination
                (strip (stat_land_type row)) (stat_season row) crop_info = true
           /\ o = Strict.make_option row crop_info)
  /\ (forall o,
         In o (Strict.valid_options strict) ->
         Strict._is_valid_strict_combination (Strict.crops strict)
           (Strict.land_type o) (Strict.season o) (Strict.crop_id o) = Some true)
  /\ (forall (generator : Type) (uniform : Q -> Q -> generator -> Q * generator)
             (g : generator),
         let advanced := fst (Advanced.init generator uniform wb g) in
         (forall o,
             In o (Advanced.valid_options advanced) <->
             exists row crop_info,
               In row (stats_df wb)
               /\ dict_get Z.eqb (Advanced.crops advanced) (stat_crop_id row)
                  = Some crop_info
               /\ Advanced.valid_combination
                    (strip (stat_land_type row)) (stat_season row) crop_info = true
               /\ o = Advanced.make_option row crop_info)
         /\ (forall o,
                In o (Advanced.valid_options advanced) ->
                Advanced._is_valid_combination (Advanced.crops advanced)
                  (Advanced.land_type o) (Advanced.season o) (Advanced.crop_id o)
                = Some true)).
Proof.
  intros base strict.
  split; [intros o; apply base_select_valid_In|].
  split.
  { intros o H; apply base_select_valid_In in H.
    destruct H as (row & ci & _ & E & V & ->); exists ci; simpl; auto. }
  split.
  { intros o H; subst base; simpl in H.
    apply sort_desc_In, filter_In in H; apply H. }
  split; [intros o; apply strict_select_valid_In|].
  split.
  { intros o H; apply strict_select_valid_In in H.
    destruct H as (row & ci & _ & E & V & ->); simpl.
    unfold Strict._is_valid_strict_combination; rewrite E; simpl; rewrite V; reflexivity. }
  intros generator uniform g advanced.
  destruct (advanced_init_fields generator uniform wb g) as (_ & Hv & _).
  fold advanced in Hv; rewrite Hv.
  split; [intros o; apply advanced_valid_options_In|].
  intros o H; apply advanced_valid_options_In in H.
  destruct H as (row & ci & _ & E & V & ->); simpl.
  unfold Advanced._is_valid_combination; rewrite E; simpl; rewrite V; reflexivity.
Qed.

(* ================================================================== *)
(** * The eligibility rules on irrigated land *)




(* ================================================================== *)
(** * White space around land-type labels *)

(** C3, at the failing input.  The base predicate compares the label as it
    stands: a smart-greenhouse or irrigated label with a trailing space is
    rejected where the stripped label is accepted, and the base catalogue
    drops the row that the strict and advanced catalogues keep. *)
Theorem base_predicate_keeps_whitespace :
  Base._is_valid_planting_combination "智慧大棚 " first_season (Base.classify cucumber)
  = false
  /\ Base._is_valid_planting_combination (strip "智慧大棚 ") first_season
       (Base.classify cucumber) = true
  /\ Base._is_valid_planting_combination "水浇地 " first_season (Base.classify cucumber)
     = false
  /\ Base._is_valid_planting_combination (strip "水浇地 ") first_season
       (Base.classify cucumber) = true
  /\ Base.select_valid [(22%Z, Base.classify cucumber)] [smart_greenhouse_row] = []
  /\ length (Strict.select_valid [(22%Z, Strict.classify cucumber)]
               [smart_greenhouse_row]) = 1%nat
  /\ length (Advanced._get_valid_planting_options
               [(22%Z, Advanced.classify cucumber)] [smart_greenhouse_row]) = 1%nat.
Proof. repeat split; vm_compute; reflexivity. Qed.

(* ================================================================== *)
(** * The planting variables of the models *)

Lemma keys_of_plant_dict (ks : list key) (k : key) :
  In k (dict_keys (dict_of_list key_eqb (map (fun k => (k, Plant k)) ks))) <-> In k ks.
Proof.
  rewrite (dict_of_list_keys key_eqb key_eqb_eq), map_map; simpl.
  rewrite map_id; tauto.
Qed.

(** Every planting key of the strict model names a land of the optimizer, a
    year of the horizon and an option of the catalogue for the land's type. *)
Lemma strict_x_keys_inv (self : Strict.optimizer) (k : key) :
  In k (Strict.x_keys self) <->
  exists land_name land_info opt,
    In (land_name, land_info) (Strict.lands self)
    /\ In (key_year k) years
    /\ In opt (Strict.valid_options self)
    /\ Strict.land_type opt = Strict.type land_info
    /\ k = (land_name, key_year k, Strict.season opt, Strict.crop_id opt).
Proof.
  unfold Strict.x_keys, Strict.x; rewrite keys_of_plant_dict.
  unfold Strict.var_keys; rewrite in_flat_map; split.
  - intros ([land_name land_info] & Hl & H).
    apply in_flat_map in H; destruct H as (year & Hy & H).
    apply in_flat_map in H; destruct H as (opt & Ho & H).
    destruct (String.eqb_spec (Strict.land_type opt) (Strict.type land_info)) as [E|E];
      [|contradiction].
    destruct H as [<-|[]]; exists land_name, land_info, opt; simpl; auto.
  - intros (land_name & land_info & opt & Hl & Hy & Ho & E & Hk).
    exists (land_name, land_info); split; [assumption|].
    apply in_flat_map; exists (key_year k); split; [assumption|].
    apply in_flat_map; exists opt; split; [assumption|].
    rewrite E, String.eqb_refl; left; symmetry; assumption.
Qed.

Lemma advanced_x_keys_inv (self : Advanced.optimizer) (k : key) :
  In k (Advanced.x_keys self) <->
  exists land_name land_info opt,
    In (land_name, land_info) (Advanced.lands self)
    /\ In (key_year k) years
    /\ In opt (Advanced.valid_options self)
    /\ Advanced.land_type opt = Advanced.type land_info
    /\ k = (land_name, key_year k, Advanced.season opt, Advanced.crop_id opt).
Proof.
  unfold Advanced.x_keys, Advanced.x; rewrite keys_of_plant_dict.
  unfold Advanced.var_keys; rewrite in_flat_map; split.
  - intros ([land_name land_info] & Hl & H).
    apply in_flat_map in H; destruct H as (year & Hy & H).
    apply in_flat_map in H; destruct H as (opt & Ho & H).
    destruct (String.eqb_spec (Advanced.land_type opt) (Advanced.type land_info))
      as [E|E]; [|contradiction].
    destruct H as [<-|[]]; exists land_name, land_info, opt; simpl; auto.
  - intros (land_name & land_info & opt & Hl & Hy & Ho & E & Hk).
    exists (land_name, land_info); split; [assumption|].
    apply in_flat_map; exists (key_year k); split; [assumption|].
    apply in_flat_map; exists opt; split; [assumption|].
    rewrite E, String.eqb_refl; left; symmetry; assumption.
Qed.

(** The crop of a planting key is a crop of the optimizer. *)
Lemma strict_key_crop_known (wb : workbook) (k : key) :
  let self := Strict.init wb in
  In k (Strict.x_keys self) ->
  In (key_year k) years /\ In (key_crop k) (dict_keys (Strict.crops self)).
Proof.
  intros self H; apply strict_x_keys_inv in H.
  destruct H as (land_name & land_info & opt & _ & Hy & Ho & _ & Hk).
  split; [assumption|].
  apply strict_select_valid_In in Ho; destruct Ho as (row & ci & _ & E & _ & ->).
  rewrite Hk; simpl; apply (dict_get_key Z.eqb Z.eqb_eq) in E; exact E.
Qed.

Lemma advanced_key_crop_known (generator : Type)
  (uniform : Q -> Q -> generator -> Q * generator) (wb : workbook) (g : generator)
  (k : key) :
  let self := fst (Advanced.init generator uniform wb g) in
  In k (Advanced.x_keys self) ->
  In (key_year k) years /\ In (key_crop k) (dict_keys (Advanced.crops self)).
Proof.
  intros self H; apply advanced_x_keys_inv in H.
  destruct H as (land_name & land_info & opt & _ & Hy & Ho & _ & Hk).
  split; [assumption|].
  destruct (advanced_init_fields generator uniform wb g) as (_ & Hv & _).
  fold self in Hv; rewrite Hv in Ho.
  apply advanced_valid_options_In in Ho; destruct Ho as (row & ci & _ & E & _ & ->).
  rewrite Hk; simpl; apply (dict_get_key Z.eqb Z.eqb_eq) in E; exact E.
Qed.

(* ================================================================== *)
(** * The small farm satisfies the strict and the advanced model *)

Lemma strict_farm_feasible :
  exists m, Strict.create_strict_model strict_farm = Some m /\ feasible plan m.
Proof.
  destruct (Strict.create_strict_model strict_farm) as [m|] eqn:E.
  - exists m; split; [reflexivity|].
    apply feasibleb_feasible.
    assert (H : option_map (feasibleb plan) (Strict.create_strict_model strict_farm)
                = Some true) by (vm_compute; reflexivity).
    rewrite E in H; inversion H; reflexivity.
  - exfalso.
    assert (H : option_map (fun _ => tt) (Strict.create_strict_model strict_farm)
                = Some tt) by (vm_compute; reflexivity).
    rewrite E in H; discriminate.
Qed.

Lemma advanced_farm_feasible :
  exists m, Advanced.create_advanced_model advanced_farm = Some m /\ feasible plan m.
Proof.
  destruct (Advanced.create_advanced_model advanced_farm) as [m|] eqn:E.
  - exists m; split; [reflexivity|].
    apply feasibleb_feasible.
    assert (H : option_map (feasibleb plan)
                  (Advanced.create_advanced_model advanced_farm)
                = Some true) by (vm_compute; reflexivity).
    rewrite E in H; inversion H; reflexivity.
  - exfalso.
    assert (H : option_map (fun _ => tt)
                  (Advanced.create_advanced_model advanced_farm)
                = Some tt) by (vm_compute; reflexivity).
    rewrite E in H; discriminate.
Qed.

(* ================================================================== *)
(** * The parts of the built models *)

Lemma strict_model_parts (self : Strict.optimizer) (m : problem) :
  Strict.create_strict_model self = Some m ->
  exists areas sales legumes,
    Strict.area_constraints self = Some areas
    /\ Strict.sales_constraints self = Some sales
    /\ Strict.legume_constraints self = Some legumes
    /\ constraints m
       = areas ++ sales ++ Strict.replanting_constraints self ++ legumes
         ++ Strict.diversity_constraints self
    /\ continuous m = map Plant (Strict.x_keys self)
    /\ binaries m = map snd (Strict.y_water self) ++ Strict.crop_count_vars self.
Proof.
  unfold Strict.create_strict_model; intros H.
  unbind H; unbind H; inversion H; subst m; clear H; simpl.
  unfold Strict._add_strict_constraints in E0.
  unbind E0; unbind E0; unbind E0; inversion E0; subst.
  eexists _, _, _; repeat split; eassumption.
Qed.

Lemma advanced_model_parts (self : Advanced.optimizer) (m : problem) :
  Advanced.create_advanced_model self = Some m ->
  exists basic demand rotation risk complementarity,
    Advanced._add_basic_constraints self = Some basic
    /\ Advanced._add_demand_elasticity_constraints self = Some demand
    /\ Advanced._add_rotation_constraints self = Some rotation
    /\ Advanced._add_risk_control_constraints self = Some risk
    /\ Advanced._add_complementarity_constraints self = Some complementarity
    /\ constraints m
       = basic ++ demand ++ Advanced._add_crop_indicator_constraints self
         ++ Advanced._add_diversity_constraints self ++ rotation ++ risk
         ++ complementarity
    /\ continuous m = map Plant (Advanced.x_keys self)
    /\ binaries m
       = map snd (Advanced.y_water self)
         ++ map (fun yc => Grown (fst yc) (snd yc)) (Advanced.z_crop_keys self).
Proof.
  unfold Advanced.create_advanced_model; intros H.
  unbind H; unbind H; inversion H; subst m; clear H; simpl.
  unfold Advanced._add_advanced_constraints in E0.
  unbind E0; unbind E0; unbind E0; unbind E0; unbind E0; inversion E0; subst.
  eexists _, _, _, _, _; repeat split; eassumption.
Qed.

(* ================================================================== *)
(** * The crop indicators and the constant 1000 *)







(* ================================================================== *)
(** * Legume rotation *)

Lemma lower_bound_holds (a : valuation) (keys : list key) (q : Q) :
  holds a (ge (lpSum (map Plant keys)) (number q)) -> q <= total_area a keys.
Proof.
  unfold holds, ge; cbn [rel lhs rhs].
  rewrite eval_lpSum, eval_number; tauto.
Qed.

Lemma map_Plant_nonempty (keys : list key) : keys <> [] -> map Plant keys <> [].
Proof. destruct keys; [congruence | discriminate]. Qed.

(** The legume block of the strict model, land by land. *)
Lemma strict_legume_block (self : Strict.optimizer) (legumes : list constraint)
  (land_name : string) :
  Strict.legume_constraints self = Some legumes ->
  In land_name (dict_keys (Strict.lands self)) ->
  exists late,
    Strict.legume_keys self land_name Strict.late_window = Some late
    /\ (late <> [] -> In (ge (lpSum (map Plant late)) (number 0.1)) legumes)
    /\ (str_in land_name (Strict.legume_planted_2023 self) = false ->
        exists early,
          Strict.legume_keys self land_name Strict.early_window = Some early
          /\ (early <> [] -> In (ge (lpSum (map Plant early)) (number 0.1)) legumes)).
Proof.
  intros H Hl; unfold Strict.legume_constraints in H.
  destruct (flat_mapM_intro _ _ _ land_name H Hl) as (bs & Hb & Hincl).
  change (filter (fun year => (year <=? 2030)%Z) Strict.late_window)
    with Strict.late_window in Hb.
  unbind Hb; unbind Hb; inversion Hb; subst bs; clear Hb.
  exists v0; split; [assumption|]; split.
  - intros Hne; apply Hincl, in_or_app; right.
    apply when_nonempty_In; [apply map_Plant_nonempty; assumption | left; reflexivity].
  - intros Hh; rewrite Hh in E; simpl in E.
    unbind E; inversion E; subst v; clear E.
    exists v1; split; [assumption|].
    intros Hne; apply Hincl, in_or_app; left.
    apply when_nonempty_In; [apply map_Plant_nonempty; assumption | left; reflexivity].
Qed.

(** The legume block of the advanced model, land by land. *)
Lemma advanced_legume_block (self : Advanced.optimizer) (legumes : list constraint)
  (land_name : string) :
  Advanced.legume_constraints self = Some legumes ->
  In land_name (dict_keys (Advanced.lands self)) ->
  exists early late,
    Advanced.legume_keys self land_name Advanced.early_window = Some early
    /\ Advanced.legume_keys self land_name Advanced.late_window = Some late
    /\ (early <> [] -> In (ge (lpSum (map Plant early)) (number 0.2)) legumes)
    /\ (late <> [] -> In (ge (lpSum (map Plant late)) (number 0.2)) legumes).
Proof.
  intros H Hl; unfold Advanced.legume_constraints in H.
  destruct (flat_mapM_intro _ _ _ land_name H Hl) as (bs & Hb & Hincl).
  unbind Hb; unbind Hb; inversion Hb; subst bs; clear Hb.
  exists v, v0; repeat split; try assumption.
  - intros Hne; apply Hincl, in_or_app; left.
    apply when_nonempty_In; [apply map_Plant_nonempty; assumption | left; reflexivity].
  - intros Hne; apply Hincl, in_or_app; right.
    apply when_nonempty_In; [apply map_Plant_nonempty; assumption | left; reflexivity].
Qed.

Lemma base_model_parts (self : Base.optimizer) (scenario : Z) (m : problem) :
  Base.create_model self scenario = Some m ->
  exists sales patches,
    Base.sales_constraints self scenario = Some sales
    /\ Base.patch_constraints self = Some patches
    /\ constraints m
       = Base.area_constraints self ++ sales ++ Base.replanting_constraints self
         ++ Base.water_constraints self ++ Base.legume_constraints self ++ patches
    /\ continuous m = map Plant (Base.x_keys self)
    /\ binaries m
       = map snd (Base.water_land_choice self)
         ++ map Planted (Base.planting_binary_keys self).
Proof.
  unfold Base.create_model; intros H.
  unbind H; unbind H; inversion H; subst m; clear H; simpl.
  unfold Base._add_fixed_constraints in E0.
  unbind E0; unbind E0; inversion E0; subst.
  eexists _, _; repeat split; eassumption.
Qed.

(** C4, amended.  In the strict and in the advanced model every land with a
    legume variable in 2027-2029 must carry a legume area of at least 0.1 mu
    (strict) or 0.2 mu (advanced) in those years, whatever it grew in 2023.
    In 2024-2026 the strict model asks 0.1 mu of a land without a legume in
    2023, the advanced model 0.2 mu of every land, and the base model
    max(0.1, 5% of the area) of a land without a legume in 2023; the base
    model says nothing of the later years. *)
Theorem legume_rotation_windows (generator : Type)
  (uniform : Q -> Q -> generator -> Q * generator) (wb : workbook) (g : generator)
  (a : valuation) (land_name : string) :
  let base := Base._process_data wb in
  let strict := Strict.init wb in
  let advanced := fst (Advanced.init generator uniform wb g) in
  (forall m,
      Strict.create_strict_model strict = Some m ->
      feasible a m ->
      In land_name (dict_keys (Strict.lands strict)) ->
      exists late,
        Strict.legume_keys strict land_name Strict.late_window = Some late
        /\ (late <> [] -> 0.1 <= total_area a late)
        /\ (str_in land_name (Strict.legume_planted_2023 strict) = false ->
            exists early,
              Strict.legume_keys strict land_name Strict.early_window = Some early
              /\ (early <> [] -> 0.1 <= total_area a early)))
  /\ (forall m,
         Advanced.create_advanced_model advanced = Some m ->
         feasible a m ->
         In land_name (dict_keys (Advanced.lands advanced)) ->
         exists early late,
           Advanced.legume_keys advanced land_name Advanced.early_window = Some early
           /\ Advanced.legume_keys advanced land_name Advanced.late_window = Some late
           /\ (early <> [] -> 0.2 <= total_area a early)
           /\ (late <> [] -> 0.2 <= total_area a late))
  /\ (forall m scenario land_info,
         Base.create_model base scenario = Some m ->
         feasible a m ->
         In (land_name, land_info) (Base.lands base) ->
         dict_get String.eqb (Base.legume_planted_2023 base) land_name <> Some true ->
         let early := Base.legume_keys base land_name [2024; 2025; 2026]%Z in
         early <> [] ->
         max 0.1 (Base.area land_info * 0.05) <= total_area a early).
Proof.
  intros base strict advanced; split; [|split].
  - intros m Hm Hf Hl.
    destruct (strict_model_parts strict m Hm) as (ar & sa & le_ & _ & _ & Hle & Hc & _).
    destruct (strict_legume_block strict le_ land_name Hle Hl)
      as (late & Hlate & Hin & Hearly).
    assert (Hsub : incl le_ (constraints m)).
    { rewrite Hc; intros c Hc0; do 3 (apply in_or_app; right); apply in_or_app; left.
      assumption. }
    exists late; split; [assumption|]; split.
    + intros Hne; apply lower_bound_holds, (feasible_holds a m); auto.
    + intros Hh; destruct (Hearly Hh) as (early & He & Hin').
      exists early; split; [assumption|].
      intros Hne; apply lower_bound_holds, (feasible_holds a m); auto.
  - intros m Hm Hf Hl.
    destruct (advanced_model_parts advanced m Hm)
      as (ba & de & ro & ri & co & _ & _ & Hro & _ & _ & Hc & _).
    unfold Advanced._add_rotation_constraints in Hro.
    unbind Hro; inversion Hro; subst ro; clear Hro.
    destruct (advanced_legume_block advanced v land_name E Hl)
      as (early & late & He & Hlate & Hin1 & Hin2).
    assert (Hsub : incl v (constraints m)).
    { rewrite Hc; intros c Hc0; do 4 (apply in_or_app; right); apply in_or_app; left.
      apply in_or_app; right; assumption. }
    exists early, late; repeat split; try assumption.
    + intros Hne; apply lower_bound_holds, (feasible_holds a m); auto.
    + intros Hne; apply lower_bound_holds, (feasible_holds a m); auto.
  - intros m scenario land_info Hm Hf Hl Hh early Hne.
    destruct (base_model_parts base scenario m Hm) as (sa & pa & _ & _ & Hc & _).
    apply lower_bound_holds, (feasible_holds a m); [assumption|].
    rewrite Hc; do 4 (apply in_or_app; right); apply in_or_app; left.
    unfold Base.legume_constraints.
    apply in_flat_map; exists (land_name, land_info); split; [assumption|].
    destruct (dict_get String.eqb (Base.legume_planted_2023 base) land_name)
      as [[|]|]; try congruence;
      (apply when_nonempty_In;
       [apply map_Plant_nonempty; assumption | left; reflexivity]).
Qed.

Lemma base_farm_feasible (scenario : Z) :
  scenario = 1%Z \/ scenario = 2%Z ->
  exists m, Base.create_model base_farm scenario = Some m /\ feasible early_only_plan m.
Proof.
  intros Hs.
  destruct (Base.create_model base_farm scenario) as [m|] eqn:E.
  - exists m; split; [reflexivity|].
    apply feasibleb_feasible.
    assert (H : option_map (feasibleb early_only_plan)
                  (Base.create_model base_farm scenario) = Some true)
      by (destruct Hs; subst scenario; vm_compute; reflexivity).
    rewrite E in H; inversion H; reflexivity.
  - exfalso.
    assert (H : option_map (fun _ => tt) (Base.create_model base_farm scenario)
                = Some tt)
      by (destruct Hs; subst scenario; vm_compute; reflexivity).
    rewrite E in H; discriminate.
Qed.

(** C4, counterexample.  On the small farm the field A1 grew no legume in
    2023 and has legume variables in 2027-2029, yet a plan that grows no
    legume in those years is feasible in the base model (in both scenarios):
    the base model has no constraint on the later window. *)
Lemma base_has_no_late_window :
  dict_get String.eqb (Base.legume_planted_2023 base_farm) "A1" = Some false
  /\ Base.legume_keys base_farm "A1" [2027; 2028; 2029]%Z <> []
  /\ total_area early_only_plan (Base.legume_keys base_farm "A1" [2027; 2028; 2029]%Z)
     == 0
  /\ (exists m,
         Base.create_model base_farm 1 = Some m /\ feasible early_only_plan m)
  /\ (exists m,
         Base.create_model base_farm 2 = Some m /\ feasible early_only_plan m).
Proof.
  split; [vm_compute; reflexivity|].
  split; [vm_compute; discriminate|].
  split; [vm_compute; reflexivity|].
  split; apply base_farm_feasible; auto.
Qed.

(** The theorem at the small farm. *)
Lemma legume_rotation_windows_witness :
  (exists late,
      Strict.legume_keys strict_farm "A1" Strict.late_window = Some late
      /\ late <> []
      /\ 0.1 <= total_area plan late)
  /\ (exists early late,
         Advanced.legume_keys advanced_farm "A1" Advanced.early_window = Some early
         /\ Advanced.legume_keys advanced_farm "A1" Advanced.late_window = Some late
         /\ early <> [] /\ late <> []
         /\ 0.2 <= total_area plan early
         /\ 0.2 <= total_area plan late)
  /\ max 0.1 (10 * 0.05)
     <= total_area early_only_plan
          (Base.legume_keys base_farm "A1" [2024; 2025; 2026]%Z).
Proof.
  destruct strict_farm_feasible as (ms & Hms & Hfs).
  destruct advanced_farm_feasible as (ma & Hma & Hfa).
  destruct (base_farm_feasible 1 (or_introl eq_refl)) as (mb & Hmb & Hfb).
  destruct (legume_rotation_windows unit midpoint farm tt plan "A1") as (HS & HA & _).
  destruct (legume_rotation_windows unit midpoint farm tt early_only_plan "A1")
    as (_ & _ & HB).
  split; [|split].
  - destruct (HS ms Hms Hfs) as (late & Hl & Hb & _);
      [vm_compute; left; reflexivity|].
    assert (Hne : late <> [])
      by (vm_compute in Hl; inversion Hl; discriminate).
    exists late; auto.
  - destruct (HA ma Hma Hfa) as (early & late & He & Hl & Hb1 & Hb2);
      [vm_compute; left; reflexivity|].
    assert (Hne1 : early <> [])
      by (vm_compute in He; inversion He; discriminate).
    assert (Hne2 : late <> [])
      by (vm_compute in Hl; inversion Hl; discriminate).
    exists early, late; auto 10.
  - apply (HB mb 1%Z {| Base.type := "平旱地"; Base.area := 10 |} Hmb Hfb).
    + vm_compute; left; reflexivity.
    + vm_compute; discriminate.
    + vm_compute; discriminate.
Defined.

(* ================================================================== *)
(** * The self-check of the result rows *)

Lemma row_get_last (prefix : row) (column wanted : string) (c1 c2 : cell) :
  wanted <> column ->
  row_get (prefix ++ [(column, c1)]) wanted = row_get (prefix ++ [(column, c2)]) wanted.
Proof.
  intros Hne; unfold row_get; induction prefix as [|[k v] prefix IH]; simpl.
  - destruct (String.eqb_spec column wanted); [congruence | reflexivity].
  - destruct (String.eqb k wanted); [reflexivity | assumption].
Qed.

(** Two runs of the extraction loop of the strict variant that differ in the
    check alone produce rows that differ in the check column alone. *)
Lemma strict_extract_key_check (self : Strict.optimizer)
  (check1 check2 : string -> string -> Z -> option string)
  (varValue : var -> option Q) (k : key) (l1 l2 : list (row * Q)) :
  Strict.extract_key self check1 varValue k = Some l1 ->
  Strict.extract_key self check2 varValue k = Some l2 ->
  Forall2
    (fun rp1 rp2 =>
       snd rp1 = snd rp2
       /\ forall column, column <> check_column ->
                         row_get (fst rp1) column = row_get (fst rp2) column)
    l1 l2.
Proof.
  unfold Strict.extract_key; destruct k as [[[land_name year] season] crop_id].
  destruct (Strict.planted (varValue (Plant (land_name, year, season, crop_id))))
    as [area|]; [|intros H1 H2; inversion H1; inversion H2; constructor].
  intros H1 H2.
  unbind H1; rewrite E in H2; simpl in H2.
  unbind H1; rewrite E0 in H2; simpl in H2.
  unbind H1; rewrite E1 in H2; simpl in H2.
  destruct (Strict.find_option self (Strict.type v0) season crop_id) as [opt|];
    [|inversion H1; inversion H2; constructor].
  unbind H1; rewrite E2 in H2; simpl in H2.
  unbind H1; unbind H2.
  inversion H1; inversion H2; subst; clear H1 H2.
  constructor; [|constructor]; simpl; split; [reflexivity|].
  intros column Hne; unfold Strict.result_row.
  apply (row_get_last
           [("年份", CInt year); ("地块名称", CStr land_name);
            ("地块类型", CStr (Strict.type v0)); ("种植季次", CStr season);
            ("作物编号", CInt crop_id); ("作物名称", CStr (Strict.name v));
            ("作物分类", CStr v2); ("种植面积", _); ("期望产量", _);
            ("期望成本", _); ("期望收入", _); ("期望利润", _)]
           check_column column); assumption.
Qed.

Lemma Forall2_concat {A B : Type} (R : A -> B -> Prop)
  (l1 : list (list A)) (l2 : list (list B)) :
  Forall2 (Forall2 R) l1 l2 -> Forall2 R (concat l1) (concat l2).
Proof.
  induction 1 as [|x y l1 l2 H _ IH]; simpl; [constructor|].
  apply Forall2_app; assumption.
Qed.

Lemma strict_extract_check (self : Strict.optimizer)
  (check1 check2 : string -> string -> Z -> option string)
  (varValue : var -> option Q) (keys : list key) (l1 l2 : list (row * Q)) :
  flat_mapM (Strict.extract_key self check1 varValue) keys = Some l1 ->
  flat_mapM (Strict.extract_key self check2 varValue) keys = Some l2 ->
  Forall2
    (fun rp1 rp2 =>
       snd rp1 = snd rp2
       /\ forall column, column <> check_column ->
                         row_get (fst rp1) column = row_get (fst rp2) column)
    l1 l2.
Proof.
  intros H1 H2.
  apply flat_mapM_Some in H1, H2.
  destruct H1 as (p1 & F1 & ->), H2 as (p2 & F2 & ->).
  apply Forall2_concat.
  revert p2 F2; induction F1 as [|k b1 keys p1 Hk F1 IH]; intros p2 F2;
    inversion F2; subst; constructor.
  - eapply strict_extract_key_check; eassumption.
  - apply IH; assumption.
Qed.

(** C6, amended.  In the strict variant every emitted row carries, in the
    column 约束验证, the verdict of the eligibility predicate on the land type,
    season and crop of the row; the verdict only marks the row: with any
    other check the same keys give rows that agree in every other column, in
    the same order, and the same total profit. *)
Theorem strict_rows_are_checked (wb : workbook) (varValue : var -> option Q)
  (rows : list row) (total : Q) :
  let self := Strict.init wb in
  Strict._extract_strict_results self varValue = Some (Some rows, total) ->
  (forall r,
      In r rows ->
      exists land_type season crop_id valid,
        row_get r "地块类型" = Some (CStr land_type)
        /\ row_get r "种植季次" = Some (CStr season)
        /\ row_get r "作物编号" = Some (CInt crop_id)
        /\ Strict._is_valid_strict_combination (Strict.crops self)
             land_type season crop_id = Some valid
        /\ row_get r check_column
           = Some (CStr (if valid then Strict.complies else Strict.violates)))
  /\ (forall check rows' total',
         Strict.extract_with self check varValue = Some (Some rows', total') ->
         total' = total
         /\ Forall2
              (fun r r' =>
                 forall column, column <> check_column ->
                                row_get r column = row_get r' column)
              rows rows').
Proof.
  intros self H; unfold Strict._extract_strict_results, Strict.extract_with in H.
  unbind H; inversion H; subst rows total; clear H; split.
  - intros r Hr; apply in_map_iff in Hr; destruct Hr as ([r' p] & <- & Hr).
    destruct (flat_mapM_elim _ _ _ _ E Hr) as (k & bs & _ & Hk & Hb).
    unfold Strict.extract_key in Hk; destruct k as [[[land_name year] season] crop_id].
    destruct (Strict.planted _) as [area|]; [|inversion Hk; subst; contradiction].
    unbind Hk; unbind Hk; unbind Hk.
    destruct (Strict.find_option self (Strict.type v1) season crop_id) as [opt|];
      [|inversion Hk; subst; contradiction].
    unbind Hk; unbind Hk; inversion Hk; subst bs; clear Hk.
    destruct Hb as [Hb|[]]; inversion Hb; subst r' p; clear Hb.
    unfold Strict._check_strict_constraints in E4; unbind E4.
    inversion E4; subst v4; clear E4.
    exists (Strict.type v1), season, crop_id, v5; simpl fst.
    repeat split; try reflexivity; assumption.
  - intros check rows' total' H'; unfold Strict.extract_with in H'.
    unbind H'; inversion H'; subst rows' total'; clear H'.
    pose proof (strict_extract_check self _ _ varValue _ _ _ E E0) as F.
    clear E E0; induction F as [|[r1 p1] [r2 p2] l1 l2 [Hp Hr] F [IH1 IH2]]; simpl.
    + split; [reflexivity | constructor].
    + simpl in Hp, Hr; subst p2; split.
      * assert (G : map snd l1 = map snd l2).
        { clear - F; induction F as [|x y l1 l2 [Hs _] F IH]; simpl;
            [reflexivity | rewrite Hs, IH; reflexivity]. }
        rewrite G; reflexivity.
      * constructor; assumption.
Qed.

(** The theorem at the small farm: the plan gives four rows, each with its
    verdict. *)
Lemma strict_rows_are_checked_witness :
  exists rows total,
    Strict._extract_strict_results strict_farm (values_of plan) = Some (Some rows, total)
    /\ length rows = 4%nat
    /\ forall r,
        In r rows ->
        exists land_type season crop_id valid,
          row_get r "地块类型" = Some (CStr land_type)
          /\ row_get r "种植季次" = Some (CStr season)
          /\ row_get r "作物编号" = Some (CInt crop_id)
          /\ Strict._is_valid_strict_combination (Strict.crops strict_farm)
               land_type season crop_id = Some valid
          /\ row_get r check_column
             = Some (CStr (if valid then Strict.complies else Strict.violates)).
Proof.
  assert (N : row_count (Strict._extract_strict_results strict_farm (values_of plan))
              = Some 4%nat) by (vm_compute; reflexivity).
  destruct (Strict._extract_strict_results strict_farm (values_of plan))
    as [[[rows|] total]|] eqn:E; try discriminate N.
  exists rows, total; split; [reflexivity|].
  split; [inversion N; reflexivity|].
  exact (proj1 (strict_rows_are_checked farm (values_of plan) rows total E)).
Defined.

(** C6, counterexample.  On the small farm the advanced extraction and the
    base extraction emit rows, and no row has a column 约束验证: neither
    variant records a verdict of the eligibility predicate on its rows. *)
Lemma only_strict_rows_carry_a_check :
  match Advanced._extract_advanced_results advanced_farm (values_of plan) with
  | Some (Some rows, _) =>
      length rows = 4%nat /\ Forall (fun r => row_get r check_column = None) rows
  | _ => False
  end
  /\ match Base.extract base_farm 1 (values_of early_only_plan) with
     | Some (Some rows, _) =>
         length rows = 2%nat /\ Forall (fun r => row_get r check_column = None) rows
     | _ => False
     end.
Proof.
  split; vm_compute; (split; [reflexivity | repeat constructor]).
Qed.

(* ================================================================== *)
(** * The coefficient table of the advanced variant *)

Lemma for_each_In (generator : Type) {A B : Type}
  (body : A -> generator -> B * generator) (l : list A) (g : generator) (b : B) :
  In b (fst (Advanced.for_each generator body l g)) ->
  exists a g', In a l /\ b = fst (body a g').
Proof.
  revert g; induction l as [|a l IH]; simpl; intros g H; [contradiction|].
  destruct (body a g) as [b0 g0] eqn:E0.
  destruct (Advanced.for_each generator body l g0) as [bs g1] eqn:E1.
  simpl in H; destruct H as [<-|H].
  - exists a, g; rewrite E0; auto.
  - specialize (IH g0); rewrite E1 in IH.
    destruct (IH H) as (a' & g' & Ha & Hb); exists a', g'; auto.
Qed.





(* ================================================================== *)
(** * The scale economy in the reported cost *)






(* ================================================================== *)
(** * The coefficients are drawn, not computed from the workbook *)





(* ================================================================== *)
(** * The fallback models *)

















(* ================================================================== *)
(** * The income of the base variant *)

Lemma base_planted_area (value : option Q) (area : Q) :
  Base.planted value = Some area -> value = Some area /\ 0.01 < area.
Proof.
  unfold Base.planted; destruct value as [q|]; [|discriminate].
  destruct (negb (Qeq_bool q 0) && Qgtb q 0.01) eqn:E; [|discriminate].
  intros H; inversion H; subst q; split; [reflexivity|].
  apply andb_true_iff in E; destruct E as [_ E].
  unfold Qgtb in E; apply negb_true_iff in E.
  apply Qnot_le_lt; intros Hle; apply Qle_bool_iff in Hle; congruence.
Qed.





(** ** The model does not read the price *)

















(* ================================================================== *)
(** * Further properties *)

Lemma strict_find_option_In (self : Strict.optimizer) (land_type season : string)
  (crop_id : Z) (opt : Strict.planting_option) :
  Strict.find_option self land_type season crop_id = Some opt ->
  In opt (Strict.valid_options self)
  /\ Strict.land_type opt = land_type
  /\ Strict.season opt = season
  /\ Strict.crop_id opt = crop_id.
Proof.
  unfold Strict.find_option; intros H; apply find_some in H.
  destruct H as [Hin H]; apply andb_true_iff in H; destruct H as [H Hc].
  apply andb_true_iff in H; destruct H as [Hl Hs].
  apply String.eqb_eq in Hl, Hs; apply Z.eqb_eq in Hc; auto.
Qed.

(** X1.  Every row the strict extraction emits passes the check: its key was
    made from an option of the catalogue, and the catalogue is sound. *)
Theorem strict_rows_always_comply (wb : workbook) (varValue : var -> option Q)
  (rows : list row) (total : Q) (r : row) :
  Strict._extract_strict_results (Strict.init wb) varValue = Some (Some rows, total) ->
  In r rows ->
  row_get r check_column = Some (CStr Strict.complies).
Proof.
  set (self := Strict.init wb); intros H Hr.
  unfold Strict._extract_strict_results, Strict.extract_with in H.
  unbind H; inversion H; subst rows total; clear H.
  apply in_map_iff in Hr; destruct Hr as ([r' p] & <- & Hr).
  destruct (flat_mapM_elim _ _ _ _ E Hr) as (k & bs & _ & Hk & Hb).
  unfold Strict.extract_key in Hk; destruct k as [[[land_name year] season] crop_id].
  destruct (Strict.planted _) as [area|]; [|inversion Hk; subst; contradiction].
  unbind Hk; unbind Hk; unbind Hk.
  destruct (Strict.find_option self (Strict.type v1) season crop_id) as [opt|] eqn:Ef;
    [|inversion Hk; subst; contradiction].
  unbind Hk; unbind Hk; inversion Hk; subst bs; clear Hk.
  destruct Hb as [Hb|[]]; inversion Hb; subst r' p; clear Hb.
  apply strict_find_option_In in Ef; destruct Ef as (Hin & Hl & Hs & Hc).
  apply strict_select_valid_In in Hin; destruct Hin as (row & ci & _ & Eci & V & ->).
  cbn [Strict.land_type Strict.season Strict.crop_id Strict.make_option] in Hl, Hs, Hc.
  subst crop_id season; rewrite <- Hl in E4.
  unfold Strict._check_strict_constraints, Strict._is_valid_strict_combination in E4.
  change (dict_get Z.eqb (Strict.crops (Strict.init wb)) (stat_crop_id row) = Some ci)
    in Eci.
  unfold self in E4; rewrite Eci in E4; cbn [bind] in E4; rewrite V in E4.
  inversion E4; subst v4; reflexivity.
Qed.

(** The theorem at the small farm. *)
Lemma strict_rows_always_comply_witness :
  exists rows total,
    Strict._extract_strict_results strict_farm (values_of plan) = Some (Some rows, total)
    /\ length rows = 4%nat
    /\ Forall (fun r => row_get r check_column = Some (CStr Strict.complies)) rows.
Proof.
  assert (N : row_count (Strict._extract_strict_results strict_farm (values_of plan))
              = Some 4%nat) by (vm_compute; reflexivity).
  destruct (Strict._extract_strict_results strict_farm (values_of plan))
    as [[[rows|] total]|] eqn:E; try discriminate N.
  exists rows, total; split; [reflexivity|].
  split; [inversion N; reflexivity|].
  apply Forall_forall; intros r Hr.
  exact (strict_rows_always_comply farm (values_of plan) rows total r E Hr).
Defined.

(** X2.  The rows of the relaxed fallback of the base variant sell the whole
    production at the full price, in either scenario. *)
Theorem relaxed_rows_sell_at_full_price (self : Base.optimizer)
  (varValue : var -> option Q) (rows : list row) (total : Q) (r : row) :
  Base._extract_and_save_results self varValue = Some (Some rows, total) ->
  In r rows ->
  exists k area opt land_info,
    In k (Base.x_keys self)
    /\ varValue (Plant k) = Some area
    /\ dict_get String.eqb (Base.lands self) (key_land k) = Some land_info
    /\ Base.find_option self (Base.type land_info) (key_season k) (key_crop k)
       = Some opt
    /\ row_get r "收入"
       = Some (CNum (round (area * Base.yield_per_mu opt * Base.price_avg opt) 1)).
Proof.
  unfold Base._extract_and_save_results; intros H Hr; unbind H.
  unfold Base.finish in H.
  destruct (map fst v) as [|r0 rs] eqn:Em; inversion H; subst rows total; clear H.
  rewrite <- Em in Hr; apply in_map_iff in Hr; destruct Hr as ([r' p] & <- & Hr).
  destruct (flat_mapM_elim _ _ _ _ E Hr) as (k & bs & Hk & Hb & Hin).
  unfold Base.extract_key in Hb; destruct k as [[[land_name year] season] crop_id].
  destruct (Base.planted (varValue (Plant (land_name, year, season, crop_id))))
    as [area|] eqn:Ep; [|inversion Hb; subst; contradiction].
  apply base_planted_area in Ep; destruct Ep as [Ev Ha].
  unbind Hb; unbind Hb.
  destruct (Base.find_option self (Base.type v0) season crop_id) as [opt|] eqn:Ef;
    [|inversion Hb; subst; contradiction].
  unbind Hb; inversion Hb; subst bs; clear Hb.
  destruct Hin as [Hin|[]]; inversion Hin; subst r' p; clear Hin.
  exists (land_name, year, season, crop_id), area, opt, v0; simpl.
  repeat split; assumption.
Qed.

(** The theorem at the small farm. *)
Lemma relaxed_rows_sell_at_full_price_witness :
  exists rows total,
    Base._extract_and_save_results base_farm (values_of plan) = Some (Some rows, total)
    /\ length rows = 4%nat
    /\ forall r,
        In r rows ->
        exists area opt,
          row_get r "收入"
          = Some (CNum (round (area * Base.yield_per_mu opt * Base.price_avg opt) 1)).
Proof.
  assert (N : row_count (Base._extract_and_save_results base_farm (values_of plan))
              = Some 4%nat) by (vm_compute; reflexivity).
  destruct (Base._extract_and_save_results base_farm (values_of plan))
    as [[[rows|] total]|] eqn:E; try discriminate N.
  exists rows, total; split; [reflexivity|].
  split; [inversion N; reflexivity|].
  intros r Hr.
  destruct (relaxed_rows_sell_at_full_price base_farm (values_of plan) rows total r E Hr)
    as (k & area & opt & li & _ & _ & _ & _ & Hi).
  exists area, opt; exact Hi.
Defined.

(* ================================================================== *)
(** ** Labels are stripped once *)

Lemma lstrip_bytes_clean (s : list ascii) :
  head_space s = false -> lstrip_bytes s = s.
Proof.
  destruct s as [|a [|b [|c r]]]; simpl; intros H; try reflexivity.
  - destruct (is_space1 a); [discriminate|reflexivity].
  - destruct (is_space1 a); [discriminate|].
    destruct (is_space2 a b); [discriminate|reflexivity].
  - destruct (is_space1 a); [discriminate|].
    destruct (is_space2 a b); [discriminate|].
    destruct (is_space3 a b c); [discriminate|reflexivity].
Qed.

Lemma lstrip_rev_bytes_clean (s : list ascii) :
  tail_space s = false -> lstrip_rev_bytes s = s.
Proof.
  destruct s as [|a [|b [|c r]]]; simpl; intros H; try reflexivity.
  - destruct (is_space1 a); [discriminate|reflexivity].
  - destruct (is_space1 a); [discriminate|].
    destruct (is_space2 b a); [discriminate|reflexivity].
  - destruct (is_space1 a); [discriminate|].
    destruct (is_space2 b a); [discriminate|].
    destruct (is_space3 c b a); [discriminate|reflexivity].
Qed.

Lemma lstrip_bytes_spec (n : nat) (s : list ascii) :
  (length s <= n)%nat ->
  head_space (lstrip_bytes s) = false /\ exists p, s = p ++ lstrip_bytes s.
Proof.
  revert s; induction n as [|n IH]; intros s Hn.
  - destruct s; [|simpl in Hn; lia]; split; [reflexivity|exists []; reflexivity].
  - destruct s as [|a r1]; [split; [reflexivity|exists []; reflexivity]|].
    simpl in Hn; cbn [lstrip_bytes].
    destruct (is_space1 a) eqn:E1.
    { destruct (IH r1 ltac:(lia)) as [H [p Hp]]; split; [exact H|].
      exists (a :: p); simpl; congruence. }
    destruct r1 as [|b r2].
    { split; [simpl; rewrite E1; reflexivity|exists []; reflexivity]. }
    simpl in Hn; destruct (is_space2 a b) eqn:E2.
    { destruct (IH r2 ltac:(lia)) as [H [p Hp]]; split; [exact H|].
      exists (a :: b :: p); simpl; congruence. }
    destruct r2 as [|c r3].
    { split; [simpl; rewrite E1, E2; reflexivity|exists []; reflexivity]. }
    simpl in Hn; destruct (is_space3 a b c) eqn:E3.
    { destruct (IH r3 ltac:(lia)) as [H [p Hp]]; split; [exact H|].
      exists (a :: b :: c :: p); simpl; congruence. }
    split; [simpl; rewrite E1, E2, E3; reflexivity|exists []; reflexivity].
Qed.

Lemma lstrip_rev_bytes_spec (n : nat) (s : list ascii) :
  (length s <= n)%nat ->
  tail_space (lstrip_rev_bytes s) = false /\ exists p, s = p ++ lstrip_rev_bytes s.
Proof.
  revert s; induction n as [|n IH]; intros s Hn.
  - destruct s; [|simpl in Hn; lia]; split; [reflexivity|exists []; reflexivity].
  - destruct s as [|a r1]; [split; [reflexivity|exists []; reflexivity]|].
    simpl in Hn; cbn [lstrip_rev_bytes].
    destruct (is_space1 a) eqn:E1.
    { destruct (IH r1 ltac:(lia)) as [H [p Hp]]; split; [exact H|].
      exists (a :: p); simpl; congruence. }
    destruct r1 as [|b r2].
    { split; [simpl; rewrite E1; reflexivity|exists []; reflexivity]. }
    simpl in Hn; destruct (is_space2 b a) eqn:E2.
    { destruct (IH r2 ltac:(lia)) as [H [p Hp]]; split; [exact H|].
      exists (a :: b :: p); simpl; congruence. }
    destruct r2 as [|c r3].
    { split; [simpl; rewrite E1, E2; reflexivity|exists []; reflexivity]. }
    simpl in Hn; destruct (is_space3 c b a) eqn:E3.
    { destruct (IH r3 ltac:(lia)) as [H [p Hp]]; split; [exact H|].
      exists (a :: b :: c :: p); simpl; congruence. }
    split; [simpl; rewrite E1, E2, E3; reflexivity|exists []; reflexivity].
Qed.

(** A prefix of a text with a clean head has a clean head. *)
Lemma head_space_prefix (u w : list ascii) :
  head_space (u ++ w) = false -> head_space u = false.
Proof.
  destruct u as [|a [|b [|c r]]]; simpl; intros H; try reflexivity.
  - apply orb_false_iff in H; destruct H as [H _]; rewrite H; reflexivity.
  - apply orb_false_iff in H; destruct H as [H1 H]; rewrite H1.
    destruct w; [exact H|].
    apply orb_false_iff in H; destruct H as [H2 _]; rewrite H2; reflexivity.
  - exact H.
Qed.

Lemma rstrip_bytes_prefix (s : list ascii) : exists w, s = rstrip_bytes s ++ w.
Proof.
  unfold rstrip_bytes.
  destruct (lstrip_rev_bytes_spec (length (rev s)) (rev s) (le_n _)) as [_ [p Hp]].
  exists (rev p); rewrite <- rev_app_distr, <- Hp, rev_involutive; reflexivity.
Qed.

Lemma rstrip_bytes_idempotent (s : list ascii) :
  rstrip_bytes (rstrip_bytes s) = rstrip_bytes s.
Proof.
  unfold rstrip_bytes; rewrite rev_involutive.
  destruct (lstrip_rev_bytes_spec (length (rev s)) (rev s) (le_n _)) as [H _].
  rewrite (lstrip_rev_bytes_clean _ H); reflexivity.
Qed.

Lemma strip_idempotent (s : string) : strip (strip s) = strip s.
Proof.
  unfold strip; rewrite list_ascii_of_string_of_list_ascii.
  set (l := lstrip_bytes (list_ascii_of_string s)).
  assert (H : head_space (rstrip_bytes l) = false).
  { destruct (rstrip_bytes_prefix l) as [w Hw].
    apply (head_space_prefix _ w); rewrite <- Hw.
    apply (lstrip_bytes_spec (length (list_ascii_of_string s)) _ (le_n _)). }
  rewrite (lstrip_bytes_clean _ H), rstrip_bytes_idempotent; reflexivity.
Qed.


Lemma flat_map_map {A B C : Type} (f : A -> B) (g : B -> list C) (l : list A) :
  flat_map g (map f l) = flat_map (fun x => g (f x)) l.
Proof. induction l as [|x l IH]; simpl; [reflexivity | rewrite IH; reflexivity]. Qed.

(** X3.  The strict and the advanced variant read the land-type labels through
    [strip] alone: stripping the labels of the workbook beforehand changes
    nothing of the optimizer they build. *)
Theorem padded_labels_are_normalised (wb : workbook) :
  Strict.init (strip_labels wb) = Strict.init wb
  /\ forall (generator : Type) (uniform : Q -> Q -> generator -> Q * generator)
            (g : generator),
       Advanced.init generator uniform (strip_labels wb) g
       = Advanced.init generator uniform wb g.
Proof.
  split.
  - unfold Strict.init, strip_labels; cbn [land_df crop_df stats_df planting_2023_df
                                            expected_sales_df].
    rewrite map_map; cbn [lr_name lr_type lr_area].
    f_equal.
    + f_equal; apply map_ext; intros r; rewrite strip_idempotent; reflexivity.
    + unfold Strict.select_valid; rewrite flat_map_map.
      apply flat_map_ext; intros r; cbn [stat_land_type stat_season stat_crop_id].
      unfold Strict.make_option; cbn -[strip].
      rewrite strip_idempotent; reflexivity.
  - intros generator uniform g.
    unfold Advanced.init, strip_labels; cbn [land_df crop_df stats_df planting_2023_df
                                              expected_sales_df].
    rewrite map_map; cbn [lr_name lr_type lr_area].
    destruct (Advanced._calculate_correlation_parameters generator uniform _ g)
      as [table g'].
    f_equal; f_equal.
    + f_equal; apply map_ext; intros r; rewrite strip_idempotent; reflexivity.
    + unfold Advanced._get_valid_planting_options; rewrite flat_map_map.
      apply flat_map_ext; intros r; cbn [stat_land_type stat_season stat_crop_id].
      unfold Advanced.make_option; cbn -[strip].
      rewrite strip_idempotent; reflexivity.
Qed.

(* ================================================================== *)
(** ** Areas in the base model *)

Lemma total_area_nonneg (a : valuation) (keys ks : list key) :
  Forall (fun v => 0 <= a v) (map Plant keys) ->
  (forall k, In k ks -> In k keys) ->
  0 <= total_area a ks.
Proof.
  intros H Hs; rewrite Forall_forall in H.
  induction ks as [|k ks IH]; simpl; [discriminate|].
  assert (0 <= a (Plant k)) by (apply H, in_map, Hs; left; reflexivity).
  assert (0 <= total_area a ks) by (apply IH; intros; apply Hs; right; assumption).
  unfold total_area in *; simpl; lra.
Qed.

(** X4.  Area conservation in the base model: in a feasible solution the areas
    planted on a land in one year and one season add up to at most the area
    of the land. *)
Theorem base_area_conservation (self : Base.optimizer) (scenario : Z) (m : problem)
  (a : valuation) (land_name : string) (land_info : Base.land_info) (year : Z)
  (season : string) :
  Base.create_model self scenario = Some m ->
  feasible a m ->
  In (land_name, land_info) (Base.lands self) ->
  In year years ->
  In season seasons ->
  0 <= Base.area land_info ->
  total_area a (filter (Base.at_season land_name year season) (Base.x_keys self))
  <= Base.area land_info.
Proof.
  intros Hm Hf Hl Hy Hs Ha.
  destruct (filter (Base.at_season land_name year season) (Base.x_keys self))
    as [|k0 ks] eqn:Ek; [exact Ha|].
  rewrite <- Ek.
  destruct (base_model_parts self scenario m Hm) as (sa & pa & _ & _ & Hc & _).
  assert (H : holds a (le (lpSum (Base.pick (Base.x_keys self)
                                     (Base.at_season land_name year season)))
                          (number (Base.area land_info)))).
  { apply (feasible_holds a m); [assumption|]; rewrite Hc; apply in_or_app; left.
    unfold Base.area_constraints.
    apply in_flat_map; exists (land_name, land_info); split; [assumption|].
    apply in_flat_map; exists year; split; [assumption|].
    destruct (negb (String.eqb (Base.type land_info) irrigated)).
    - apply in_flat_map; exists season; split; [assumption|].
      apply when_nonempty_In; [unfold Base.pick; rewrite Ek; discriminate|].
      left; reflexivity.
    - assert (N : Base.pick (Base.x_keys self) (Base.at_season land_name year season)
                  <> []) by (unfold Base.pick; rewrite Ek; discriminate).
      destruct Hs as [<-|[<-|[<-|[]]]].
      + apply in_or_app; left; apply when_nonempty_In; [exact N | left; reflexivity].
      + apply in_or_app; right; apply in_or_app; left.
        apply when_nonempty_In; [exact N | left; reflexivity].
      + apply in_or_app; right; apply in_or_app; right.
        apply when_nonempty_In; [exact N | left; reflexivity]. }
  unfold holds, le in H; cbn [rel lhs rhs] in H.
  unfold Base.pick in H; rewrite eval_lpSum, eval_number in H; exact H.
Qed.

Lemma eval_times_complement (a : valuation) (q : Q) (v : var) :
  eval a (times_complement q v) == q * (1 - a v).
Proof. unfold eval; simpl; ring. Qed.

Lemma base_water_choice (self : Base.optimizer) (land_name : string)
  (land_info : Base.land_info) (year : Z) :
  In (land_name, land_info) (Base.lands self) ->
  Base.type land_info = irrigated ->
  In year years ->
  dict_get (fun a b => String.eqb (fst a) (fst b) && Z.eqb (snd a) (snd b))
    (Base.water_land_choice self) (land_name, year)
  = Some (Water land_name year)
  /\ In (Water land_name year) (map snd (Base.water_land_choice self)).
Proof.
  intros Hl Ht Hy.
  assert (Hin : In ((land_name, year), Water land_name year)
                  (Base.water_land_choice self)).
  { unfold Base.water_land_choice; apply in_flat_map.
    exists (land_name, land_info); split; [assumption|].
    rewrite Ht, String.eqb_refl.
    apply in_map_iff; exists year; auto. }
  split.
  - destruct (dict_key_get _ pair_eqb_eq (Base.water_land_choice self) (land_name, year))
      as [v Hv].
    { apply in_map_iff; exists ((land_name, year), Water land_name year); auto. }
    rewrite Hv; f_equal.
    apply (dict_get_In _ pair_eqb_eq) in Hv.
    unfold Base.water_land_choice in Hv; apply in_flat_map in Hv.
    destruct Hv as ([l i] & _ & Hv).
    destruct (String.eqb (Base.type i) irrigated); [|contradiction].
    apply in_map_iff in Hv; destruct Hv as (y & Hv & _); congruence.
  - apply in_map_iff; exists ((land_name, year), Water land_name year); auto.
Qed.

(** X5.  Irrigated exclusivity in the base model: in a feasible solution an
    irrigated land carries, in one year, either no single-season crop or no
    crop of the first and second seasons. *)
Theorem base_irrigated_exclusive (self : Base.optimizer) (scenario : Z) (m : problem)
  (a : valuation) (land_name : string) (land_info : Base.land_info) (year : Z) :
  Base.create_model self scenario = Some m ->
  feasible a m ->
  In (land_name, land_info) (Base.lands self) ->
  Base.type land_info = irrigated ->
  In year years ->
  total_area a (filter (Base.at_season land_name year single_season) (Base.x_keys self))
  == 0
  \/ total_area a (filter (Base.in_double_season land_name year) (Base.x_keys self)) == 0.
Proof.
  intros Hm Hf Hl Ht Hy.
  destruct (base_model_parts self scenario m Hm) as (sa & pa & _ & _ & Hc & Hx & Hb).
  destruct (base_water_choice self land_name land_info year Hl Ht Hy) as [Hw Hwb].
  assert (Hbin : is_binary (a (Water land_name year))).
  { apply (feasible_binary a m); [assumption|].
    rewrite Hb; apply in_or_app; left; assumption. }
  assert (Hpos : forall p, 0 <= total_area a (filter p (Base.x_keys self))).
  { intros p; apply (total_area_nonneg a (Base.x_keys self)).
    - rewrite <- Hx; apply Hf.
    - intros k Hk; apply filter_In in Hk; apply Hk. }
  assert (Hin : forall c,
             In c (when_nonempty
                     (Base.pick (Base.x_keys self)
                        (Base.at_season land_name year single_season))
                     [le (lpSum (Base.pick (Base.x_keys self)
                                   (Base.at_season land_name year single_season)))
                         (times (Base.area land_info) (Water land_name year))]
                   ++ when_nonempty
                        (Base.pick (Base.x_keys self) (Base.in_double_season land_name year))
                        [le (lpSum (Base.pick (Base.x_keys self)
                                      (Base.in_double_season land_name year)))
                            (times_complement (Base.area land_info)
                               (Water land_name year))]) ->
             holds a c).
  { intros c Hc'; apply (feasible_holds a m); [assumption|].
    rewrite Hc; do 3 (apply in_or_app; right); apply in_or_app; left.
    unfold Base.water_constraints.
    apply in_flat_map; exists (land_name, land_info); split; [assumption|].
    rewrite Ht, String.eqb_refl.
    apply in_flat_map; exists year; split; [assumption|].
    rewrite Hw.
    apply in_app_or in Hc'; destruct Hc' as [Hc'|Hc'].
    - apply in_or_app; left; exact Hc'.
    - apply in_or_app; right; apply in_or_app; left; exact Hc'. }
  destruct Hbin as [Hu|Hu].
  - left.
    destruct (filter (Base.at_season land_name year single_season) (Base.x_keys self))
      as [|k0 ks] eqn:Ek; [reflexivity|].
    rewrite <- Ek.
    assert (N : Base.pick (Base.x_keys self)
                  (Base.at_season land_name year single_season) <> [])
      by (unfold Base.pick; rewrite Ek; discriminate).
    assert (G : holds a (le (lpSum (Base.pick (Base.x_keys self)
                                      (Base.at_season land_name year single_season)))
                            (times (Base.area land_info) (Water land_name year)))).
    { apply Hin, in_or_app; left; apply when_nonempty_In; [exact N | left; reflexivity]. }
    unfold holds, le in G; cbn [rel lhs rhs] in G.
    unfold Base.pick in G; rewrite eval_lpSum, eval_times, Hu in G.
    specialize (Hpos (Base.at_season land_name year single_season)).
    apply Qle_antisym; [|assumption].
    rewrite Qmult_0_r in G; exact G.
  - right.
    destruct (filter (Base.in_double_season land_name year) (Base.x_keys self))
      as [|k0 ks] eqn:Ek; [reflexivity|].
    rewrite <- Ek.
    assert (N : Base.pick (Base.x_keys self) (Base.in_double_season land_name year) <> [])
      by (unfold Base.pick; rewrite Ek; discriminate).
    assert (G : holds a (le (lpSum (Base.pick (Base.x_keys self)
                                      (Base.in_double_season land_name year)))
                            (times_complement (Base.area land_info)
                               (Water land_name year)))).
    { apply Hin, in_or_app; right; apply when_nonempty_In; [exact N | left; reflexivity]. }
    unfold holds, le in G; cbn [rel lhs rhs] in G.
    unfold Base.pick in G; rewrite eval_lpSum, eval_times_complement, Hu in G.
    specialize (Hpos (Base.in_double_season land_name year)).
    apply Qle_antisym; [|assumption].
    setoid_replace (Base.area land_info * (1 - 1)) with 0 in G by ring; exact G.
Qed.

(* ================================================================== *)
(** ** Consecutive years in the strict and the advanced model *)

Lemma area_below_total (a : valuation) (keys ks : list key) (k : key) :
  Forall (fun v => 0 <= a v) (map Plant keys) ->
  (forall k, In k ks -> In k keys) ->
  In k ks ->
  a (Plant k) <= total_area a ks.
Proof.
  intros H Hs; induction ks as [|k' ks IH]; simpl; [contradiction|].
  assert (P : 0 <= total_area a ks).
  { apply (total_area_nonneg a keys); [assumption|].
    intros; apply Hs; right; assumption. }
  assert (P' : 0 <= a (Plant k')).
  { rewrite Forall_forall in H; apply H, in_map, Hs; left; reflexivity. }
  intros [->|Hk].
  - unfold total_area in *; simpl; lra.
  - assert (a (Plant k) <= total_area a ks)
      by (apply IH; [intros; apply Hs; right; assumption | assumption]).
    unfold total_area in *; simpl; lra.
Qed.


Lemma year_before_last (y : Z) :
  In y years -> In (y + 1)%Z years -> In y (removelast years).
Proof.
  unfold years; simpl; intros H H1.
  repeat (destruct H as [<-|H]; [simpl in H1; intuition lia|]); contradiction.
Qed.

Lemma strict_valid_season (land_type season : string) (ci : Strict.crop_info) :
  Strict.valid_combination land_type season ci = true -> In season seasons.
Proof.
  unfold Strict.valid_combination, seasons, str_in; simpl.
  destruct (String.eqb season single_season) eqn:E1;
    [apply String.eqb_eq in E1; subst; auto|].
  destruct (String.eqb season first_season) eqn:E2;
    [apply String.eqb_eq in E2; subst; auto|].
  destruct (String.eqb season second_season) eqn:E3;
    [apply String.eqb_eq in E3; subst; auto|].
  simpl; repeat match goal with |- context [if ?b then _ else _] => destruct b end;
    discriminate.
Qed.

Lemma advanced_valid_season (land_type season : string) (ci : Advanced.crop_info) :
  Advanced.valid_combination land_type season ci = true -> In season seasons.
Proof.
  unfold Advanced.valid_combination, seasons, str_in; simpl.
  destruct (String.eqb season single_season) eqn:E1;
    [apply String.eqb_eq in E1; subst; auto|].
  destruct (String.eqb season first_season) eqn:E2;
    [apply String.eqb_eq in E2; subst; auto|].
  destruct (String.eqb season second_season) eqn:E3;
    [apply String.eqb_eq in E3; subst; auto|].
  simpl; repeat match goal with |- context [if ?b then _ else _] => destruct b end;
    discriminate.
Qed.

Lemma strict_consecutive_years (wb : workbook) (m : problem) (a : valuation)
  (land_name season : string) (crop_id year : Z) :
  let self := Strict.init wb in
  Strict.create_strict_model self = Some m ->
  feasible a m ->
  In (land_name, year, season, crop_id) (Strict.x_keys self) ->
  In (land_name, (year + 1)%Z, season, crop_id) (Strict.x_keys self) ->
  a (Plant (land_name, year, season, crop_id))
  + a (Plant (land_name, (year + 1)%Z, season, crop_id)) <= 0.1.
Proof.
  intros self Hm Hf H1 H2.
  destruct (strict_model_parts self m Hm) as (ar & sa & le_ & _ & _ & _ & Hc & _).
  assert (I1 := H1); assert (I2 := H2).
  apply strict_x_keys_inv in I1, I2.
  destruct I1 as (l1 & li1 & o1 & Hl1 & Hy1 & Ho1 & _ & Hk1).
  destruct I2 as (l2 & li2 & o2 & _ & Hy2 & _ & _ & _).
  simpl in Hy1, Hy2, Hk1; injection Hk1 as El H3 H4; subst l1.
  apply strict_select_valid_In in Ho1; destruct Ho1 as (row & ci & _ & E & V & ->).
  simpl in H3, H4; apply strict_valid_season in V; rewrite <- H3 in V.
  apply (dict_get_key Z.eqb Z.eqb_eq) in E; rewrite <- H4 in E.
  assert (H : holds a (le (lpSum [Plant (land_name, year, season, crop_id);
                                   Plant (land_name, (year + 1)%Z, season, crop_id)])
                          (number 0.1))).
  { apply (feasible_holds a m); [assumption|].
    rewrite Hc; do 2 (apply in_or_app; right); apply in_or_app; left.
    unfold Strict.replanting_constraints.
    apply in_flat_map; exists land_name; split.
    { apply in_map_iff; exists (land_name, li1); auto. }
    apply in_flat_map; exists crop_id; split; [exact E|].
    apply in_flat_map; exists season; split; [exact V|].
    apply in_flat_map; exists year; split; [apply year_before_last; assumption|].
    apply in_flat_map; exists (Plant (land_name, year, season, crop_id)); split.
    { apply in_map, filter_In; split; [assumption|].
      unfold Strict.at_crop; simpl.
      rewrite !String.eqb_refl, !Z.eqb_refl; reflexivity. }
    apply in_map_iff; exists (Plant (land_name, (year + 1)%Z, season, crop_id)).
    split; [reflexivity|].
    apply in_map, filter_In; split; [assumption|].
    unfold Strict.at_crop; simpl.
    rewrite !String.eqb_refl, !Z.eqb_refl; reflexivity. }
  unfold holds, le in H; cbn [rel lhs rhs] in H.
  change [Plant (land_name, year, season, crop_id);
          Plant (land_name, (year + 1)%Z, season, crop_id)]
    with (map Plant [(land_name, year, season, crop_id);
                     (land_name, (year + 1)%Z, season, crop_id)]) in H.
  rewrite eval_lpSum, eval_number in H; cbn [total_area] in H.
  rewrite Qplus_0_r in H; exact H.
Qed.

Lemma advanced_consecutive_years (generator : Type)
  (uniform : Q -> Q -> generator -> Q * generator) (wb : workbook) (g : generator)
  (m : problem) (a : valuation) (land_name season : string) (crop_id year : Z) :
  let self := fst (Advanced.init generator uniform wb g) in
  Advanced.create_advanced_model self = Some m ->
  feasible a m ->
  In (land_name, year, season, crop_id) (Advanced.x_keys self) ->
  In (land_name, (year + 1)%Z, season, crop_id) (Advanced.x_keys self) ->
  a (Plant (land_name, year, season, crop_id))
  + a (Plant (land_name, (year + 1)%Z, season, crop_id)) <= 0.1.
Proof.
  intros self Hm Hf H1 H2.
  destruct (advanced_model_parts self m Hm)
    as (ba & de & ro & ri & co & _ & _ & Hro & _ & _ & Hc & Hx & _).
  assert (I1 := H1); assert (I2 := H2).
  apply advanced_x_keys_inv in I1, I2.
  destruct I1 as (l1 & li1 & o1 & Hl1 & Hy1 & Ho1 & _ & Hk1).
  destruct I2 as (l2 & li2 & o2 & _ & Hy2 & _ & _ & _).
  simpl in Hy1, Hy2, Hk1; injection Hk1 as El H3 H4; subst l1.
  destruct (advanced_init_fields generator uniform wb g) as (_ & Hv & _).
  fold self in Hv; rewrite Hv in Ho1.
  apply advanced_valid_options_In in Ho1; destruct Ho1 as (row & ci & _ & E & V & ->).
  simpl in H3, H4; apply advanced_valid_season in V; rewrite <- H3 in V.
  apply (dict_get_key Z.eqb Z.eqb_eq) in E; rewrite <- H4 in E.
  set (keys := Advanced.x_keys self) in *.
  set (current := filter (Advanced.at_key land_name year season crop_id) keys).
  set (next := filter (Advanced.at_key land_name (year + 1)%Z season crop_id) keys).
  assert (C1 : In (land_name, year, season, crop_id) current).
  { apply filter_In; split; [assumption|].
    unfold Advanced.at_key, Advanced.at_season; simpl.
    rewrite !String.eqb_refl, !Z.eqb_refl; reflexivity. }
  assert (C2 : In (land_name, (year + 1)%Z, season, crop_id) next).
  { apply filter_In; split; [assumption|].
    unfold Advanced.at_key, Advanced.at_season; simpl.
    rewrite !String.eqb_refl, !Z.eqb_refl; reflexivity. }
  assert (H : holds a (le (plus (lpSum (map Plant current)) (lpSum (map Plant next)))
                          (number 0.1))).
  { apply (feasible_holds a m); [assumption|].
    rewrite Hc; do 4 (apply in_or_app; right); apply in_or_app; left.
    unfold Advanced._add_rotation_constraints in Hro; unbind Hro.
    inversion Hro; subst ro; apply in_or_app; left.
    unfold Advanced.replanting_constraints.
    apply in_flat_map; exists land_name; split.
    { apply in_map_iff; exists (land_name, li1); auto. }
    apply in_flat_map; exists crop_id; split; [exact E|].
    apply in_flat_map; exists season; split; [exact V|].
    apply in_flat_map; exists year; split; [apply year_before_last; assumption|].
    apply when_nonempty_In.
    { intros N; apply (f_equal (@length var)) in N.
      unfold Advanced.pick in N; fold keys current in N.
      destruct current; [contradiction | discriminate]. }
    apply when_nonempty_In.
    { intros N; unfold Advanced.pick in N; fold keys next in N.
      destruct next; [contradiction | discriminate]. }
    left; reflexivity. }
  unfold holds, le in H; cbn [rel lhs rhs] in H.
  assert (P : Forall (fun v => 0 <= a v) (map Plant keys)) by (rewrite <- Hx; apply Hf).
  assert (S : forall p k, In k (filter p keys) -> In k keys)
    by (intros p k Hk; apply filter_In in Hk; apply Hk).
  assert (B1 := area_below_total a keys current _ P (S _) C1).
  assert (B2 := area_below_total a keys next _ P (S _) C2).
  assert (Ev : eval a (plus (lpSum (map Plant current)) (lpSum (map Plant next)))
               == total_area a current + total_area a next).
  { unfold eval, plus; cbn [terms const].
    assert (G : forall t1 t2, sum_terms a (t1 ++ t2) == sum_terms a t1 + sum_terms a t2).
    { induction t1 as [|[q v] t1 IH]; intros t2; simpl; [ring|].
      rewrite IH; ring. }
    rewrite G, !sum_terms_lpSum; simpl; ring. }
  rewrite Ev, eval_number in H; lra.
Qed.

(** X6.  No consecutive reuse: in a feasible solution of the strict model and of
    the advanced model, the areas of one crop on one land in one season in
    two consecutive years add up to at most 0.1 mu. *)
Theorem no_consecutive_reuse (generator : Type)
  (uniform : Q -> Q -> generator -> Q * generator) (wb : workbook) (g : generator)
  (a : valuation) (land_name season : string) (crop_id year : Z) :
  let strict := Strict.init wb in
  let advanced := fst (Advanced.init generator uniform wb g) in
  let current := (land_name, year, season, crop_id) in
  let next := (land_name, (year + 1)%Z, season, crop_id) in
  (forall m,
      Strict.create_strict_model strict = Some m ->
      feasible a m ->
      In current (Strict.x_keys strict) ->
      In next (Strict.x_keys strict) ->
      a (Plant current) + a (Plant next) <= 0.1)
  /\ (forall m,
         Advanced.create_advanced_model advanced = Some m ->
         feasible a m ->
         In current (Advanced.x_keys advanced) ->
         In next (Advanced.x_keys advanced) ->
         a (Plant current) + a (Plant next) <= 0.1).
Proof.
  intros strict advanced current next; split; intros m Hm Hf H1 H2.
  - apply (strict_consecutive_years wb m); assumption.
  - apply (advanced_consecutive_years generator uniform wb g m); assumption.
Qed.

(** The theorem at the small farm, for the first legume in 2024 and 2025. *)
Lemma no_consecutive_reuse_witness :
  (exists m, Strict.create_strict_model strict_farm = Some m /\ feasible plan m)
  /\ (exists m, Advanced.create_advanced_model advanced_farm = Some m /\ feasible plan m)
  /\ plan (Plant ("A1", 2024%Z, "单季", 1%Z)) + plan (Plant ("A1", 2025%Z, "单季", 1%Z))
     <= 0.1.
Proof.
  split; [exact strict_farm_feasible|].
  split; [exact advanced_farm_feasible|].
  destruct strict_farm_feasible as (ms & Hms & Hfs).
  apply (proj1 (no_consecutive_reuse unit midpoint farm tt plan "A1" "单季" 1 2024)
           ms Hms Hfs).
  - vm_compute; auto 20.
  - vm_compute; auto 20.
Defined.

Lemma paddy_farm_feasible :
  exists m, Base.create_model paddy_farm 1 = Some m /\ feasible rice_plan m.
Proof.
  destruct (Base.create_model paddy_farm 1) as [m|] eqn:E.
  - exists m; split; [reflexivity|].
    apply feasibleb_feasible.
    assert (H : option_map (feasibleb rice_plan) (Base.create_model paddy_farm 1)
                = Some true) by (vm_compute; reflexivity).
    rewrite E in H; inversion H; reflexivity.
  - exfalso.
    assert (H : option_map (fun _ => tt) (Base.create_model paddy_farm 1) = Some tt)
      by (vm_compute; reflexivity).
    rewrite E in H; discriminate.
Qed.

(** The theorem at the dry field of the small farm in 2024. *)
Lemma base_area_conservation_witness :
  total_area early_only_plan
    (filter (Base.at_season "A1" 2024 single_season) (Base.x_keys base_farm))
  <= 10.
Proof.
  destruct (base_farm_feasible 1 (or_introl eq_refl)) as (m & Hm & Hf).
  apply (base_area_conservation base_farm 1 m early_only_plan "A1"
           {| Base.type := "平旱地"; Base.area := 10 |} 2024 single_season Hm Hf).
  - vm_compute; left; reflexivity.
  - vm_compute; auto 20.
  - vm_compute; auto 20.
  - vm_compute; discriminate.
Defined.

(** The theorem at the irrigated field: rice in 2024, and no rice in 2025. *)
Lemma base_irrigated_exclusive_witness :
  (total_area rice_plan
     (filter (Base.at_season "D1" 2024 single_season) (Base.x_keys paddy_farm)) == 0
   \/ total_area rice_plan
        (filter (Base.in_double_season "D1" 2024) (Base.x_keys paddy_farm)) == 0)
  /\ total_area rice_plan
       (filter (Base.at_season "D1" 2024 single_season) (Base.x_keys paddy_farm)) == 15.
Proof.
  split; [|vm_compute; reflexivity].
  destruct paddy_farm_feasible as (m & Hm & Hf).
  apply (base_irrigated_exclusive paddy_farm 1 m rice_plan "D1"
           {| Base.type := "水浇地"; Base.area := 15 |} 2024 Hm Hf).
  - vm_compute; left; reflexivity.
  - reflexivity.
  - vm_compute; auto 20.
Defined.

(* ================================================================== *)
(** ** Sheets, models and rows *)

Lemma mapM_total {A B : Type} (f : A -> option B) (l : list A) :
  (forall a, In a l -> exists b, f a = Some b) -> exists r, mapM f l = Some r.
Proof.
  induction l as [|a l IH]; intros H; simpl; [eauto|].
  destruct (H a (or_introl eq_refl)) as [b Hb]; rewrite Hb; simpl.
  destruct IH as [r Hr]; [intros; apply H; right; assumption|].
  rewrite Hr; simpl; eauto.
Qed.

Lemma flat_mapM_total {A B : Type} (f : A -> option (list B)) (l : list A) :
  (forall a, In a l -> exists bs, f a = Some bs) -> exists r, flat_mapM f l = Some r.
Proof.
  intros H; unfold flat_mapM.
  destruct (mapM_total f l H) as [r Hr]; rewrite Hr; simpl; eauto.
Qed.

Lemma filterM_total {A : Type} (p : A -> option bool) (l : list A) :
  (forall a, In a l -> exists b, p a = Some b) -> exists r, filterM p l = Some r.
Proof.
  induction l as [|a l IH]; intros H; simpl; [eauto|].
  destruct (H a (or_introl eq_refl)) as [b Hb]; rewrite Hb; simpl.
  destruct IH as [r Hr]; [intros; apply H; right; assumption|].
  rewrite Hr; simpl; eauto.
Qed.

Lemma mapM_None {A B : Type} (f : A -> option B) (l : list A) (a : A) :
  In a l -> f a = None -> mapM f l = None.
Proof.
  induction l as [|a' l IH]; simpl; [contradiction|].
  intros [->|Hin] Hf.
  - rewrite Hf; reflexivity.
  - destruct (f a'); simpl; [|reflexivity].
    rewrite (IH Hin Hf); reflexivity.
Qed.

Lemma flat_mapM_None {A B : Type} (f : A -> option (list B)) (l : list A) (a : A) :
  In a l -> f a = None -> flat_mapM f l = None.
Proof.
  intros Hin Hf; unfold flat_mapM; rewrite (mapM_None f l a Hin Hf); reflexivity.
Qed.

Section DictMore.
Context {K V : Type} (eqb : K -> K -> bool).
Hypothesis eqb_eq : forall a b, eqb a b = true <-> a = b.

Lemma eqb_refl_of (k : K) : eqb k k = true.
Proof. apply eqb_eq; reflexivity. Qed.

Lemma dict_get_set (d : list (K * V)) (k k' : K) (v : V) :
  dict_get eqb (dict_set eqb d k v) k'
  = if eqb k k' then Some v else dict_get eqb d k'.
Proof.
  induction d as [|[k0 v0] d IH]; simpl.
  - reflexivity.
  - destruct (eqb k0 k) eqn:E0; simpl.
    + apply eqb_eq in E0; subst k0.
      destruct (eqb k k'); reflexivity.
    + destruct (eqb k0 k') eqn:E1; [|exact IH].
      destruct (eqb k k') eqn:E2; [|reflexivity].
      apply eqb_eq in E1, E2; subst k k'.
      rewrite eqb_refl_of in E0; discriminate.
Qed.

Lemma dict_get_app (d1 d2 : list (K * V)) (k : K) :
  dict_get eqb (d1 ++ d2) k
  = match dict_get eqb d1 k with
    | Some v => Some v
    | None => dict_get eqb d2 k
    end.
Proof.
  induction d1 as [|[k0 v0] d1 IH]; simpl; [reflexivity|].
  destruct (eqb k0 k); [reflexivity | exact IH].
Qed.

(** A lookup in the dictionary a loop of assignments builds finds the last
    assignment to the key. *)
Lemma dict_get_of_list (l : list (K * V)) (k : K) :
  dict_get eqb (dict_of_list eqb l) k = dict_get eqb (rev l) k.
Proof.
  unfold dict_of_list.
  assert (G : forall acc,
             dict_get eqb (fold_left (fun d kv => dict_set eqb d (fst kv) (snd kv)) l acc) k
             = match dict_get eqb (rev l) k with
               | Some v => Some v
               | None => dict_get eqb acc k
               end).
  { induction l as [|[k1 v1] l IH]; intros acc; simpl; [reflexivity|].
    rewrite IH, dict_get_app, dict_get_set; simpl.
    destruct (dict_get eqb (rev l) k); [reflexivity|].
    destruct (eqb k1 k); reflexivity. }
  rewrite G; simpl; destruct (dict_get eqb (rev l) k); reflexivity.
Qed.

Lemma dict_set_NoDup (d : list (K * V)) (k : K) (v : V) :
  NoDup (dict_keys d) -> NoDup (dict_keys (dict_set eqb d k v)).
Proof.
  unfold dict_keys; induction d as [|[k0 v0] d IH]; simpl; intros H.
  - constructor; [intros [] | constructor].
  - inversion H as [|? ? Hn Hd]; subst.
    destruct (eqb k0 k) eqn:E; simpl.
    + constructor; assumption.
    + constructor; [|apply IH; assumption].
      intros Hin.
      apply (dict_set_keys eqb eqb_eq d k k0 v) in Hin.
      destruct Hin as [Hin|Hin]; [contradiction|].
      subst k0; rewrite eqb_refl_of in E; discriminate.
Qed.

Lemma dict_of_list_NoDup (l : list (K * V)) : NoDup (dict_keys (dict_of_list eqb l)).
Proof.
  unfold dict_of_list.
  assert (G : forall acc, NoDup (dict_keys acc) ->
             NoDup (dict_keys
                      (fold_left (fun d kv => dict_set eqb d (fst kv) (snd kv)) l acc))).
  { induction l as [|[k1 v1] l IH]; intros acc H; simpl; [assumption|].
    apply IH, dict_set_NoDup; assumption. }
  apply G; constructor.
Qed.

Lemma dict_In_get (d : list (K * V)) (k : K) (v : V) :
  NoDup (dict_keys d) -> In (k, v) d -> dict_get eqb d k = Some v.
Proof.
  unfold dict_keys; induction d as [|[k0 v0] d IH]; simpl; intros Hn Hin; [contradiction|].
  inversion Hn as [|? ? Hnot Hd]; subst.
  destruct Hin as [Hin|Hin].
  - inversion Hin; subst; rewrite eqb_refl_of; reflexivity.
  - destruct (eqb k0 k) eqn:E.
    + apply eqb_eq in E; subst k0; exfalso; apply Hnot.
      apply in_map_iff; exists (k, v); auto.
    + apply IH; assumption.
Qed.

Lemma dict_get_None (d : list (K * V)) (k : K) :
  dict_get eqb d k = None <-> ~ In k (dict_keys d).
Proof.
  split.
  - intros H Hin.
    destruct (dict_key_get eqb eqb_eq d k Hin) as [v Hv]; congruence.
  - intros H; destruct (dict_get eqb d k) as [v|] eqn:E; [|reflexivity].
    exfalso; apply H; apply (dict_get_key eqb eqb_eq d k v E).
Qed.

End DictMore.

(** The last row of a sheet with a given key, read through a loop
    [for row in sheet: d[key row] = value row]. *)
Lemma dict_get_rev_map {R K V : Type} (eqb : K -> K -> bool) (key : R -> K)
  (value : R -> V) (rows : list R) (k : K) :
  dict_get eqb (rev (map (fun r => (key r, value r)) rows)) k
  = option_map value (find (fun r => eqb (key r) k) (rev rows)).
Proof.
  rewrite <- map_rev.
  induction (rev rows) as [|r l IH]; simpl; [reflexivity|].
  destruct (eqb (key r) k); [reflexivity | exact IH].
Qed.


Lemma base_var_keys_land (self : Base.optimizer) (k : key) :
  In k (Base.var_keys self) -> In (key_land k) (dict_keys (Base.lands self)).
Proof.
  unfold Base.var_keys; intros H.
  apply in_flat_map in H; destruct H as ([land_name land_info] & Hl & H).
  apply in_flat_map in H; destruct H as (year & _ & H).
  apply in_flat_map in H; destruct H as (opt & _ & H).
  destruct (String.eqb _ _); [|contradiction].
  destruct H as [<-|[]]; simpl.
  apply in_map_iff; exists (land_name, land_info); auto.
Qed.

Lemma base_x_keys_land (self : Base.optimizer) (k : key) :
  In k (Base.x_keys self) -> In (key_land k) (dict_keys (Base.lands self)).
Proof.
  unfold Base.x_keys, Base.x; rewrite keys_of_plant_dict; apply base_var_keys_land.
Qed.

Lemma base_land_lookup (self : Base.optimizer) (land_name : string) :
  In land_name (dict_keys (Base.lands self)) ->
  exists land_info, dict_get String.eqb (Base.lands self) land_name = Some land_info.
Proof. apply (dict_key_get String.eqb String.eqb_eq). Qed.

Lemma base_objective_total (self : Base.optimizer) (bonus : Q) :
  exists ts, Base.objective_terms self bonus = Some ts.
Proof.
  apply flat_mapM_total; intros [[[land_name year] season] crop_id] Hk.
  destruct (base_land_lookup self land_name (base_var_keys_land self _ Hk)) as [li Hli].
  rewrite Hli; simpl.
  destruct (Base.find_option self (Base.type li) season crop_id); eauto.
Qed.

Lemma base_sales_total (self : Base.optimizer) (scenario : Z) :
  exists cs, Base.sales_constraints self scenario = Some cs.
Proof.
  apply flat_mapM_total; intros [crop_id expected_sale] _.
  assert (H : exists ts, Base.total_production_vars self crop_id = Some ts).
  { apply flat_mapM_total; intros year _.
    apply flat_mapM_total; intros season _.
    apply flat_mapM_total; intros [[[land_name y] s] c_id] Hk.
    destruct (Z.eqb y year && String.eqb s season && Z.eqb c_id crop_id); [|eauto].
    destruct (base_land_lookup self land_name (base_x_keys_land self _ Hk)) as [li Hli].
    rewrite Hli; simpl.
    destruct (Base.find_option self (Base.type li) s c_id); eauto. }
  destruct H as [ts Hts]; rewrite Hts; simpl; eauto.
Qed.

Lemma base_patch_total (self : Base.optimizer) :
  exists cs, Base.patch_constraints self = Some cs.
Proof.
  apply flat_mapM_total; intros k Hk.
  destruct (Base.in_planting_binary self k); [|eauto].
  destruct (base_land_lookup self _ (base_x_keys_land self _ Hk)) as [li Hli].
  rewrite Hli; simpl; eauto.
Qed.

Lemma base_relaxed_sales_total (self : Base.optimizer) :
  exists cs, Base.relaxed_sales_constraints self = Some cs.
Proof.
  apply flat_mapM_total; intros [crop_id expected_sale] _.
  assert (H : exists ts, Base.relaxed_production_vars self crop_id = Some ts).
  { apply flat_mapM_total; intros [[[land_name y] s] c_id] Hk.
    destruct (Z.eqb c_id crop_id); [|eauto].
    destruct (base_land_lookup self land_name (base_x_keys_land self _ Hk)) as [li Hli].
    rewrite Hli; simpl.
    destruct (Base.find_option self (Base.type li) s c_id); eauto. }
  destruct H as [ts Hts]; rewrite Hts; simpl; eauto.
Qed.

(** X8.  Building the base model never raises: whatever the optimizer holds,
    [create_model] returns a problem in either scenario, and so does the
    construction of the relaxed model. *)
Theorem base_models_always_build (self : Base.optimizer) (scenario : Z) :
  (exists m, Base.create_model self scenario = Some m)
  /\ (exists r, Base.relaxed_model self = Some r).
Proof.
  split.
  - unfold Base.create_model, Base._add_fixed_constraints.
    destruct (base_objective_total self 200) as [ts ->]; simpl.
    destruct (base_sales_total self scenario) as [sa ->]; simpl.
    destruct (base_patch_total self) as [pa ->]; simpl; eauto.
  - unfold Base.relaxed_model.
    destruct (base_objective_total self 100) as [ts ->]; simpl.
    destruct (base_relaxed_sales_total self) as [sa ->]; simpl; eauto.
Qed.

Lemma strict_params_total (wb : workbook) (year crop_id : Z) :
  let self := Strict.init wb in
  In year years ->
  In crop_id (dict_keys (Strict.crops self)) ->
  exists p, Strict.params_at self year crop_id = Some p.
Proof.
  intros self Hy Hc; unfold Strict.params_at.
  change (Strict.expected_params self)
    with (Strict._calculate_expected_parameters (Strict.crops self)).
  unfold Strict._calculate_expected_parameters.
  destruct (dict_key_get Z.eqb Z.eqb_eq
              (dict_of_list Z.eqb
                 (map (fun year0 =>
                         (year0,
                          dict_of_list Z.eqb
                            (map (fun '(crop_id0, crop_info) =>
                                    (crop_id0,
                                     Strict.params_of (year0 - 2023)%Z crop_info))
                                 (Strict.crops self))))
                      years))
              year) as [by_crop Hb].
  { apply (dict_of_list_keys Z.eqb Z.eqb_eq); rewrite map_map; simpl; exact Hy. }
  rewrite Hb; simpl.
  apply (dict_get_In Z.eqb Z.eqb_eq), (dict_of_list_In Z.eqb Z.eqb_eq) in Hb.
  apply in_map_iff in Hb; destruct Hb as (y & Hb & _); inversion Hb; subst.
  apply (dict_key_get Z.eqb Z.eqb_eq), (dict_of_list_keys Z.eqb Z.eqb_eq).
  apply in_map_iff in Hc; destruct Hc as ([c ci] & Hc & Hin); simpl in Hc; subst c.
  apply in_map_iff; exists (crop_id, Strict.params_of (year - 2023)%Z ci).
  split; [reflexivity|].
  apply in_map_iff; exists (crop_id, ci); split; [reflexivity | exact Hin].
Qed.

Lemma strict_key_land (self : Strict.optimizer) (k : key) :
  In k (Strict.x_keys self) ->
  exists land_info, dict_get String.eqb (Strict.lands self) (key_land k) = Some land_info.
Proof.
  intros H; apply strict_x_keys_inv in H.
  destruct H as (land_name & land_info & opt & Hl & _ & _ & _ & ->); simpl.
  apply (dict_key_get String.eqb String.eqb_eq).
  apply in_map_iff; exists (land_name, land_info); auto.
Qed.

Lemma strict_key_crop (wb : workbook) (k : key) :
  In k (Strict.x_keys (Strict.init wb)) ->
  exists crop_info,
    dict_get Z.eqb (Strict.crops (Strict.init wb)) (key_crop k) = Some crop_info.
Proof.
  intros H; apply (dict_key_get Z.eqb Z.eqb_eq).
  apply (strict_key_crop_known wb k H).
Qed.

Lemma strict_objective_total (wb : workbook) :
  exists ts, Strict.objective_terms (Strict.init wb) = Some ts.
Proof.
  set (self := Strict.init wb).
  apply flat_mapM_total; intros k Hk.
  destruct (strict_key_crop_known wb k Hk) as [Hy Hc].
  destruct (strict_params_total wb _ _ Hy Hc) as [p Hp].
  destruct (strict_key_land self k Hk) as [li Hli].
  destruct (strict_key_crop wb k Hk) as [ci Hci].
  destruct k as [[[land_name year] season] crop_id]; simpl in *.
  fold self in Hp, Hci; rewrite Hp; simpl; rewrite Hli; simpl.
  destruct (Strict.find_option self (Strict.type li) season crop_id); [|eauto].
  rewrite Hci; simpl; eauto.
Qed.

Lemma strict_flag_filter_total (wb : workbook) (test : key -> bool)
  (flag : Strict.crop_info -> bool) :
  exists r,
    filterM
      (fun k =>
         if test k then
           crop_info <- dict_get Z.eqb (Strict.crops (Strict.init wb)) (key_crop k) ;;
           Some (flag crop_info)
         else Some false)
      (Strict.x_keys (Strict.init wb)) = Some r.
Proof.
  apply filterM_total; intros k Hk.
  destruct (test k); [|eauto].
  destruct (strict_key_crop wb k Hk) as [ci Hci]; rewrite Hci; simpl; eauto.
Qed.

Lemma strict_area_total (wb : workbook) :
  exists cs, Strict.area_constraints (Strict.init wb) = Some cs.
Proof.
  set (self := Strict.init wb).
  apply flat_mapM_total; intros [land_name land_info] _.
  apply flat_mapM_total; intros year _.
  destruct (String.eqb (Strict.type land_info) irrigated).
  - destruct (dict_get Strict.pair_eqb (Strict.y_water self) (land_name, year));
      [|eauto].
    destruct (strict_flag_filter_total wb
                (Strict.at_season land_name year single_season) Strict.is_rice)
      as [r Hr].
    fold self in Hr; rewrite Hr; simpl; eauto.
  - destruct (str_in (Strict.type land_info) dry_lands); [eauto|].
    destruct (str_in (Strict.type land_info) (greenhouses ++ [smart_greenhouse])); eauto.
Qed.

Lemma strict_legume_keys_total (wb : workbook) (land_name : string) (window : list Z) :
  exists ks, Strict.legume_keys (Strict.init wb) land_name window = Some ks.
Proof.
  apply flat_mapM_total; intros year _.
  apply (strict_flag_filter_total wb
           (fun k => String.eqb (key_land k) land_name && Z.eqb (key_year k) year)
           Strict.is_legume).
Qed.

Lemma strict_legume_total (wb : workbook) :
  exists cs, Strict.legume_constraints (Strict.init wb) = Some cs.
Proof.
  set (self := Strict.init wb).
  apply flat_mapM_total; intros land_name _.
  destruct (strict_legume_keys_total wb land_name Strict.early_window) as [e He].
  destruct (strict_legume_keys_total wb land_name
              (filter (fun year => (year <=? 2030)%Z) Strict.late_window)) as [l Hl].
  fold self in He, Hl.
  destruct (negb (str_in land_name (Strict.legume_planted_2023 self)));
    [rewrite He|]; cbn [bind]; rewrite Hl; cbn [bind]; eauto.
Qed.

Lemma strict_production_total (self : Strict.optimizer) (p : Strict.params)
  (year crop_id : Z) :
  exists ts, Strict.production_vars self p year crop_id = Some ts.
Proof.
  apply flat_mapM_total; intros k Hk.
  destruct (strict_key_land self k Hk) as [li Hli].
  destruct k as [[[land_name yr] season] c_id]; simpl in *.
  destruct (Z.eqb yr year && Z.eqb c_id crop_id); [|eauto].
  rewrite Hli; simpl.
  destruct (Strict.find_option self (Strict.type li) season c_id); eauto.
Qed.

(** The sales constraints of one crop: built when the crop is known, a
    [KeyError] when it is not. *)
Lemma strict_sales_of_crop (wb : workbook) (crop_id : Z) (base_sales : Q) :
  let self := Strict.init wb in
  let body :=
    (fun '(crop_id, base_sales) =>
       crop_info <- dict_get Z.eqb (Strict.crops self) crop_id ;;
       let crop_name := Strict.name crop_info in
       flat_mapM
         (fun year =>
            params <- Strict.params_at self year crop_id ;;
            let max_sales :=
              if str_in crop_name Strict.wheat_and_corn
              then base_sales * Strict.sales_multiplier params
              else base_sales * 1.05 in
            production_vars <- Strict.production_vars self params year crop_id ;;
            Some (when_nonempty production_vars
                    [le (weighted production_vars) (number max_sales)]))
         years) in
  (In crop_id (dict_keys (Strict.crops self)) -> exists cs, body (crop_id, base_sales) = Some cs)
  /\ (~ In crop_id (dict_keys (Strict.crops self)) -> body (crop_id, base_sales) = None).
Proof.
  intros self body; split; intros H; unfold body.
  - destruct (dict_key_get Z.eqb Z.eqb_eq _ _ H) as [ci Hci]; rewrite Hci; simpl.
    apply flat_mapM_total; intros year Hy.
    destruct (strict_params_total wb year crop_id Hy H) as [p Hp].
    fold self in Hp; rewrite Hp; simpl.
    destruct (strict_production_total self p year crop_id) as [ts Hts].
    rewrite Hts; simpl; eauto.
  - apply (dict_get_None Z.eqb Z.eqb_eq) in H; rewrite H; reflexivity.
Qed.

Lemma strict_model_builds (wb : workbook) :
  let self := Strict.init wb in
  (forall crop_id,
      In crop_id (dict_keys (Strict.expected_sales self)) ->
      In crop_id (dict_keys (Strict.crops self))) ->
  exists m, Strict.create_strict_model self = Some m.
Proof.
  intros self H.
  unfold Strict.create_strict_model, Strict._add_strict_constraints.
  destruct (strict_objective_total wb) as [ts Hts]; fold self in Hts; rewrite Hts; simpl.
  destruct (strict_area_total wb) as [ar Har]; fold self in Har; rewrite Har; simpl.
  assert (Hs : exists sa, Strict.sales_constraints self = Some sa).
  { apply flat_mapM_total; intros [crop_id base_sales] Hin.
    apply (proj1 (strict_sales_of_crop wb crop_id base_sales)).
    apply H, in_map_iff; exists (crop_id, base_sales); auto. }
  destruct Hs as [sa Hsa]; rewrite Hsa; simpl.
  destruct (strict_legume_total wb) as [le_ Hle]; fold self in Hle; rewrite Hle; simpl.
  eauto.
Qed.

Lemma strict_model_raises (wb : workbook) (crop_id : Z) :
  let self := Strict.init wb in
  In crop_id (dict_keys (Strict.expected_sales self)) ->
  ~ In crop_id (dict_keys (Strict.crops self)) ->
  Strict.create_strict_model self = None.
Proof.
  intros self Hin Hout.
  unfold Strict.create_strict_model, Strict._add_strict_constraints.
  destruct (strict_objective_total wb) as [ts Hts]; fold self in Hts; rewrite Hts; simpl.
  destruct (strict_area_total wb) as [ar Har]; fold self in Har; rewrite Har; simpl.
  apply in_map_iff in Hin; destruct Hin as ([c s] & Hc & Hin); simpl in Hc; subst c.
  assert (Hs : Strict.sales_constraints self = None).
  { apply (flat_mapM_None _ _ (crop_id, s) Hin).
    apply (proj2 (strict_sales_of_crop wb crop_id s)); assumption. }
  rewrite Hs; reflexivity.
Qed.

Lemma unknown_crop_dec (sales crops : list Z) :
  (forall c, In c sales -> In c crops) \/ (exists c, In c sales /\ ~ In c crops).
Proof.
  induction sales as [|c l IH]; [left; intros c []|].
  destruct (in_dec Z.eq_dec c crops) as [Hc|Hc].
  - destruct IH as [IH|(c' & H1 & H2)].
    + left; intros c' [<-|H]; auto.
    + right; exists c'; split; [right|]; assumption.
  - right; exists c; split; [left; reflexivity | assumption].
Qed.

Section AdvancedBuild.
Variable generator : Type.
Variable uniform : Q -> Q -> generator -> Q * generator.
Variable wb : workbook.
Variable g : generator.

Let self := fst (Advanced.init generator uniform wb g).

Lemma advanced_init_elasticity :
  Advanced.demand_elasticity self
  = dict_of_list Z.eqb
      (map (fun '(crop_id, crop_info) =>
              (crop_id, Advanced.elasticity_of (Advanced.category crop_info)))
           (Advanced.crops self)).
Proof.
  unfold self, Advanced.init; cbv zeta.
  destruct (Advanced._calculate_correlation_parameters generator uniform _ g)
    as [table g'] eqn:E; cbn [fst Advanced.crops Advanced.demand_elasticity].
  reflexivity.
Qed.

Lemma for_each_keys {A K V : Type} (key : A -> K)
  (body : A -> generator -> (K * V) * generator) (l : list A) (g0 : generator) :
  (forall a g1, fst (fst (body a g1)) = key a) ->
  map fst (fst (Advanced.for_each generator body l g0)) = map key l.
Proof.
  intros H; revert g0; induction l as [|a l IH]; intros g0; simpl; [reflexivity|].
  specialize (H a g0).
  destruct (body a g0) as [b g1] eqn:Eb.
  specialize (IH g1).
  destruct (Advanced.for_each generator body l g1) as [bs g2]; simpl in *.
  rewrite H, IH; reflexivity.
Qed.

Lemma advanced_params_total (year crop_id : Z) :
  In year years ->
  In crop_id (dict_keys (Advanced.crops self)) ->
  exists p, Advanced.params_at self year crop_id = Some p.
Proof.
  intros Hy Hc; unfold Advanced.params_at.
  destruct (advanced_init_fields generator uniform wb g) as (_ & _ & _ & _ & Ht).
  fold self in Ht; rewrite Ht; clear Ht.
  unfold Advanced._calculate_correlation_parameters.
  match goal with
  | |- context [Advanced.for_each generator ?body years g] =>
      pose proof (for_each_keys (fun y : Z => y) body years g) as Hk;
      pose proof (for_each_In generator body years g) as Hout;
      destruct (Advanced.for_each generator body years g) as [table g1]
  end.
  simpl fst in *.
  assert (Hkeys : map fst table = years).
  { rewrite Hk, map_id; [reflexivity|].
    intros y g1'.
    destruct (Advanced.for_each generator _ (Advanced.crops self) g1'); reflexivity. }
  clear Hk.
  destruct (dict_key_get Z.eqb Z.eqb_eq (dict_of_list Z.eqb table) year) as [by_crop Hb].
  { apply (dict_of_list_keys Z.eqb Z.eqb_eq); rewrite Hkeys; exact Hy. }
  rewrite Hb; simpl.
  apply (dict_get_In Z.eqb Z.eqb_eq), (dict_of_list_In Z.eqb Z.eqb_eq) in Hb.
  destruct (Hout _ Hb) as (y & g2 & _ & Hy2); clear Hout.
  match type of Hy2 with
  | context [Advanced.for_each generator ?body ?l g2] =>
      pose proof (for_each_keys (fun c : Z * Advanced.crop_info => fst c) body l g2) as Hk;
      destruct (Advanced.for_each generator body l g2) as [rows g3]
  end.
  simpl in Hy2; inversion Hy2; subst y by_crop; clear Hy2.
  apply (dict_key_get Z.eqb Z.eqb_eq), (dict_of_list_keys Z.eqb Z.eqb_eq).
  simpl fst in Hk; rewrite Hk; [exact Hc|].
  intros [c ci] g4.
  destruct (Advanced.draw_params generator uniform (year - 2023)%Z ci g4); reflexivity.
Qed.

Lemma advanced_key_land (k : key) :
  In k (Advanced.x_keys self) ->
  exists land_info,
    dict_get String.eqb (Advanced.lands self) (key_land k) = Some land_info.
Proof.
  intros H; apply advanced_x_keys_inv in H.
  destruct H as (land_name & land_info & opt & Hl & _ & _ & _ & ->); simpl.
  apply (dict_key_get String.eqb String.eqb_eq).
  apply in_map_iff; exists (land_name, land_info); auto.
Qed.

Lemma advanced_key_crop (k : key) :
  In k (Advanced.x_keys self) ->
  exists crop_info, dict_get Z.eqb (Advanced.crops self) (key_crop k) = Some crop_info.
Proof.
  intros H; apply (dict_key_get Z.eqb Z.eqb_eq).
  apply (advanced_key_crop_known generator uniform wb g k H).
Qed.

Lemma advanced_find_total (k : key) :
  In k (Advanced.x_keys self) ->
  exists found,
    Advanced._find_option self (key_land k) (key_season k) (key_crop k) = Some found.
Proof.
  intros H; unfold Advanced._find_option.
  destruct (advanced_key_land k H) as [li ->]; simpl; eauto.
Qed.

Lemma advanced_objective_total :
  exists ts, Advanced._build_advanced_objective self = Some ts.
Proof.
  unfold Advanced._build_advanced_objective.
  match goal with
  | |- context [flat_mapM ?f (Advanced.x_keys self)] =>
      assert (H : exists ps, flat_mapM f (Advanced.x_keys self) = Some ps)
  end.
  { apply flat_mapM_total; intros k Hk.
    destruct (advanced_key_crop_known generator uniform wb g k Hk) as [Hy Hc].
    fold self in Hc.
    destruct (advanced_params_total _ _ Hy Hc) as [p Hp].
    destruct (advanced_find_total k Hk) as [found Hf].
    destruct (advanced_key_crop k Hk) as [ci Hci].
    destruct k as [[[land_name year] season] crop_id]; simpl in *.
    rewrite Hp; cbn [bind]; rewrite Hf; cbn [bind].
    destruct found; [|eauto].
    rewrite Hci; cbn [bind]; eauto. }
  destruct H as [ps ->]; cbn [bind]; eauto.
Qed.

Lemma advanced_flag_filter_total (test : key -> bool)
  (flag : Advanced.crop_info -> bool) :
  exists r,
    filterM
      (fun k =>
         if test k then
           crop_info <- dict_get Z.eqb (Advanced.crops self) (key_crop k) ;;
           Some (flag crop_info)
         else Some false)
      (Advanced.x_keys self) = Some r.
Proof.
  apply filterM_total; intros k Hk.
  destruct (test k); [|eauto].
  destruct (advanced_key_crop k Hk) as [ci Hci]; rewrite Hci; simpl; eauto.
Qed.

Lemma advanced_basic_total :
  exists cs, Advanced._add_basic_constraints self = Some cs.
Proof.
  unfold Advanced._add_basic_constraints.
  match goal with
  | |- context [flat_mapM ?f (Advanced.x_keys self)] =>
      assert (H : exists rs, flat_mapM f (Advanced.x_keys self) = Some rs)
  end.
  { apply flat_mapM_total; intros k Hk.
    destruct (advanced_key_land k Hk) as [li Hli].
    destruct (advanced_key_crop k Hk) as [ci Hci].
    destruct k as [[[land_name year] season] crop_id]; simpl in *.
    rewrite Hli; cbn [bind].
    unfold Advanced._is_valid_combination; rewrite Hci; cbn [bind]; eauto. }
  destruct H as [rs ->]; cbn [bind]; eauto.
Qed.

Lemma advanced_legume_keys_total (land_name : string) (window : list Z) :
  exists ks, Advanced.legume_keys self land_name window = Some ks.
Proof.
  apply flat_mapM_total; intros year _.
  destruct (existsb (Z.eqb year) years); [|eauto].
  apply (advanced_flag_filter_total
           (fun k => String.eqb (key_land k) land_name && Z.eqb (key_year k) year)
           Advanced.is_legume).
Qed.

Lemma advanced_rotation_total :
  exists cs, Advanced._add_rotation_constraints self = Some cs.
Proof.
  unfold Advanced._add_rotation_constraints.
  assert (H : exists ls, Advanced.legume_constraints self = Some ls).
  { apply flat_mapM_total; intros land_name _.
    destruct (advanced_legume_keys_total land_name Advanced.early_window) as [e ->].
    destruct (advanced_legume_keys_total land_name Advanced.late_window) as [l ->].
    cbn [bind]; eauto. }
  destruct H as [ls ->]; cbn [bind]; eauto.
Qed.

Lemma advanced_risk_total :
  exists cs, Advanced._add_risk_control_constraints self = Some cs.
Proof.
  unfold Advanced._add_risk_control_constraints.
  match goal with
  | |- context [flat_mapM ?f years] =>
      assert (H : exists ms, flat_mapM f years = Some ms)
  end.
  { apply flat_mapM_total; intros year _.
    destruct (advanced_flag_filter_total
                (fun k => Z.eqb (key_year k) year)
                (fun ci => String.eqb (Advanced.category ci) "mushroom")) as [r Hr].
    rewrite Hr; cbn [bind]; eauto. }
  destruct H as [ms ->]; cbn [bind]; eauto.
Qed.

Lemma advanced_complementarity_total :
  exists cs, Advanced._add_complementarity_constraints self = Some cs.
Proof.
  apply flat_mapM_total; intros year _.
  match goal with
  | |- context [mapM ?f ?l] => assert (H : exists fl, mapM f l = Some fl)
  end.
  { apply mapM_total; intros k Hk; apply filter_In in Hk; destruct Hk as [Hk _].
    destruct (advanced_key_crop k Hk) as [ci ->]; cbn [bind]; eauto. }
  destruct H as [fl ->]; cbn [bind]; eauto.
Qed.

Lemma advanced_production_total (keys : list key) (p : Advanced.params)
  (year crop_id : Z) :
  (forall k, In k keys -> In k (Advanced.x_keys self)) ->
  exists ts, Advanced.production_vars self keys p year crop_id = Some ts.
Proof.
  intros Hs; apply flat_mapM_total; intros k Hk.
  destruct (advanced_find_total k (Hs k Hk)) as [found Hf].
  destruct k as [[[land_name yr] season] c_id]; simpl in *.
  destruct (Z.eqb yr year && Z.eqb c_id crop_id); [|eauto].
  rewrite Hf; cbn [bind]; destruct found; eauto.
Qed.

Lemma advanced_elasticity_known (crop_id : Z) :
  In crop_id (dict_keys (Advanced.demand_elasticity self))
  <-> In crop_id (dict_keys (Advanced.crops self)).
Proof.
  rewrite advanced_init_elasticity, (dict_of_list_keys Z.eqb Z.eqb_eq), map_map.
  unfold dict_keys; split; intros H; apply in_map_iff in H;
    destruct H as ([c ci] & Hc & Hin); simpl in Hc; subst c;
    apply in_map_iff; exists (crop_id, ci); auto.
Qed.

Lemma advanced_demand_of_crop (crop_id : Z) (base_sales : Q) :
  let body :=
    (fun '(crop_id, base_sales) =>
       elasticity <- dict_get Z.eqb (Advanced.demand_elasticity self) crop_id ;;
       flat_mapM
         (fun year =>
            params <- Advanced.params_at self year crop_id ;;
            let price_effect :=
              1 + elasticity * (Advanced.price_multiplier params - 1) in
            let adjusted_demand :=
              base_sales * Advanced.sales_multiplier params * price_effect in
            production_vars <-
              Advanced.production_vars self (Advanced.x_keys self) params year
                crop_id ;;
            Some (when_nonempty production_vars
                    [le (weighted production_vars) (number (adjusted_demand * 1.1))]))
         years) in
  (In crop_id (dict_keys (Advanced.crops self)) ->
   exists cs, body (crop_id, base_sales) = Some cs)
  /\ (~ In crop_id (dict_keys (Advanced.crops self)) ->
      body (crop_id, base_sales) = None).
Proof.
  intros body; split; intros H; unfold body.
  - destruct (dict_key_get Z.eqb Z.eqb_eq _ _
                (proj2 (advanced_elasticity_known crop_id) H)) as [e ->]; cbn [bind].
    apply flat_mapM_total; intros year Hy.
    destruct (advanced_params_total year crop_id Hy H) as [p ->]; cbn [bind].
    destruct (advanced_production_total (Advanced.x_keys self) p year crop_id)
      as [ts ->]; [auto|]; cbn [bind]; eauto.
  - assert (N : ~ In crop_id (dict_keys (Advanced.demand_elasticity self)))
      by (intros Hin; apply H, advanced_elasticity_known, Hin).
    apply (dict_get_None Z.eqb Z.eqb_eq) in N; rewrite N; reflexivity.
Qed.

Lemma advanced_model_builds :
  (forall crop_id,
      In crop_id (dict_keys (Advanced.expected_sales self)) ->
      In crop_id (dict_keys (Advanced.crops self))) ->
  exists m, Advanced.create_advanced_model self = Some m.
Proof.
  intros H.
  unfold Advanced.create_advanced_model, Advanced._add_advanced_constraints.
  destruct advanced_objective_total as [ts ->]; cbn [bind].
  destruct advanced_basic_total as [ba ->]; cbn [bind].
  assert (Hd : exists de, Advanced._add_demand_elasticity_constraints self = Some de).
  { apply flat_mapM_total; intros [crop_id base_sales] Hin.
    apply (proj1 (advanced_demand_of_crop crop_id base_sales)).
    apply H, in_map_iff; exists (crop_id, base_sales); auto. }
  destruct Hd as [de ->]; cbn [bind].
  destruct advanced_rotation_total as [ro ->]; cbn [bind].
  destruct advanced_risk_total as [ri ->]; cbn [bind].
  destruct advanced_complementarity_total as [co ->]; cbn [bind].
  eauto.
Qed.

Lemma advanced_model_raises (crop_id : Z) :
  In crop_id (dict_keys (Advanced.expected_sales self)) ->
  ~ In crop_id (dict_keys (Advanced.crops self)) ->
  Advanced.create_advanced_model self = None.
Proof.
  intros Hin Hout.
  unfold Advanced.create_advanced_model, Advanced._add_advanced_constraints.
  destruct advanced_objective_total as [ts ->]; cbn [bind].
  destruct advanced_basic_total as [ba ->]; cbn [bind].
  apply in_map_iff in Hin; destruct Hin as ([c s] & Hc & Hin); simpl in Hc; subst c.
  assert (Hd : Advanced._add_demand_elasticity_constraints self = None).
  { apply (flat_mapM_None _ _ (crop_id, s) Hin).
    apply (proj2 (advanced_demand_of_crop crop_id s)); assumption. }
  rewrite Hd; reflexivity.
Qed.

End AdvancedBuild.

(** X9.  The strict and the advanced model are built exactly when every crop
    of the expected sales is a crop of the crop sheet; a crop number that the
    crop sheet lacks raises [KeyError] while the sales constraints are added.
    The exception leaves [solve_strict_model] and [solve_advanced_model]:
    both build their model outside the [try]. *)
Theorem unknown_sales_crop_raises (generator : Type)
  (uniform : Q -> Q -> generator -> Q * generator) (wb : workbook) (g : generator)
  (solve : solver) :
  let strict := Strict.init wb in
  let advanced := fst (Advanced.init generator uniform wb g) in
  let unknown (sales crops : list Z) := exists crop_id, In crop_id sales /\ ~ In crop_id crops in
  (Strict.create_strict_model strict = None
   <-> unknown (dict_keys (Strict.expected_sales strict)) (dict_keys (Strict.crops strict)))
  /\ (Strict.solve_strict_model strict solve = None
      <-> unknown (dict_keys (Strict.expected_sales strict))
            (dict_keys (Strict.crops strict)))
  /\ (Advanced.create_advanced_model advanced = None
      <-> unknown (dict_keys (Advanced.expected_sales advanced))
            (dict_keys (Advanced.crops advanced)))
  /\ (Advanced.solve_advanced_model advanced solve = None
      <-> unknown (dict_keys (Advanced.expected_sales advanced))
            (dict_keys (Advanced.crops advanced))).
Proof.
  intros strict advanced unknown.
  assert (HS : Strict.create_strict_model strict = None
               <-> unknown (dict_keys (Strict.expected_sales strict))
                     (dict_keys (Strict.crops strict))).
  { split.
    - intros Hn.
      destruct (unknown_crop_dec (dict_keys (Strict.expected_sales strict))
                  (dict_keys (Strict.crops strict))) as [Hall|Hex]; [|exact Hex].
      destruct (strict_model_builds wb Hall) as [m Hm].
      fold strict in Hm; congruence.
    - intros (c & H1 & H2); apply (strict_model_raises wb c H1 H2). }
  assert (HA : Advanced.create_advanced_model advanced = None
               <-> unknown (dict_keys (Advanced.expected_sales advanced))
                     (dict_keys (Advanced.crops advanced))).
  { split.
    - intros Hn.
      destruct (unknown_crop_dec (dict_keys (Advanced.expected_sales advanced))
                  (dict_keys (Advanced.crops advanced))) as [Hall|Hex]; [|exact Hex].
      destruct (advanced_model_builds generator uniform wb g Hall) as [m Hm].
      fold advanced in Hm; congruence.
    - intros (c & H1 & H2); apply (advanced_model_raises generator uniform wb g c H1 H2). }
  split; [exact HS|]; split; [|split; [exact HA|]].
  - rewrite <- HS; unfold Strict.solve_strict_model.
    destruct (Strict.create_strict_model strict) as [m|]; simpl; [|tauto].
    split; [|discriminate].
    destruct (solve None m) as [|status varValue]; [discriminate|].
    destruct (status_ok status); [|discriminate].
    destruct (Strict._extract_strict_results strict varValue); discriminate.
  - rewrite <- HA; unfold Advanced.solve_advanced_model.
    destruct (Advanced.create_advanced_model advanced) as [m|]; simpl; [|tauto].
    split; [|discriminate].
    destruct (solve None m) as [|status varValue]; [discriminate|].
    destruct (status_ok status); [|discriminate].
    destruct (Advanced._extract_advanced_results advanced varValue); discriminate.
Qed.

Lemma flat_mapM_rows {A B : Type} (f : A -> option (list B)) (sel : A -> bool)
  (P : A -> B -> Prop) (l : list A) :
  (forall a, In a l ->
             if sel a then exists b, f a = Some [b] /\ P a b else f a = Some []) ->
  exists r, flat_mapM f l = Some r /\ Forall2 P (filter sel l) r.
Proof.
  unfold flat_mapM; induction l as [|a l IH]; intros H; simpl.
  - exists []; split; [reflexivity | constructor].
  - destruct IH as (r & Hr & HP); [intros; apply H; right; assumption|].
    destruct (mapM f l) as [parts|] eqn:Em; [|discriminate].
    simpl in Hr; inversion Hr; subst r; clear Hr.
    specialize (H a (or_introl eq_refl)).
    destruct (sel a).
    + destruct H as (b & Hb & Pb); rewrite Hb; simpl.
      exists (b :: concat parts); split; [reflexivity | constructor; assumption].
    + rewrite H; simpl; exists (concat parts); split; [reflexivity | assumption].
Qed.

Lemma Forall2_map_fst {A B C : Type} (P : A -> B -> Prop) (l : list A)
  (r : list (B * C)) :
  Forall2 (fun a bc => P a (fst bc)) l r -> Forall2 P l (map fst r).
Proof. induction 1; simpl; constructor; assumption. Qed.

Lemma strict_lands_NoDup (wb : workbook) :
  NoDup (dict_keys (Strict.lands (Strict.init wb))).
Proof. apply (dict_of_list_NoDup String.eqb String.eqb_eq). Qed.

Lemma strict_find_total (self : Strict.optimizer) (k : key) (li : Strict.land_info) :
  NoDup (dict_keys (Strict.lands self)) ->
  In k (Strict.x_keys self) ->
  dict_get String.eqb (Strict.lands self) (key_land k) = Some li ->
  exists opt,
    Strict.find_option self (Strict.type li) (key_season k) (key_crop k) = Some opt.
Proof.
  intros Hn Hk Hli; apply strict_x_keys_inv in Hk.
  destruct Hk as (land_name & li0 & opt0 & Hl & _ & Ho & Ht & E).
  destruct k as [[[l y] s] c]; cbn [key_land key_season key_crop key_year] in *.
  inversion E; subst l s c; clear E.
  rewrite (dict_In_get String.eqb String.eqb_eq _ _ _ Hn Hl) in Hli.
  inversion Hli; subst li0; clear Hli.
  unfold Strict.find_option.
  match goal with |- exists o, find ?p ?l = Some o => destruct (find p l) eqn:E end;
    [eauto|].
  apply (find_none _ _ E) in Ho.
  rewrite Ht, !String.eqb_refl, Z.eqb_refl in Ho; discriminate.
Qed.

Lemma strict_extract_key_row (wb : workbook) (varValue : var -> option Q) (k : key) :
  let self := Strict.init wb in
  In k (Strict.x_keys self) ->
  match Strict.planted (varValue (Plant k)) with
  | Some _ =>
      exists b,
        Strict.extract_key self (Strict._check_strict_constraints self) varValue k
        = Some [b]
        /\ row_key (fst b) = Some k
  | None =>
      Strict.extract_key self (Strict._check_strict_constraints self) varValue k
      = Some []
  end.
Proof.
  intros self Hk.
  destruct (strict_key_crop_known wb k Hk) as [Hy Hc].
  destruct (strict_params_total wb _ _ Hy Hc) as [p Hp].
  destruct (strict_key_land self k Hk) as [li Hli].
  destruct (strict_key_crop wb k Hk) as [ci Hci].
  destruct (strict_find_total self k li (strict_lands_NoDup wb) Hk Hli) as [opt Ho].
  fold self in Hp, Hci.
  destruct k as [[[land_name year] season] crop_id].
  cbn [key_land key_season key_crop key_year] in *.
  unfold Strict.extract_key.
  destruct (Strict.planted (varValue (Plant (land_name, year, season, crop_id))))
    as [area|]; [|reflexivity].
  rewrite Hci; cbn [bind]; rewrite Hli; cbn [bind]; rewrite Hp; cbn [bind].
  rewrite Ho.
  unfold Strict._get_crop_category_strict, Strict._check_strict_constraints,
    Strict._is_valid_strict_combination.
  rewrite Hci; cbn [bind].
  eexists; split; [reflexivity|]; reflexivity.
Qed.

Lemma base_lands_NoDup (wb : workbook) :
  NoDup (dict_keys (Base.lands (Base._process_data wb))).
Proof. apply (dict_of_list_NoDup String.eqb String.eqb_eq). Qed.

Lemma base_x_keys_inv (self : Base.optimizer) (k : key) :
  In k (Base.x_keys self) ->
  exists land_name land_info opt,
    In (land_name, land_info) (Base.lands self)
    /\ In opt (Base.viable_options self)
    /\ Base.land_type opt = Base.type land_info
    /\ k = (land_name, key_year k, Base.season opt, Base.crop_id opt).
Proof.
  unfold Base.x_keys, Base.x; rewrite keys_of_plant_dict.
  unfold Base.var_keys; rewrite in_flat_map.
  intros ([land_name land_info] & Hl & H).
  apply in_flat_map in H; destruct H as (year & Hy & H).
  apply in_flat_map in H; destruct H as (opt & Ho & H).
  destruct (String.eqb (Base.land_type opt) (Base.type land_info)) eqn:E;
    [|contradiction].
  destruct H as [<-|[]]; apply String.eqb_eq in E.
  exists land_name, land_info, opt; auto.
Qed.

Lemma base_find_total (self : Base.optimizer) (k : key) (li : Base.land_info) :
  NoDup (dict_keys (Base.lands self)) ->
  In k (Base.x_keys self) ->
  dict_get String.eqb (Base.lands self) (key_land k) = Some li ->
  exists opt,
    Base.find_option self (Base.type li) (key_season k) (key_crop k) = Some opt.
Proof.
  intros Hn Hk Hli; apply base_x_keys_inv in Hk.
  destruct Hk as (land_name & li0 & opt0 & Hl & Ho & Ht & E).
  destruct k as [[[l y] s] c]; cbn [key_land key_season key_crop key_year] in *.
  inversion E; subst l s c; clear E.
  rewrite (dict_In_get String.eqb String.eqb_eq _ _ _ Hn Hl) in Hli.
  inversion Hli; subst li0; clear Hli.
  unfold Base.find_option.
  match goal with |- exists o, find ?p ?l = Some o => destruct (find p l) eqn:E end;
    [eauto|].
  apply (find_none _ _ E) in Ho.
  rewrite Ht, !String.eqb_refl, Z.eqb_refl in Ho; discriminate.
Qed.

Lemma base_key_crop (wb : workbook) (k : key) :
  let self := Base._process_data wb in
  In k (Base.x_keys self) ->
  exists crop_info, dict_get Z.eqb (Base.crops self) (key_crop k) = Some crop_info.
Proof.
  intros self Hk; apply base_x_keys_inv in Hk.
  destruct Hk as (land_name & li0 & opt0 & _ & Ho & _ & E).
  destruct k as [[[l y] s] c]; cbn [key_land key_season key_crop key_year] in *.
  inversion E; subst l s c; clear E.
  unfold self in Ho; simpl in Ho.
  apply sort_desc_In, filter_In in Ho; destruct Ho as [Ho _].
  apply base_select_valid_In in Ho; destruct Ho as (row & ci & _ & E & _ & ->).
  simpl; eauto.
Qed.

Lemma base_extract_key_row (wb : workbook) (revenue : Q -> Q -> Q -> Q)
  (varValue : var -> option Q) (k : key) :
  let self := Base._process_data wb in
  In k (Base.x_keys self) ->
  match Base.planted (varValue (Plant k)) with
  | Some _ =>
      exists b,
        Base.extract_key self revenue varValue k = Some [b]
        /\ row_key (fst b) = Some k
  | None => Base.extract_key self revenue varValue k = Some []
  end.
Proof.
  intros self Hk.
  destruct (base_land_lookup self _ (base_x_keys_land self _ Hk)) as [li Hli].
  destruct (base_key_crop wb k Hk) as [ci Hci].
  destruct (base_find_total self k li (base_lands_NoDup wb) Hk Hli) as [opt Ho].
  fold self in Hci.
  destruct k as [[[land_name year] season] crop_id].
  cbn [key_land key_season key_crop key_year] in *.
  unfold Base.extract_key.
  destruct (Base.planted (varValue (Plant (land_name, year, season, crop_id))))
    as [area|]; [|reflexivity].
  rewrite Hli; cbn [bind]; rewrite Hci; cbn [bind]; rewrite Ho.
  unfold Base._get_crop_category; rewrite Hci; cbn [bind].
  eexists; split; [reflexivity|]; reflexivity.
Qed.

Section AdvancedRows.
Variable generator : Type.
Variable uniform : Q -> Q -> generator -> Q * generator.
Variable wb : workbook.
Variable g : generator.

Let self := fst (Advanced.init generator uniform wb g).

Lemma advanced_lands_NoDup : NoDup (dict_keys (Advanced.lands self)).
Proof.
  destruct (advanced_init_fields generator uniform wb g) as (_ & _ & Hl & _).
  fold self in Hl; rewrite Hl.
  apply (dict_of_list_NoDup String.eqb String.eqb_eq).
Qed.

Lemma advanced_find_some (k : key) :
  In k (Advanced.x_keys self) ->
  exists opt,
    Advanced._find_option self (key_land k) (key_season k) (key_crop k)
    = Some (Some opt).
Proof.
  intros Hk.
  destruct (advanced_key_land generator uniform wb g k Hk) as [li Hli].
  fold self in Hli.
  apply advanced_x_keys_inv in Hk.
  destruct Hk as (land_name & li0 & opt0 & Hl & _ & Ho & Ht & E).
  destruct k as [[[l y] s] c]; cbn [key_land key_season key_crop key_year] in *.
  inversion E; subst l s c; clear E.
  rewrite (dict_In_get String.eqb String.eqb_eq _ _ _ advanced_lands_NoDup Hl) in Hli.
  inversion Hli; subst li0; clear Hli.
  unfold Advanced._find_option.
  rewrite (dict_In_get String.eqb String.eqb_eq _ _ _ advanced_lands_NoDup Hl).
  cbn [bind].
  match goal with |- exists o, Some (find ?p ?l) = Some (Some o) =>
    destruct (find p l) eqn:E end; [eauto|].
  apply (find_none _ _ E) in Ho.
  rewrite Ht, !String.eqb_refl, Z.eqb_refl in Ho; discriminate.
Qed.

Lemma advanced_elasticity_total (k : key) :
  In k (Advanced.x_keys self) ->
  exists e, dict_get Z.eqb (Advanced.demand_elasticity self) (key_crop k) = Some e.
Proof.
  intros Hk; apply (dict_key_get Z.eqb Z.eqb_eq).
  apply (advanced_elasticity_known generator uniform wb g).
  apply (advanced_key_crop_known generator uniform wb g k Hk).
Qed.

Lemma advanced_extract_key_row (varValue : var -> option Q) (k : key) :
  In k (Advanced.x_keys self) ->
  match Advanced.planted (varValue (Plant k)) with
  | Some _ =>
      (exists b, Advanced.extract_key self varValue k = Some [b]
                 /\ row_key (fst b) = Some k)
      /\ (exists b, Advanced.extract_simplified_key self varValue k = Some [b]
                    /\ row_key (fst b) = Some k)
  | None =>
      Advanced.extract_key self varValue k = Some []
      /\ Advanced.extract_simplified_key self varValue k = Some []
  end.
Proof.
  intros Hk.
  destruct (advanced_key_crop_known generator uniform wb g k Hk) as [Hy Hc].
  fold self in Hc.
  destruct (advanced_params_total generator uniform wb g _ _ Hy Hc) as [p Hp].
  destruct (advanced_key_land generator uniform wb g k Hk) as [li Hli].
  destruct (advanced_key_crop generator uniform wb g k Hk) as [ci Hci].
  destruct (advanced_find_some k Hk) as [opt Ho].
  destruct (advanced_elasticity_total k Hk) as [e He].
  fold self in Hp, Hli, Hci.
  destruct k as [[[land_name year] season] crop_id].
  cbn [key_land key_season key_crop key_year] in *.
  unfold Advanced.extract_key, Advanced.extract_simplified_key.
  destruct (Advanced.planted (varValue (Plant (land_name, year, season, crop_id))))
    as [area|]; [|split; reflexivity].
  rewrite Hci; cbn [bind]; rewrite Hli; cbn [bind]; rewrite Hp; cbn [bind].
  rewrite Ho; cbn [bind]; rewrite He; cbn [bind].
  split; eexists; (split; [reflexivity|]; reflexivity).
Qed.

End AdvancedRows.

Lemma Forall2_nil_r {A B : Type} (P : A -> B -> Prop) (l : list A) :
  Forall2 P l [] -> l = [].
Proof. inversion 1; reflexivity. Qed.

(** X10.  One row for each decision above 0.01 mu.  On the optimizers built
    from a workbook the extraction loops raise nothing, whatever values the
    solver left: they emit, in the order of the variables, one row for each
    key whose value passes [area and area > 0.01], and the columns 地块名称,
    年份, 种植季次 and 作物编号 of the row give the key back. *)
Theorem rows_follow_planted_keys (generator : Type)
  (uniform : Q -> Q -> generator -> Q * generator) (wb : workbook) (g : generator)
  (varValue : var -> option Q) (scenario : Z) :
  let base := Base._process_data wb in
  let strict := Strict.init wb in
  let advanced := fst (Advanced.init generator uniform wb g) in
  let rows_of (keys : list key) (rows : list row) :=
    Forall2 (fun k r => row_key r = Some k) (planted_keys varValue keys) rows in
  (exists extracted,
      flat_mapM (Base.extract_key base (Base.revenue_of scenario) varValue)
        (Base.x_keys base) = Some extracted
      /\ Base.extract base scenario varValue = Some (Base.finish extracted)
      /\ rows_of (Base.x_keys base) (map fst extracted))
  /\ (exists extracted,
         flat_mapM (Base.extract_key base
                      (fun production _ price_avg => production * price_avg) varValue)
           (Base.x_keys base) = Some extracted
         /\ Base._extract_and_save_results base varValue
            = Some (Base.finish extracted)
         /\ rows_of (Base.x_keys base) (map fst extracted))
  /\ (exists rows total,
         Strict._extract_strict_results strict varValue = Some (Some rows, total)
         /\ rows_of (Strict.x_keys strict) rows)
  /\ (exists rows total,
         Advanced._extract_simplified_results advanced varValue
         = Some (Some rows, total)
         /\ rows_of (Advanced.x_keys advanced) rows).
Proof.
  intros base strict advanced rows_of.
  assert (HB : forall revenue,
             exists extracted,
               flat_mapM (Base.extract_key base revenue varValue) (Base.x_keys base)
               = Some extracted
               /\ rows_of (Base.x_keys base) (map fst extracted)).
  { intros revenue.
    destruct (flat_mapM_rows
                (Base.extract_key base revenue varValue)
                (fun k => match Base.planted (varValue (Plant k)) with
                          | Some _ => true
                          | None => false
                          end)
                (fun k (b : row * Q) => row_key (fst b) = Some k)
                (Base.x_keys base)) as (r & Hr & HP).
    { intros k Hk; pose proof (base_extract_key_row wb revenue varValue k Hk) as H.
      fold base in H.
      destruct (Base.planted (varValue (Plant k))); exact H. }
    exists r; split; [exact Hr|].
    apply Forall2_map_fst; exact HP. }
  split; [|split; [|split]].
  - destruct (HB (Base.revenue_of scenario)) as (ex & He & HP).
    exists ex; split; [exact He|]; split; [|exact HP].
    unfold Base.extract; rewrite He; reflexivity.
  - destruct (HB (fun production _ price_avg => production * price_avg))
      as (ex & He & HP).
    exists ex; split; [exact He|]; split; [|exact HP].
    unfold Base._extract_and_save_results; rewrite He; reflexivity.
  - destruct (flat_mapM_rows
                (Strict.extract_key strict (Strict._check_strict_constraints strict)
                   varValue)
                (fun k => match Base.planted (varValue (Plant k)) with
                          | Some _ => true
                          | None => false
                          end)
                (fun k (b : row * Q) => row_key (fst b) = Some k)
                (Strict.x_keys strict)) as (r & Hr & HP).
    { intros k Hk; pose proof (strict_extract_key_row wb varValue k Hk) as H.
      fold strict in H.
      change (Strict.planted (varValue (Plant k)))
        with (Base.planted (varValue (Plant k))) in H.
      destruct (Base.planted (varValue (Plant k))); exact H. }
    exists (map fst r), (fold_left Qplus (map snd r) 0); split.
    + unfold Strict._extract_strict_results, Strict.extract_with.
      rewrite Hr; reflexivity.
    + apply Forall2_map_fst; exact HP.
  - destruct (flat_mapM_rows
                (Advanced.extract_simplified_key advanced varValue)
                (fun k => match Base.planted (varValue (Plant k)) with
                          | Some _ => true
                          | None => false
                          end)
                (fun k (b : row * Q) => row_key (fst b) = Some k)
                (Advanced.x_keys advanced)) as (r & Hr & HP).
    { intros k Hk.
      pose proof (advanced_extract_key_row generator uniform wb g varValue k Hk) as H.
      fold advanced in H.
      change (Advanced.planted (varValue (Plant k)))
        with (Base.planted (varValue (Plant k))) in H.
      destruct (Base.planted (varValue (Plant k))); apply H. }
    exists (map fst r), (fold_left Qplus (map snd r) 0); split.
    + unfold Advanced._extract_simplified_results; rewrite Hr; reflexivity.
    + apply Forall2_map_fst; exact HP.
Qed.

(** X11.  An empty plan of the advanced model.  When the primary solve ends
    with an accepted status, the run returns the rows of the primary model if
    some area exceeds 0.01 mu; if none does, the report at the end of
    [_extract_advanced_results] raises on the empty frame, inside the [try],
    and the run returns what the simplified model gives. *)
Theorem empty_plan_falls_back (generator : Type)
  (uniform : Q -> Q -> generator -> Q * generator) (wb : workbook) (g : generator)
  (solve : solver) (m : problem) (status : string) (varValue : var -> option Q) :
  let advanced := fst (Advanced.init generator uniform wb g) in
  Advanced.create_advanced_model advanced = Some m ->
  solve None m = Solved status varValue ->
  status_ok status = true ->
  (planted_keys varValue (Advanced.x_keys advanced) = [] ->
   solve_and_report advanced solve
   = Some (Advanced._solve_simplified_model advanced solve))
  /\ (planted_keys varValue (Advanced.x_keys advanced) <> [] ->
      exists rows total,
        solve_and_report advanced solve = Some (Some rows, total)
        /\ Advanced._extract_advanced_results advanced varValue
           = Some (Some rows, total)
        /\ Forall2 (fun k r => row_key r = Some k)
             (planted_keys varValue (Advanced.x_keys advanced)) rows).
Proof.
  intros advanced Hm Hs Hok.
  destruct (flat_mapM_rows
              (Advanced.extract_key advanced varValue)
              (fun k => match Base.planted (varValue (Plant k)) with
                        | Some _ => true
                        | None => false
                        end)
              (fun k (b : row * Q) => row_key (fst b) = Some k)
              (Advanced.x_keys advanced)) as (r & Hr & HP).
  { intros k Hk.
    pose proof (advanced_extract_key_row generator uniform wb g varValue k Hk) as H.
    fold advanced in H.
    change (Advanced.planted (varValue (Plant k)))
      with (Base.planted (varValue (Plant k))) in H.
    destruct (Base.planted (varValue (Plant k))); apply H. }
  assert (He : Advanced._extract_advanced_results advanced varValue
               = Some (Some (map fst r), fold_left Qplus (map snd r) 0)).
  { unfold Advanced._extract_advanced_results; rewrite Hr; reflexivity. }
  fold (planted_keys varValue (Advanced.x_keys advanced)) in HP.
  unfold solve_and_report, extract_and_report.
  rewrite Hm; cbn [bind]; rewrite Hs, Hok, He; cbn [bind fst].
  split; intros Hp.
  - rewrite Hp in HP; inversion HP; subst r; reflexivity.
  - destruct r as [|b r]; [inversion HP; congruence|].
    exists (map fst (b :: r)), (fold_left Qplus (map snd (b :: r)) 0).
    split; [reflexivity|]; split; [reflexivity|].
    apply Forall2_map_fst; exact HP.
Qed.

(** X12.  The base model plants only what sells: every planting variable of
    the base model is for a crop with a positive expected sale. *)
Theorem base_plants_only_sold_crops (wb : workbook) (k : key) :
  let base := Base._process_data wb in
  In k (Base.x_keys base) ->
  exists sale,
    dict_get Z.eqb (Base.expected_sales base) (key_crop k) = Some sale /\ 0 < sale.
Proof.
  intros base Hk; apply base_x_keys_inv in Hk.
  destruct Hk as (land_name & li0 & opt0 & _ & Ho & _ & E).
  destruct k as [[[l y] s] c]; cbn [key_land key_season key_crop key_year] in *.
  inversion E; subst l s c; clear E.
  unfold base in Ho; cbn [Base.viable_options Base._process_data] in Ho.
  apply sort_desc_In, filter_In in Ho; destruct Ho as [_ Ht].
  unfold Base.tradeable in Ht.
  cbn [Base.expected_sales Base._process_data base].
  destruct (dict_get Z.eqb _ (Base.crop_id opt0)) as [sale|]; [|discriminate].
  exists sale; split; [reflexivity|].
  unfold Qgtb in Ht; apply negb_true_iff in Ht.
  destruct (Qlt_le_dec 0 sale) as [H|H]; [exact H|].
  apply Qle_bool_iff in H; congruence.
Qed.

Lemma min_le_l (a b : Q) : Py.min a b <= a.
Proof.
  unfold Py.min, Qltb; destruct (Qle_bool a b) eqn:E; simpl.
  - apply Qle_refl.
  - destruct (Qlt_le_dec b a) as [H|H]; [apply Qlt_le_weak, H|].
    apply Qle_bool_iff in H; congruence.
Qed.

Lemma max_0_nonneg (a : Q) : 0 <= Py.max 0 a.
Proof.
  unfold Py.max, Qgtb; destruct (Qle_bool a 0) eqn:E; simpl.
  - apply Qle_refl.
  - destruct (Qlt_le_dec 0 a) as [H|H]; [apply Qlt_le_weak, H|].
    apply Qle_bool_iff in H; congruence.
Qed.

(** The income rules in order: waste, discount, full price. *)
Lemma revenue_of_order (production expected_sale price_avg : Q) :
  0 <= price_avg ->
  Base.revenue_of 1 production expected_sale price_avg
  <= Base.revenue_of 2 production expected_sale price_avg
  /\ Base.revenue_of 2 production expected_sale price_avg <= production * price_avg.
Proof.
  intros Hp; unfold Base.revenue_of; simpl Z.eqb; cbv iota.
  split.
  - pose proof (max_0_nonneg (production - expected_sale)) as Hm.
    assert (0 <= Py.max 0 (production - expected_sale) * price_avg * 0.5).
    { apply Qmult_le_0_compat; [apply Qmult_le_0_compat; assumption | discriminate]. }
    lra.
  - unfold Py.min, Py.max, Qltb, Qgtb.
    destruct (Qle_bool production expected_sale) eqn:E1; simpl.
    + apply Qle_bool_iff in E1.
      destruct (Qle_bool (production - expected_sale) 0) eqn:E2; simpl.
      * lra.
      * assert (H : ~ production - expected_sale <= 0)
          by (intros H; apply Qle_bool_iff in H; congruence).
        exfalso; apply H; lra.
    + assert (H1 : ~ production <= expected_sale)
        by (intros H; apply Qle_bool_iff in H; congruence).
      apply Qnot_le_lt in H1.
      destruct (Qle_bool (production - expected_sale) 0) eqn:E2; simpl.
      * apply Qle_bool_iff in E2; exfalso; lra.
      * assert (0 <= (production - expected_sale) * price_avg).
        { apply Qmult_le_0_compat; [lra | assumption]. }
        lra.
Qed.

Lemma flat_mapM_Forall2 {A B C : Type} (P : B -> C -> Prop)
  (f1 : A -> option (list B)) (f2 : A -> option (list C)) (l : list A) :
  (forall a, In a l ->
             exists l1 l2, f1 a = Some l1 /\ f2 a = Some l2 /\ Forall2 P l1 l2) ->
  exists r1 r2,
    flat_mapM f1 l = Some r1 /\ flat_mapM f2 l = Some r2 /\ Forall2 P r1 r2.
Proof.
  unfold flat_mapM; induction l as [|a l IH]; intros H; simpl.
  - exists [], []; repeat split; constructor.
  - destruct IH as (r1 & r2 & H1 & H2 & HP); [intros; apply H; right; assumption|].
    destruct (mapM f1 l) as [p1|]; [|discriminate].
    destruct (mapM f2 l) as [p2|]; [|discriminate].
    simpl in H1, H2; inversion H1; inversion H2; subst r1 r2; clear H1 H2.
    destruct (H a (or_introl eq_refl)) as (l1 & l2 & E1 & E2 & HL).
    rewrite E1, E2; simpl.
    exists (l1 ++ concat p1), (l2 ++ concat p2); repeat split.
    apply Forall2_app; assumption.
Qed.

Lemma fold_Qplus_le {B C : Type} (f : B -> Q) (h : C -> Q) (l1 : list B)
  (l2 : list C) (a1 a2 : Q) :
  Forall2 (fun b c => f b <= h c) l1 l2 ->
  a1 <= a2 ->
  fold_left Qplus (map f l1) a1 <= fold_left Qplus (map h l2) a2.
Proof.
  intros H; revert a1 a2; induction H as [|b c l1 l2 Hbc _ IH]; intros a1 a2 Ha; simpl.
  - exact Ha.
  - apply IH; lra.
Qed.

Lemma base_viable_price (wb : workbook) (opt : Base.planting_option) :
  (forall row, In row (stats_df wb) -> 0 <= stat_price_avg row) ->
  In opt (Base.viable_options (Base._process_data wb)) ->
  0 <= Base.price_avg opt.
Proof.
  intros Hp Ho; cbn [Base.viable_options Base._process_data] in Ho.
  apply sort_desc_In, filter_In in Ho; destruct Ho as [Ho _].
  apply base_select_valid_In in Ho; destruct Ho as (row & ci & Hr & _ & _ & ->).
  simpl; apply Hp, Hr.
Qed.

Lemma base_extract_key_le (wb : workbook) (rev1 rev2 : Q -> Q -> Q -> Q)
  (varValue : var -> option Q) (k : key) :
  let self := Base._process_data wb in
  (forall row, In row (stats_df wb) -> 0 <= stat_price_avg row) ->
  (forall production expected_sale price_avg,
      0 <= price_avg ->
      rev1 production expected_sale price_avg
      <= rev2 production expected_sale price_avg) ->
  In k (Base.x_keys self) ->
  exists l1 l2,
    Base.extract_key self rev1 varValue k = Some l1
    /\ Base.extract_key self rev2 varValue k = Some l2
    /\ Forall2 (fun a b : row * Q => snd a <= snd b) l1 l2.
Proof.
  intros self Hp HR Hk.
  destruct (base_land_lookup self _ (base_x_keys_land self _ Hk)) as [li Hli].
  destruct (base_key_crop wb k Hk) as [ci Hci].
  destruct (base_find_total self k li (base_lands_NoDup wb) Hk Hli) as [opt Ho].
  fold self in Hci.
  destruct k as [[[land_name year] season] crop_id].
  cbn [key_land key_season key_crop key_year] in *.
  unfold Base.extract_key.
  destruct (Base.planted (varValue (Plant (land_name, year, season, crop_id))))
    as [area|]; [|exists [], []; repeat split; constructor].
  rewrite Hli; cbn [bind]; rewrite Hci; cbn [bind]; rewrite Ho.
  unfold Base._get_crop_category; rewrite Hci; cbn [bind].
  eexists; eexists; split; [reflexivity|]; split; [reflexivity|].
  constructor; [|constructor]; cbn [snd].
  assert (P : 0 <= Base.price_avg opt).
  { apply (base_viable_price wb opt Hp).
    unfold Base.find_option in Ho; apply find_some in Ho; apply Ho. }
  pose proof (HR (area * Base.yield_per_mu opt)
                (match dict_get Z.eqb (Base.expected_sales self) crop_id with
                 | Some sale => sale
                 | None => 0
                 end) (Base.price_avg opt) P) as H.
  lra.
Qed.

(** X13.  The three income rules of the base variant in order.  With prices
    that are not negative, the same solver values give a total profit under
    scenario 1 (the surplus is wasted) that is at most the total under
    scenario 2 (the surplus sells at half the price), which is at most the
    total the relaxed extraction reports (everything at the full price). *)
Theorem scenario_totals_in_order (wb : workbook) (varValue : var -> option Q) :
  let base := Base._process_data wb in
  (forall row, In row (stats_df wb) -> 0 <= stat_price_avg row) ->
  exists waste discount full,
    Base.extract base 1 varValue = Some waste
    /\ Base.extract base 2 varValue = Some discount
    /\ Base._extract_and_save_results base varValue = Some full
    /\ snd waste <= snd discount
    /\ snd discount <= snd full.
Proof.
  intros base Hp.
  destruct (flat_mapM_Forall2 (fun a b : row * Q => snd a <= snd b)
              (Base.extract_key base (Base.revenue_of 1) varValue)
              (Base.extract_key base (Base.revenue_of 2) varValue)
              (Base.x_keys base)) as (e1 & e2 & H1 & H2 & H12).
  { intros k Hk; apply (base_extract_key_le wb); [exact Hp| |exact Hk].
    intros p e pr Hpr; apply (revenue_of_order p e pr Hpr). }
  destruct (flat_mapM_Forall2 (fun a b : row * Q => snd a <= snd b)
              (Base.extract_key base (Base.revenue_of 2) varValue)
              (Base.extract_key base
                 (fun production _ price_avg => production * price_avg) varValue)
              (Base.x_keys base)) as (e2' & e3 & H2' & H3 & H23).
  { intros k Hk; apply (base_extract_key_le wb); [exact Hp| |exact Hk].
    intros p e pr Hpr; apply (revenue_of_order p e pr Hpr). }
  rewrite H2 in H2'; inversion H2'; subst e2'; clear H2'.
  exists (Base.finish e1), (Base.finish e2), (Base.finish e3).
  unfold Base.extract, Base._extract_and_save_results.
  rewrite H1, H2, H3; cbn [bind].
  split; [reflexivity|]; split; [reflexivity|]; split; [reflexivity|].
  assert (T12 := fold_Qplus_le snd snd e1 e2 0 0 H12 (Qle_refl 0)).
  assert (T23 := fold_Qplus_le snd snd e2 e3 0 0 H23 (Qle_refl 0)).
  unfold Base.finish.
  inversion H12; subst; inversion H23; subst; simpl map in *; cbn [snd Base.failure];
    try (split; apply Qle_refl); try (inversion H23; fail).
  split; assumption.
Qed.

(** The theorem at the small farm, with a solver that plants nothing. *)
Lemma empty_plan_falls_back_witness :
  solve_and_report advanced_farm idle_solver
  = Some (Advanced._solve_simplified_model advanced_farm idle_solver).
Proof.
  destruct (Advanced.create_advanced_model advanced_farm) as [m|] eqn:E.
  - apply (proj1 (empty_plan_falls_back unit midpoint farm tt idle_solver m "Optimal"
                    (fun _ => Some 0) E eq_refl eq_refl)).
    vm_compute; reflexivity.
  - exfalso.
    assert (H : option_map (fun _ => tt) (Advanced.create_advanced_model advanced_farm)
                = Some tt) by (vm_compute; reflexivity).
    rewrite E in H; discriminate.
Defined.

(** The theorem at the first variable of the small farm. *)
Lemma base_plants_only_sold_crops_witness :
  exists sale,
    dict_get Z.eqb (Base.expected_sales base_farm) 2%Z = Some sale /\ 0 < sale.
Proof.
  apply (base_plants_only_sold_crops farm ("A1", 2024%Z, "单季", 2%Z)).
  vm_compute; auto 20.
Defined.

(** The theorem at the small farm and its plan. *)
Lemma scenario_totals_in_order_witness :
  exists waste discount full,
    Base.extract base_farm 1 (values_of plan) = Some waste
    /\ Base.extract base_farm 2 (values_of plan) = Some discount
    /\ Base._extract_and_save_results base_farm (values_of plan) = Some full
    /\ snd waste <= snd discount
    /\ snd discount <= snd full.
Proof.
  apply (scenario_totals_in_order farm (values_of plan)).
  intros row [<-|[<-|[]]]; vm_compute; discriminate.
Defined.

(* ================================================================== *)
(** ** Patches, rotation and the two seasons *)

Lemma base_valid_season (land_type season : string) (ci : Base.crop_info) :
  Base._is_valid_planting_combination land_type season ci = true -> In season seasons.
Proof.
  unfold Base._is_valid_planting_combination, seasons, str_in; simpl.
  destruct (String.eqb season single_season) eqn:E1;
    [apply String.eqb_eq in E1; subst; auto|].
  destruct (String.eqb season first_season) eqn:E2;
    [apply String.eqb_eq in E2; subst; auto|].
  destruct (String.eqb season second_season) eqn:E3;
    [apply String.eqb_eq in E3; subst; auto|].
  simpl; repeat match goal with |- context [if ?b then _ else _] => destruct b end;
    discriminate.
Qed.

Lemma base_key_year (self : Base.optimizer) (k : key) :
  In k (Base.x_keys self) -> In (key_year k) years.
Proof.
  unfold Base.x_keys, Base.x; rewrite keys_of_plant_dict.
  unfold Base.var_keys; rewrite in_flat_map.
  intros ([land_name land_info] & Hl & H).
  apply in_flat_map in H; destruct H as (year & Hy & H).
  apply in_flat_map in H; destruct H as (opt & Ho & H).
  destruct (String.eqb (Base.land_type opt) (Base.type land_info)); [|contradiction].
  destruct H as [<-|[]]; exact Hy.
Qed.

(** Every planting key of the base model has its binary [planting_binary]. *)
Lemma base_key_in_planting_binary (wb : workbook) (k : key) :
  let self := Base._process_data wb in
  In k (Base.x_keys self) -> In k (Base.planting_binary_keys self).
Proof.
  intros self Hk.
  pose proof (base_key_year self k Hk) as Hy.
  pose proof (base_x_keys_land self k Hk) as Hl.
  apply base_x_keys_inv in Hk.
  destruct Hk as (land_name & li0 & opt0 & _ & Ho & _ & E).
  destruct k as [[[l y] s] c]; cbn [key_land key_season key_crop key_year] in *.
  inversion E; subst l s c; clear E.
  unfold self in Ho; cbn [Base.viable_options Base._process_data] in Ho.
  apply sort_desc_In, filter_In in Ho; destruct Ho as [Ho Ht].
  apply base_select_valid_In in Ho; destruct Ho as (row & ci & _ & _ & V & ->).
  apply base_valid_season in V.
  unfold Base.tradeable in Ht; cbn [Base.crop_id Base.make_option] in Ht.
  unfold Base.planting_binary_keys.
  apply in_flat_map; exists land_name; split; [exact Hl|].
  apply in_flat_map; exists y; split; [exact Hy|].
  apply in_flat_map; exists (stat_season row); split; [exact V|].
  apply in_map_iff; exists (stat_crop_id row); split; [reflexivity|].
  cbn [Base.expected_sales Base._process_data self].
  destruct (dict_get Z.eqb _ (stat_crop_id row)) as [sale|] eqn:Es; [|discriminate].
  apply (dict_get_key Z.eqb Z.eqb_eq) in Es; exact Es.
Qed.

Lemma in_planting_binary_true (self : Base.optimizer) (k : key) :
  In k (Base.planting_binary_keys self) -> Base.in_planting_binary self k = true.
Proof.
  intros H; unfold Base.in_planting_binary; apply existsb_exists.
  exists k; split; [exact H | apply key_eqb_eq; reflexivity].
Qed.

Lemma eval_single (a : valuation) (k : key) : eval a (lpSum [Plant k]) == a (Plant k).
Proof. unfold eval; simpl; ring. Qed.

(** The two patch constraints of a key, read on a feasible solution. *)
Lemma base_patch_bounds (wb : workbook) (scenario : Z) (m : problem) (a : valuation)
  (k : key) :
  let self := Base._process_data wb in
  Base.create_model self scenario = Some m ->
  feasible a m ->
  In k (Base.x_keys self) ->
  exists land_info,
    dict_get String.eqb (Base.lands self) (key_land k) = Some land_info
    /\ is_binary (a (Planted k))
    /\ 0 <= a (Plant k)
    /\ 0.1 * a (Planted k) <= a (Plant k)
    /\ a (Plant k) <= Base.area land_info * a (Planted k).
Proof.
  intros self Hm Hf Hk.
  destruct (base_model_parts self scenario m Hm) as (sa & pa & _ & Hp & Hc & Hx & Hb).
  pose proof (base_key_in_planting_binary wb k Hk) as Hpb; fold self in Hpb.
  destruct (base_land_lookup self _ (base_x_keys_land self _ Hk)) as [li Hli].
  exists li; split; [exact Hli|].
  destruct (flat_mapM_intro _ _ _ k Hp Hk) as (bs & Hbs & Hincl).
  rewrite (in_planting_binary_true self k Hpb), Hli in Hbs; cbn [bind] in Hbs.
  inversion Hbs; subst bs; clear Hbs.
  assert (G : forall c,
             In c [ge (lpSum [Plant k]) (times 0.1 (Planted k));
                   le (lpSum [Plant k]) (times (Base.area li) (Planted k))] ->
             holds a c).
  { intros c Hin; apply (feasible_holds a m); [assumption|].
    rewrite Hc; do 5 (apply in_or_app; right); apply Hincl, Hin. }
  assert (G1 := G _ (or_introl eq_refl)).
  assert (G2 := G _ (or_intror (or_introl eq_refl))).
  unfold holds, ge, le in G1, G2; cbn [rel lhs rhs] in G1, G2.
  rewrite eval_single, eval_times in G1, G2.
  split; [|split; [|split; assumption]].
  - apply (feasible_binary a m); [assumption|].
    rewrite Hb; apply in_or_app; right; apply in_map; exact Hpb.
  - destruct Hf as (_ & Hpos & _); rewrite Forall_forall in Hpos.
    apply Hpos; rewrite Hx; apply in_map; exact Hk.
Qed.

(** X14.  Minimum patch of the base model.  In a feasible solution every
    planting variable is zero or at least 0.1 mu, and never more than the area
    of its land. *)
Theorem base_minimum_patch (wb : workbook) (scenario : Z) (m : problem)
  (a : valuation) (k : key) :
  let base := Base._process_data wb in
  Base.create_model base scenario = Some m ->
  feasible a m ->
  In k (Base.x_keys base) ->
  a (Plant k) == 0
  \/ exists land_info,
       dict_get String.eqb (Base.lands base) (key_land k) = Some land_info
       /\ 0.1 <= a (Plant k)
       /\ a (Plant k) <= Base.area land_info.
Proof.
  intros base Hm Hf Hk.
  destruct (base_patch_bounds wb scenario m a k Hm Hf Hk)
    as (li & Hli & [Hb|Hb] & Hpos & Hlo & Hhi); fold base in Hli.
  - left; rewrite Hb in Hhi; apply Qle_antisym; [|exact Hpos].
    rewrite Qmult_0_r in Hhi; exact Hhi.
  - right; exists li; split; [exact Hli|].
    rewrite Hb in Hlo, Hhi; rewrite Qmult_1_r in Hlo, Hhi; split; assumption.
Qed.

(** X15.  No consecutive reuse in the base model.  In a feasible solution a
    crop planted on a land in a season of one year has no area at all on that
    land and season in the next year. *)
Theorem base_no_consecutive_reuse (wb : workbook) (scenario : Z) (m : problem)
  (a : valuation) (land_name season : string) (crop_id year : Z) :
  let base := Base._process_data wb in
  let current := (land_name, year, season, crop_id) in
  let next := (land_name, (year + 1)%Z, season, crop_id) in
  Base.create_model base scenario = Some m ->
  feasible a m ->
  In current (Base.x_keys base) ->
  In next (Base.x_keys base) ->
  a (Plant current) == 0 \/ a (Plant next) == 0.
Proof.
  intros base current next Hm Hf H1 H2.
  destruct (base_patch_bounds wb scenario m a current Hm Hf H1)
    as (li1 & _ & Hb1 & Hp1 & _ & Hh1).
  destruct (base_patch_bounds wb scenario m a next Hm Hf H2)
    as (li2 & _ & Hb2 & Hp2 & _ & Hh2).
  destruct (base_model_parts base scenario m Hm) as (sa & pa & _ & _ & Hc & _).
  pose proof (base_key_in_planting_binary wb current H1) as B1.
  pose proof (base_key_in_planting_binary wb next H2) as B2.
  fold base in B1, B2.
  assert (G : holds a (le (lpSum [Planted current; Planted next]) (number 1))).
  { apply (feasible_holds a m); [assumption|].
    rewrite Hc; do 2 (apply in_or_app; right); apply in_or_app; left.
    pose proof B1 as K.
    unfold Base.planting_binary_keys in K.
    apply in_flat_map in K; destruct K as (l & Hl & K).
    apply in_flat_map in K; destruct K as (y & Hy & K).
    apply in_flat_map in K; destruct K as (s & Hs & K).
    apply in_map_iff in K; destruct K as (c & K & Hcrop).
    inversion K; subst l y s c; clear K.
    unfold Base.replanting_constraints.
    apply in_flat_map; exists land_name; split; [exact Hl|].
    apply in_flat_map; exists crop_id; split; [exact Hcrop|].
    apply in_flat_map; exists year; split.
    { apply year_before_last; [exact Hy | apply (base_key_year base next H2)]. }
    apply in_flat_map; exists season; split; [exact Hs|].
    fold current next.
    rewrite (in_planting_binary_true base current B1),
            (in_planting_binary_true base next B2); cbn [andb].
    left; reflexivity. }
  unfold holds, le in G; cbn [rel lhs rhs] in G.
  rewrite eval_number in G; unfold eval in G; cbn [lpSum map terms const sum_terms] in G.
  destruct Hb1 as [Hb1|Hb1].
  - left; rewrite Hb1, Qmult_0_r in Hh1; apply Qle_antisym; assumption.
  - destruct Hb2 as [Hb2|Hb2].
    + right; rewrite Hb2, Qmult_0_r in Hh2; apply Qle_antisym; assumption.
    + exfalso; rewrite Hb1, Hb2 in G; revert G; clear; intros G.
      apply (Qle_not_lt _ _ G); reflexivity.
Qed.

(** The binary of an irrigated land and a year, in a dictionary built as
    [y_water] is. *)
Lemma water_choice_lookup {L : Type} (type_of : L -> string)
  (lands : list (string * L)) (land_name : string) (land_info : L) (year : Z) :
  let y_water :=
    flat_map
      (fun '(land_name, land_info) =>
         if String.eqb (type_of land_info) irrigated
         then map (fun year => ((land_name, year), Water land_name year)) years
         else [])
      lands in
  In (land_name, land_info) lands ->
  type_of land_info = irrigated ->
  In year years ->
  dict_get (fun a b => String.eqb (fst a) (fst b) && Z.eqb (snd a) (snd b))
    y_water (land_name, year) = Some (Water land_name year)
  /\ In (Water land_name year) (map snd y_water).
Proof.
  intros y_water Hl Ht Hy.
  assert (Hin : In ((land_name, year), Water land_name year) y_water).
  { unfold y_water; apply in_flat_map.
    exists (land_name, land_info); split; [assumption|].
    rewrite Ht, String.eqb_refl.
    apply in_map_iff; exists year; auto. }
  split.
  - destruct (dict_key_get _ pair_eqb_eq y_water (land_name, year)) as [v Hv].
    { apply in_map_iff; exists ((land_name, year), Water land_name year); auto. }
    rewrite Hv; f_equal.
    apply (dict_get_In _ pair_eqb_eq) in Hv.
    unfold y_water in Hv; apply in_flat_map in Hv.
    destruct Hv as ([l i] & _ & Hv).
    destruct (String.eqb (type_of i) irrigated); [|contradiction].
    apply in_map_iff in Hv; destruct Hv as (y & Hv & _); congruence.
  - apply in_map_iff; exists ((land_name, year), Water land_name year); auto.
Qed.


Lemma map_Plant_not_nil (ks : list key) : ks <> [] -> map Plant ks <> [].
Proof. destruct ks; [congruence | discriminate]. Qed.

Lemma greenhouse_type (t : string) :
  str_in t (greenhouses ++ [smart_greenhouse]) = true ->
  String.eqb t irrigated = false /\ str_in t dry_lands = false.
Proof.
  unfold str_in; intros H; apply existsb_exists in H.
  destruct H as (x & Hx & E); apply String.eqb_eq in E; subst x.
  simpl in Hx; destruct Hx as [<-|[<-|[<-|[]]]]; split; reflexivity.
Qed.




(** The theorem at the soybeans of 2024: half a mu, on a field of ten. *)
Lemma base_minimum_patch_witness :
  early_only_plan (Plant ("A1", 2024%Z, single_season, 1%Z)) == 0
  \/ exists land_info,
       dict_get String.eqb (Base.lands (Base._process_data farm)) "A1" = Some land_info
       /\ 0.1 <= early_only_plan (Plant ("A1", 2024%Z, single_season, 1%Z))
       /\ early_only_plan (Plant ("A1", 2024%Z, single_season, 1%Z))
          <= Base.area land_info.
Proof.
  destruct (base_farm_feasible 1 (or_introl eq_refl)) as (m & Hm & Hf).
  apply (base_minimum_patch farm 1 m early_only_plan
           ("A1", 2024%Z, single_season, 1%Z) Hm Hf).
  vm_compute; auto 20.
Defined.

(** The theorem at the soybeans of 2024 and 2025: the second year is empty. *)
Lemma base_no_consecutive_reuse_witness :
  early_only_plan (Plant ("A1", 2024%Z, single_season, 1%Z)) == 0
  \/ early_only_plan (Plant ("A1", (2024 + 1)%Z, single_season, 1%Z)) == 0.
Proof.
  destruct (base_farm_feasible 1 (or_introl eq_refl)) as (m & Hm & Hf).
  apply (base_no_consecutive_reuse farm 1 m early_only_plan "A1" single_season
           1%Z 2024%Z Hm Hf).
  - vm_compute; auto 20.
  - vm_compute; auto 20.
Defined.


(* ================================================================== *)
(** ** Areas, caps and shares in the strict and the advanced model *)

Lemma filterM_filter {A : Type} (p : A -> option bool) (q : A -> bool) (l r : list A) :
  filterM p l = Some r ->
  (forall a, In a l -> p a = Some (q a)) ->
  r = filter q l.
Proof.
  revert r; induction l as [|a l IH]; simpl; intros r H Hp.
  - congruence.
  - rewrite (Hp a (or_introl eq_refl)) in H; cbn [bind] in H.
    destruct (filterM p l) as [rs|]; [|discriminate]; cbn [bind] in H.
    rewrite <- (IH rs eq_refl (fun b Hb => Hp b (or_intror Hb))).
    destruct (q a); congruence.
Qed.

Lemma Some_eq {A : Type} (x y : A) : Some x = Some y -> x = y.
Proof. congruence. Qed.

Lemma filter_nil {A : Type} (p : A -> bool) (l : list A) :
  (forall a, In a l -> p a = false) -> filter p l = [].
Proof.
  induction l as [|a l IH]; simpl; intros H; [reflexivity|].
  rewrite (H a (or_introl eq_refl)); apply IH; auto.
Qed.

(** A block [if vars: prob += lpSum(vars) <= bound] bounds the area of its
    keys by any non-negative number above the bound. *)
Lemma block_bounds_area (a : valuation) (keys : list key) (bound : expr) (q : Q) :
  (forall c, In c (when_nonempty (map Plant keys) [le (lpSum (map Plant keys)) bound]) ->
             holds a c) ->
  0 <= q ->
  eval a bound <= q ->
  total_area a keys <= q.
Proof.
  intros H Hq Hb.
  destruct keys as [|k ks]; [exact Hq|].
  assert (G : holds a (le (lpSum (map Plant (k :: ks))) bound)).
  { apply H, when_nonempty_In; [simpl; discriminate | left; reflexivity]. }
  unfold holds, le in G; cbn [rel lhs rhs] in G.
  rewrite eval_lpSum in G; apply (Qle_trans _ _ _ G Hb).
Qed.

Lemma at_season_true (land_name : string) (year : Z) (season : string) (k : key) :
  Strict.at_season land_name year season k = true ->
  key_land k = land_name /\ key_year k = year /\ key_season k = season.
Proof.
  unfold Strict.at_season; intros H.
  apply andb_prop in H; destruct H as [H H3].
  apply andb_prop in H; destruct H as [H1 H2].
  apply String.eqb_eq in H1, H3; apply Z.eqb_eq in H2; auto.
Qed.

(** Every variable of the strict model stands for a combination that
    [_is_valid_strict_combination] accepts on the type of its land. *)
Lemma strict_key_valid (wb : workbook) (k : key) (land_info : Strict.land_info) :
  let self := Strict.init wb in
  In k (Strict.x_keys self) ->
  In (key_land k, land_info) (Strict.lands self) ->
  exists crop_info,
    dict_get Z.eqb (Strict.crops self) (key_crop k) = Some crop_info
    /\ Strict.valid_combination (Strict.type land_info) (key_season k) crop_info = true.
Proof.
  intros self Hk Hl.
  apply strict_x_keys_inv in Hk.
  destruct Hk as (land_name & li0 & opt & Hl0 & _ & Ho & Ht & E).
  destruct k as [[[l y] s] c]; cbn [key_land key_season key_crop key_year] in *.
  inversion E; subst l s c; clear E.
  pose proof (dict_In_get String.eqb String.eqb_eq _ _ _ (strict_lands_NoDup wb) Hl0) as G0.
  pose proof (dict_In_get String.eqb String.eqb_eq _ _ _ (strict_lands_NoDup wb) Hl) as G1.
  fold self in G0, G1; rewrite G0 in G1; inversion G1; subst li0; clear G0 G1.
  change (In opt (Strict.select_valid (Strict.crops self) (stats_df wb))) in Ho.
  apply strict_select_valid_In in Ho; destruct Ho as (row & ci & _ & Eci & V & ->).
  cbn [Strict.land_type Strict.season Strict.crop_id Strict.make_option] in *.
  exists ci; split; [exact Eci|]; rewrite <- Ht; exact V.
Qed.

Lemma strict_valid_cases (land_type season : string) (crop_info : Strict.crop_info) :
  Strict.valid_combination land_type season crop_info = true ->
  (str_in land_type dry_lands = true /\ season = single_season)
  \/ (land_type = irrigated /\ season = single_season
      /\ Strict.is_rice crop_info = true)
  \/ ((land_type = irrigated
       \/ str_in land_type (greenhouses ++ [smart_greenhouse]) = true)
      /\ (season = first_season \/ season = second_season)).
Proof.
  unfold Strict.valid_combination.
  destruct (str_in land_type dry_lands) eqn:Ed.
  { intros H; apply andb_prop in H; destruct H as [H _].
    apply String.eqb_eq in H; auto. }
  destruct (String.eqb_spec land_type irrigated) as [Ei|Ei].
  { destruct (String.eqb_spec season single_season) as [->|_]; [intros H; auto|].
    destruct (String.eqb_spec season first_season) as [->|_]; [intros _; auto 6|].
    destruct (String.eqb_spec season second_season) as [->|_]; [intros _; auto 6|].
    discriminate. }
  assert (G : str_in land_type (greenhouses ++ [smart_greenhouse])
              = str_in land_type greenhouses || String.eqb land_type smart_greenhouse).
  { unfold str_in; rewrite existsb_app; simpl; rewrite !orb_false_r; reflexivity. }
  rewrite G.
  destruct (str_in land_type greenhouses) eqn:Eg.
  { destruct (String.eqb_spec season first_season) as [->|_]; [intros _; auto 6|].
    destruct (String.eqb_spec season second_season) as [->|_]; [intros _; auto 6|].
    discriminate. }
  destruct (String.eqb land_type smart_greenhouse) eqn:Es; [|discriminate].
  intros H; apply andb_prop in H; destruct H as [H _].
  unfold str_in in H; simpl in H; rewrite orb_false_r in H.
  apply orb_prop in H; destruct H as [H|H]; apply String.eqb_eq in H; auto 6.
Qed.

Lemma dry_type (t : string) :
  str_in t dry_lands = true ->
  String.eqb t irrigated = false
  /\ str_in t (greenhouses ++ [smart_greenhouse]) = false.
Proof.
  unfold str_in; intros H; apply existsb_exists in H.
  destruct H as (x & Hx & E); apply String.eqb_eq in E; subst x.
  simpl in Hx; destruct Hx as [<-|[<-|[<-|[]]]]; split; reflexivity.
Qed.

Lemma season_distinct :
  single_season <> first_season /\ single_season <> second_season
  /\ first_season <> second_season.
Proof. repeat split; discriminate. Qed.

(** The blocks that [_add_strict_constraints] writes for one land and year. *)
Lemma strict_area_blocks (wb : workbook) (areas : list constraint)
  (land_name : string) (land_info : Strict.land_info) (year : Z) (season : string) :
  let self := Strict.init wb in
  let keys := filter (Strict.at_season land_name year season) (Strict.x_keys self) in
  Strict.area_constraints self = Some areas ->
  In (land_name, land_info) (Strict.lands self) ->
  In year years ->
  keys = []
  \/ exists bound,
       incl (when_nonempty (map Plant keys) [le (lpSum (map Plant keys)) bound]) areas
       /\ ((String.eqb (Strict.type land_info) irrigated = false
            /\ bound = number (Strict.area land_info))
           \/ (Strict.type land_info = irrigated
               /\ ((season = single_season
                    /\ bound = times (Strict.area land_info) (Water land_name year))
                   \/ ((season = first_season \/ season = second_season)
                       /\ bound = times_complement (Strict.area land_info)
                                    (Water land_name year))))).
Proof.
  intros self keys Ha Hl Hy.
  destruct keys as [|k0 ks] eqn:Ek; [left; reflexivity|right]; rewrite <- Ek.
  assert (Hk0 : In k0 keys) by (rewrite Ek; left; reflexivity).
  unfold keys in Hk0; apply filter_In in Hk0; destruct Hk0 as [Hk0 Hs0].
  apply at_season_true in Hs0; destruct Hs0 as (El & _ & Es).
  assert (Hl' : In (key_land k0, land_info) (Strict.lands self)) by (rewrite El; exact Hl).
  destruct (strict_key_valid wb k0 land_info Hk0 Hl') as (ci0 & _ & V0).
  rewrite Es in V0; apply strict_valid_cases in V0.
  unfold Strict.area_constraints in Ha.
  destruct (flat_mapM_intro _ _ _ (land_name, land_info) Ha Hl) as (bs & Hbs & I1).
  cbv beta iota in Hbs.
  destruct (flat_mapM_intro _ _ _ year Hbs Hy) as (cs & Hcs & I2).
  cbv beta in Hcs.
  assert (I : incl cs areas) by (intros c Hc; apply I1, I2, Hc).
  clear I1 I2 Ha Hbs.
  destruct V0 as [[Hd ->]|[(Ht & -> & _)|[Ht Hse]]].
  - destruct (dry_type _ Hd) as [E1 _]; rewrite E1, Hd in Hcs.
    apply Some_eq in Hcs; subst cs.
    exists (number (Strict.area land_info)); split; [exact I | left; auto].
  - rewrite Ht, String.eqb_refl in Hcs.
    destruct (water_choice_lookup Strict.type (Strict.lands self) land_name land_info
                year Hl Ht Hy) as [Hw _].
    change (dict_get Strict.pair_eqb (Strict.y_water self) (land_name, year)
            = Some (Water land_name year)) in Hw.
    rewrite Hw in Hcs; unbind Hcs.
    assert (Er : v = keys).
    { apply (filterM_filter _ _ _ _ E); intros k Hk; cbv beta.
      destruct (Strict.at_season land_name year single_season k) eqn:Ea; [|reflexivity].
      apply at_season_true in Ea; destruct Ea as (Ekl & _ & Eks).
      assert (Hkl : In (key_land k, land_info) (Strict.lands self))
        by (rewrite Ekl; exact Hl).
      destruct (strict_key_valid wb k land_info Hk Hkl) as (ci & Eci & V).
      unfold self; rewrite Eci; cbn [bind]; f_equal.
      rewrite Eks in V; apply strict_valid_cases in V.
      destruct V as [[Hd _]|[(_ & _ & Hr)|[_ [Hc|Hc]]]].
      + destruct (dry_type _ Hd) as [E1 _].
        rewrite Ht in E1; discriminate.
      + exact Hr.
      + discriminate.
      + discriminate. }
    subst v; apply Some_eq in Hcs; subst cs.
    exists (times (Strict.area land_info) (Water land_name year)); split; [|auto 6].
    intros c Hc; apply I, in_or_app; left; exact Hc.
  - destruct Ht as [Ht|Ht].
    + rewrite Ht, String.eqb_refl in Hcs.
      destruct (water_choice_lookup Strict.type (Strict.lands self) land_name land_info
                  year Hl Ht Hy) as [Hw _].
      change (dict_get Strict.pair_eqb (Strict.y_water self) (land_name, year)
              = Some (Water land_name year)) in Hw.
      rewrite Hw in Hcs; unbind Hcs; apply Some_eq in Hcs; subst cs.
      exists (times_complement (Strict.area land_info) (Water land_name year)).
      split; [|auto 6].
      intros c Hc; apply I, in_or_app; right; apply in_or_app; left.
      apply in_flat_map; exists season; split; [|exact Hc].
      destruct Hse as [->| ->]; simpl; auto.
    + destruct (greenhouse_type _ Ht) as [E1 E2].
      rewrite E1, E2, Ht in Hcs; apply Some_eq in Hcs; subst cs.
      exists (number (Strict.area land_info)); split; [|left; auto].
      intros c Hc; apply I, in_or_app; left.
      apply in_flat_map; exists season; split; [|exact Hc].
      destruct Hse as [->| ->]; simpl; auto.
Qed.

Lemma advanced_valid_cases (land_type season : string)
  (crop_info : Advanced.crop_info) :
  Advanced.valid_combination land_type season crop_info = true ->
  (str_in land_type dry_lands = true /\ season = single_season)
  \/ (land_type = irrigated /\ season = single_season
      /\ String.eqb (Advanced.name crop_info) rice = true)
  \/ ((land_type = irrigated
       \/ str_in land_type (greenhouses ++ [smart_greenhouse]) = true)
      /\ (season = first_season \/ season = second_season)).
Proof.
  unfold Advanced.valid_combination; cbv zeta.
  destruct (str_in land_type dry_lands) eqn:Ed.
  { intros H; apply andb_prop in H; destruct H as [H _].
    apply andb_prop in H; destruct H as [H _].
    apply String.eqb_eq in H; auto. }
  destruct (String.eqb_spec land_type irrigated) as [Ei|Ei].
  { destruct (String.eqb_spec season single_season) as [->|_]; [intros H; auto|].
    destruct (String.eqb_spec season first_season) as [->|_]; [intros _; auto 6|].
    destruct (String.eqb_spec season second_season) as [->|_]; [intros _; auto 6|].
    discriminate. }
  assert (G : str_in land_type (greenhouses ++ [smart_greenhouse])
              = str_in land_type greenhouses || String.eqb land_type smart_greenhouse).
  { unfold str_in; rewrite existsb_app; simpl; rewrite !orb_false_r; reflexivity. }
  rewrite G.
  destruct (str_in land_type greenhouses) eqn:Eg.
  { destruct (String.eqb_spec season first_season) as [->|_]; [intros _; auto 6|].
    destruct (String.eqb_spec season second_season) as [->|_]; [intros _; auto 6|].
    discriminate. }
  destruct (String.eqb land_type smart_greenhouse) eqn:Es; [|discriminate].
  intros H; apply andb_prop in H; destruct H as [H _].
  apply andb_prop in H; destruct H as [H _].
  unfold str_in in H; simpl in H; rewrite orb_false_r in H.
  apply orb_prop in H; destruct H as [H|H]; apply String.eqb_eq in H; auto 6.
Qed.

Section AdvancedAreas.
Variable generator : Type.
Variable uniform : Q -> Q -> generator -> Q * generator.
Variable wb : workbook.
Variable g : generator.

Let self : Advanced.optimizer := fst (Advanced.init generator uniform wb g).

(** Every variable of the advanced model stands for a combination that
    [_is_valid_combination] accepts on the type of its land. *)
Lemma advanced_key_valid (k : key) (land_info : Advanced.land_info) :
  In k (Advanced.x_keys self) ->
  In (key_land k, land_info) (Advanced.lands self) ->
  exists crop_info,
    dict_get Z.eqb (Advanced.crops self) (key_crop k) = Some crop_info
    /\ Advanced.valid_combination (Advanced.type land_info) (key_season k) crop_info
       = true.
Proof.
  intros Hk Hl.
  apply advanced_x_keys_inv in Hk.
  destruct Hk as (land_name & li0 & opt & Hl0 & _ & Ho & Ht & E).
  destruct k as [[[l y] s] c]; cbn [key_land key_season key_crop key_year] in *.
  inversion E; subst l s c; clear E.
  pose proof (advanced_lands_NoDup generator uniform wb g) as Hn; fold self in Hn.
  pose proof (dict_In_get String.eqb String.eqb_eq _ _ _ Hn Hl0) as G0.
  pose proof (dict_In_get String.eqb String.eqb_eq _ _ _ Hn Hl) as G1.
  rewrite G0 in G1; apply Some_eq in G1; subst li0; clear G0.
  destruct (advanced_init_fields generator uniform wb g) as (_ & Hv & _).
  fold self in Hv; rewrite Hv in Ho.
  apply advanced_valid_options_In in Ho; destruct Ho as (row & ci & _ & Eci & V & ->).
  cbn [Advanced.land_type Advanced.season Advanced.crop_id Advanced.make_option] in *.
  exists ci; split; [exact Eci|]; rewrite <- Ht; exact V.
Qed.

(** The blocks that [_add_basic_constraints] writes for one land and year. *)
Lemma advanced_area_blocks (basic : list constraint)
  (land_name : string) (land_info : Advanced.land_info) (year : Z) (season : string) :
  let keys :=
    filter (Advanced.at_season land_name year season) (Advanced.x_keys self) in
  Advanced._add_basic_constraints self = Some basic ->
  In (land_name, land_info) (Advanced.lands self) ->
  In year years ->
  keys = []
  \/ exists bound,
       incl (when_nonempty (map Plant keys) [le (lpSum (map Plant keys)) bound]) basic
       /\ ((String.eqb (Advanced.type land_info) irrigated = false
            /\ bound = number (Advanced.area land_info))
           \/ (Advanced.type land_info = irrigated
               /\ ((season = single_season
                    /\ bound = times (Advanced.area land_info) (Water land_name year))
                   \/ ((season = first_season \/ season = second_season)
                       /\ bound = times_complement (Advanced.area land_info)
                                    (Water land_name year))))).
Proof.
  intros keys Ha Hl Hy.
  destruct keys as [|k0 ks] eqn:Ek; [left; reflexivity|right]; rewrite <- Ek.
  assert (Hk0 : In k0 keys) by (rewrite Ek; left; reflexivity).
  unfold keys in Hk0; apply filter_In in Hk0; destruct Hk0 as [Hk0 Hs0].
  apply at_season_true in Hs0; destruct Hs0 as (El & _ & Es).
  assert (Hl' : In (key_land k0, land_info) (Advanced.lands self))
    by (rewrite El; exact Hl).
  destruct (advanced_key_valid k0 land_info Hk0 Hl') as (ci0 & _ & V0).
  rewrite Es in V0; apply advanced_valid_cases in V0.
  unfold Advanced._add_basic_constraints in Ha; cbv zeta in Ha.
  match type of Ha with
  | context [flat_mapM ?f ?l] => destruct (flat_mapM f l) as [rules|]; [|discriminate]
  end.
  cbn [bind] in Ha; apply Some_eq in Ha.
  assert (I : forall cs,
             incl cs
               ((fun year =>
                   if String.eqb (Advanced.type land_info) irrigated then
                     match dict_get Advanced.pair_eqb (Advanced.y_water self)
                             (land_name, year) with
                     | Some choice =>
                         when_nonempty
                           (Advanced.pick (Advanced.x_keys self)
                              (fun k => Advanced.at_season land_name year single_season k
                                        && Advanced.named_rice self (key_crop k)))
                           [le (lpSum
                                  (Advanced.pick (Advanced.x_keys self)
                                     (fun k =>
                                        Advanced.at_season land_name year single_season k
                                        && Advanced.named_rice self (key_crop k))))
                               (times (Advanced.area land_info) choice)]
                         ++ flat_map
                              (fun season =>
                                 when_nonempty
                                   (Advanced.pick (Advanced.x_keys self)
                                      (Advanced.at_season land_name year season))
                                   [le (lpSum
                                          (Advanced.pick (Advanced.x_keys self)
                                             (Advanced.at_season land_name year season)))
                                       (times_complement (Advanced.area land_info)
                                          choice)])
                              [first_season; second_season]
                         ++ Advanced.equal_seasons (Advanced.x_keys self) land_name year
                     | None => []
                     end
                   else if str_in (Advanced.type land_info) dry_lands then
                     when_nonempty
                       (Advanced.pick (Advanced.x_keys self)
                          (Advanced.at_season land_name year single_season))
                       [le (lpSum
                              (Advanced.pick (Advanced.x_keys self)
                                 (Advanced.at_season land_name year single_season)))
                           (number (Advanced.area land_info))]
                   else if str_in (Advanced.type land_info)
                             (greenhouses ++ [smart_greenhouse]) then
                     flat_map
                       (fun season =>
                          when_nonempty
                            (Advanced.pick (Advanced.x_keys self)
                               (Advanced.at_season land_name year season))
                            [le (lpSum
                                   (Advanced.pick (Advanced.x_keys self)
                                      (Advanced.at_season land_name year season)))
                                (number (Advanced.area land_info))])
                       [first_season; second_season]
                     ++ Advanced.equal_seasons (Advanced.x_keys self) land_name year
                   else []) year) ->
             incl cs basic).
  { intros cs Hcs c Hc; rewrite <- Ha; apply in_or_app; left.
    apply in_flat_map; exists (land_name, land_info); split; [exact Hl|].
    apply in_flat_map; exists year; split; [exact Hy|].
    apply Hcs, Hc. }
  clear Ha; cbv beta in I.
  destruct V0 as [[Hd ->]|[(Ht & -> & _)|[Ht Hse]]].
  - destruct (dry_type _ Hd) as [E1 _]; rewrite E1, Hd in I.
    exists (number (Advanced.area land_info)); split; [|left; auto].
    apply I, incl_refl.
  - rewrite Ht, String.eqb_refl in I.
    destruct (water_choice_lookup Advanced.type (Advanced.lands self) land_name
                land_info year Hl Ht Hy) as [Hw _].
    change (dict_get Advanced.pair_eqb (Advanced.y_water self) (land_name, year)
            = Some (Water land_name year)) in Hw.
    rewrite Hw in I.
    assert (Er : filter (fun k => Advanced.at_season land_name year single_season k
                                  && Advanced.named_rice self (key_crop k))
                   (Advanced.x_keys self)
                 = keys).
    { apply filter_ext_in; intros k Hk.
      destruct (Advanced.at_season land_name year single_season k) eqn:Ea;
        [|reflexivity].
      apply at_season_true in Ea; destruct Ea as (Ekl & _ & Eks).
      assert (Hkl : In (key_land k, land_info) (Advanced.lands self))
        by (rewrite Ekl; exact Hl).
      destruct (advanced_key_valid k land_info Hk Hkl) as (ci & Eci & V).
      unfold Advanced.named_rice; rewrite Eci; cbn [andb].
      rewrite Eks in V; apply advanced_valid_cases in V.
      destruct V as [[Hd _]|[(_ & _ & Hr)|[_ [Hc|Hc]]]].
      + destruct (dry_type _ Hd) as [E1 _].
        rewrite Ht in E1; discriminate.
      + exact Hr.
      + discriminate.
      + discriminate. }
    unfold Advanced.pick in I at 1 2; rewrite Er in I.
    exists (times (Advanced.area land_info) (Water land_name year)); split; [|auto 6].
    apply I; intros c Hc; apply in_or_app; left; exact Hc.
  - destruct Ht as [Ht|Ht].
    + rewrite Ht, String.eqb_refl in I.
      destruct (water_choice_lookup Advanced.type (Advanced.lands self) land_name
                  land_info year Hl Ht Hy) as [Hw _].
      change (dict_get Advanced.pair_eqb (Advanced.y_water self) (land_name, year)
              = Some (Water land_name year)) in Hw.
      rewrite Hw in I.
      exists (times_complement (Advanced.area land_info) (Water land_name year)).
      split; [|auto 6].
      apply I; intros c Hc; apply in_or_app; right; apply in_or_app; left.
      apply in_flat_map; exists season; split; [|exact Hc].
      destruct Hse as [->| ->]; simpl; auto.
    + destruct (greenhouse_type _ Ht) as [E1 E2].
      rewrite E1, E2, Ht in I.
      exists (number (Advanced.area land_info)); split; [|left; auto].
      apply I; intros c Hc; apply in_or_app; left.
      apply in_flat_map; exists season; split; [|exact Hc].
      destruct Hse as [->| ->]; simpl; auto.
Qed.

End AdvancedAreas.

Lemma wet_farm_feasible :
  exists m, Strict.create_strict_model (Strict.init wet_farm) = Some m
            /\ feasible wet_plan m.
Proof.
  destruct (Strict.create_strict_model (Strict.init wet_farm)) as [m|] eqn:E.
  - exists m; split; [reflexivity|].
    apply feasibleb_feasible.
    assert (H : option_map (feasibleb wet_plan)
                  (Strict.create_strict_model (Strict.init wet_farm)) = Some true)
      by (vm_compute; reflexivity).
    rewrite E in H; inversion H; reflexivity.
  - exfalso.
    assert (H : option_map (fun _ => tt)
                  (Strict.create_strict_model (Strict.init wet_farm)) = Some tt)
      by (vm_compute; reflexivity).
    rewrite E in H; discriminate.
Qed.

Lemma bound_below_area (a : valuation) (q : Q) (v : var) (bound : expr) :
  0 <= q ->
  is_binary (a v) ->
  bound = number q \/ bound = times q v \/ bound = times_complement q v ->
  eval a bound <= q.
Proof.
  intros Hq Hb [->|[->| ->]].
  - rewrite eval_number; apply Qle_refl.
  - rewrite eval_times; destruct Hb as [Hb|Hb]; rewrite Hb; lra.
  - rewrite eval_times_complement; destruct Hb as [Hb|Hb]; rewrite Hb; lra.
Qed.

(** X17.  Area conservation in the strict and in the advanced model: in a
    feasible solution the areas planted on a land in one year and one season
    add up to at most the area of the land, whatever the type of the land. *)
Theorem season_area_within_land (generator : Type)
  (uniform : Q -> Q -> generator -> Q * generator) (wb : workbook) (g : generator)
  (a : valuation) (land_name : string) (year : Z) (season : string) :
  let strict := Strict.init wb in
  let advanced := fst (Advanced.init generator uniform wb g) in
  (forall m land_info,
      Strict.create_strict_model strict = Some m ->
      feasible a m ->
      In (land_name, land_info) (Strict.lands strict) ->
      In year years ->
      0 <= Strict.area land_info ->
      total_area a (filter (Strict.at_season land_name year season)
                      (Strict.x_keys strict))
      <= Strict.area land_info)
  /\ (forall m land_info,
         Advanced.create_advanced_model advanced = Some m ->
         feasible a m ->
         In (land_name, land_info) (Advanced.lands advanced) ->
         In year years ->
         0 <= Advanced.area land_info ->
         total_area a (filter (Advanced.at_season land_name year season)
                         (Advanced.x_keys advanced))
         <= Advanced.area land_info).
Proof.
  intros strict advanced; subst strict advanced; split; intros m li Hm Hf Hl Hy Ha.
  - destruct (strict_model_parts _ m Hm)
      as (ar & sa & le_ & Har & _ & _ & Hc & _ & Hb).
    destruct (strict_area_blocks wb ar land_name li year season Har Hl Hy)
      as [E|(bound & I & Hbound)].
    { rewrite E; exact Ha. }
    apply (block_bounds_area a _ bound); [|exact Ha|].
    { intros c Hc'; apply (feasible_holds a m); [assumption|].
      rewrite Hc; apply in_or_app; left; apply I, Hc'. }
    destruct Hbound as [[_ ->]|(Ht & Hbound)].
    { rewrite eval_number; apply Qle_refl. }
    apply (bound_below_area a _ (Water land_name year)); [exact Ha| |].
    { apply (feasible_binary a m); [assumption|].
      rewrite Hb; apply in_or_app; left.
      apply (water_choice_lookup Strict.type _ land_name li year
               Hl Ht Hy). }
    destruct Hbound as [[_ ->]|[_ ->]]; auto.
  - destruct (advanced_model_parts _ m Hm)
      as (ba & de & ro & ri & co & Hba & _ & _ & _ & _ & Hc & _ & Hb).
    destruct (advanced_area_blocks generator uniform wb g ba land_name li year season
                Hba Hl Hy) as [E|(bound & I & Hbound)].
    { rewrite E; exact Ha. }
    apply (block_bounds_area a _ bound); [|exact Ha|].
    { intros c Hc'; apply (feasible_holds a m); [assumption|].
      rewrite Hc; apply in_or_app; left; apply I, Hc'. }
    destruct Hbound as [[_ ->]|(Ht & Hbound)].
    { rewrite eval_number; apply Qle_refl. }
    apply (bound_below_area a _ (Water land_name year)); [exact Ha| |].
    { apply (feasible_binary a m); [assumption|].
      rewrite Hb; apply in_or_app; left.
      apply (water_choice_lookup Advanced.type _ land_name li
               year Hl Ht Hy). }
    destruct Hbound as [[_ ->]|[_ ->]]; auto.
Qed.

(** The theorem at the dry field of the strict model in 2024. *)
Lemma season_area_within_land_witness :
  total_area plan (filter (Strict.at_season "A1" 2024 single_season)
                     (Strict.x_keys strict_farm))
  <= 10.
Proof.
  destruct strict_farm_feasible as (m & Hm & Hf).
  apply (proj1 (season_area_within_land unit midpoint farm tt plan "A1" 2024
                  single_season)
           m {| Strict.type := "平旱地"; Strict.area := 10 |} Hm Hf).
  - vm_compute; left; reflexivity.
  - vm_compute; auto 20.
  - vm_compute; discriminate.
Defined.

(** A block whose bound evaluates to zero leaves no area to its keys. *)
Lemma block_forces_zero (a : valuation) (all keys : list key) (bound : expr) :
  Forall (fun v => 0 <= a v) (map Plant all) ->
  (forall k, In k keys -> In k all) ->
  (forall c, In c (when_nonempty (map Plant keys) [le (lpSum (map Plant keys)) bound]) ->
             holds a c) ->
  eval a bound == 0 ->
  total_area a keys == 0.
Proof.
  intros Hpos Hsub H Hb.
  apply Qle_antisym; [|apply (total_area_nonneg a all); assumption].
  apply (block_bounds_area a keys bound 0 H); [apply Qle_refl|].
  rewrite Hb; apply Qle_refl.
Qed.

Lemma irrigated_bound (a : valuation) (q : Q) (land_name : string) (year : Z)
  (season : string) (bound : expr) (t : string) :
  (String.eqb t irrigated = false /\ bound = number q)
  \/ (t = irrigated
      /\ ((season = single_season /\ bound = times q (Water land_name year))
          \/ ((season = first_season \/ season = second_season)
              /\ bound = times_complement q (Water land_name year)))) ->
  t = irrigated ->
  (season = single_season -> a (Water land_name year) == 0 -> eval a bound == 0)
  /\ (season <> single_season -> a (Water land_name year) == 1 -> eval a bound == 0).
Proof.
  intros [[E _]|(_ & [[Hs ->]|[Hs ->]])] Ht.
  - rewrite Ht in E; discriminate.
  - split; [|intros N; contradiction].
    intros _ Hw; rewrite eval_times, Hw; ring.
  - split.
    + intros ->; destruct Hs; discriminate.
    + intros _ Hw; rewrite eval_times_complement, Hw; ring.
Qed.

(** X18.  Rice or vegetables: in a feasible solution of the strict and of the
    advanced model an irrigated land carries, in each year, no single-season
    crop at all, or no crop at all in the first and in the second season. *)
Theorem irrigated_rice_or_vegetables (generator : Type)
  (uniform : Q -> Q -> generator -> Q * generator) (wb : workbook) (g : generator)
  (a : valuation) (land_name : string) (year : Z) :
  let strict := Strict.init wb in
  let advanced := fst (Advanced.init generator uniform wb g) in
  (forall m land_info,
      Strict.create_strict_model strict = Some m ->
      feasible a m ->
      In (land_name, land_info) (Strict.lands strict) ->
      Strict.type land_info = irrigated ->
      In year years ->
      let area season :=
        total_area a (filter (Strict.at_season land_name year season)
                        (Strict.x_keys strict)) in
      area single_season == 0
      \/ (area first_season == 0 /\ area second_season == 0))
  /\ (forall m land_info,
         Advanced.create_advanced_model advanced = Some m ->
         feasible a m ->
         In (land_name, land_info) (Advanced.lands advanced) ->
         Advanced.type land_info = irrigated ->
         In year years ->
         let area season :=
           total_area a (filter (Advanced.at_season land_name year season)
                           (Advanced.x_keys advanced)) in
         area single_season == 0
         \/ (area first_season == 0 /\ area second_season == 0)).
Proof.
  intros strict advanced; subst strict advanced.
  split; intros m li Hm Hf Hl Ht Hy area.
  - destruct (strict_model_parts _ m Hm)
      as (ar & sa & le_ & Har & _ & _ & Hc & Hx & Hb).
    assert (Hpos : Forall (fun v => 0 <= a v)
                     (map Plant (Strict.x_keys (Strict.init wb))))
      by (rewrite <- Hx; apply Hf).
    assert (Hw : is_binary (a (Water land_name year))).
    { apply (feasible_binary a m); [assumption|].
      rewrite Hb; apply in_or_app; left.
      apply (water_choice_lookup Strict.type _ land_name li year Hl Ht Hy). }
    assert (G : forall season,
               (season = single_season -> a (Water land_name year) == 0 ->
                area season == 0)
               /\ (season <> single_season -> a (Water land_name year) == 1 ->
                   area season == 0)).
    { intros season; unfold area.
      destruct (strict_area_blocks wb ar land_name li year season Har Hl Hy)
        as [E|(bound & I & Hbound)].
      { rewrite E; split; intros _ _; reflexivity. }
      destruct (irrigated_bound a _ _ _ _ _ _ Hbound Ht) as [G1 G2].
      split; intros Hs Hv;
        apply (block_forces_zero a (Strict.x_keys (Strict.init wb)) _ bound Hpos);
        try (intros k Hk; apply filter_In in Hk; apply Hk);
        try (intros c Hc'; apply (feasible_holds a m); [assumption|];
             rewrite Hc; apply in_or_app; left; apply I, Hc');
        auto. }
    destruct Hw as [Hw|Hw].
    + left; apply (proj1 (G single_season)); [reflexivity | exact Hw].
    + right; split; apply (proj2 (G _)); try exact Hw; discriminate.
  - destruct (advanced_model_parts _ m Hm)
      as (ba & de & ro & ri & co & Hba & _ & _ & _ & _ & Hc & Hx & Hb).
    assert (Hpos : Forall (fun v => 0 <= a v)
                     (map Plant
                        (Advanced.x_keys (fst (Advanced.init generator uniform wb g)))))
      by (rewrite <- Hx; apply Hf).
    assert (Hw : is_binary (a (Water land_name year))).
    { apply (feasible_binary a m); [assumption|].
      rewrite Hb; apply in_or_app; left.
      apply (water_choice_lookup Advanced.type _ land_name li year Hl Ht Hy). }
    assert (G : forall season,
               (season = single_season -> a (Water land_name year) == 0 ->
                area season == 0)
               /\ (season <> single_season -> a (Water land_name year) == 1 ->
                   area season == 0)).
    { intros season; unfold area.
      destruct (advanced_area_blocks generator uniform wb g ba land_name li year season
                  Hba Hl Hy) as [E|(bound & I & Hbound)].
      { rewrite E; split; intros _ _; reflexivity. }
      destruct (irrigated_bound a _ _ _ _ _ _ Hbound Ht) as [G1 G2].
      split; intros Hs Hv;
        apply (block_forces_zero a
                 (Advanced.x_keys (fst (Advanced.init generator uniform wb g)))
                 _ bound Hpos);
        try (intros k Hk; apply filter_In in Hk; apply Hk);
        try (intros c Hc'; apply (feasible_holds a m); [assumption|];
             rewrite Hc; apply in_or_app; left; apply I, Hc');
        auto. }
    destruct Hw as [Hw|Hw].
    + left; apply (proj1 (G single_season)); [reflexivity | exact Hw].
    + right; split; apply (proj2 (G _)); try exact Hw; discriminate.
Qed.

(** The theorem at the irrigated field in 2027, the year of the vegetables. *)
Lemma irrigated_rice_or_vegetables_witness :
  (total_area wet_plan (filter (Strict.at_season "D1" 2027 single_season)
                          (Strict.x_keys (Strict.init wet_farm))) == 0
   \/ (total_area wet_plan (filter (Strict.at_season "D1" 2027 first_season)
                              (Strict.x_keys (Strict.init wet_farm))) == 0
       /\ total_area wet_plan (filter (Strict.at_season "D1" 2027 second_season)
                                 (Strict.x_keys (Strict.init wet_farm))) == 0))
  /\ total_area wet_plan (filter (Strict.at_season "D1" 2027 first_season)
                            (Strict.x_keys (Strict.init wet_farm))) == 0.1.
Proof.
  split; [|vm_compute; reflexivity].
  destruct wet_farm_feasible as (m & Hm & Hf).
  apply (proj1 (irrigated_rice_or_vegetables unit midpoint wet_farm tt wet_plan "D1"
                  2027)
           m {| Strict.type := "水浇地"; Strict.area := 15 |} Hm Hf).
  - vm_compute; left; reflexivity.
  - reflexivity.
  - vm_compute; auto 20.
Defined.

Lemma year_has_neighbour (year : Z) :
  In year years ->
  In (year + 1)%Z years \/ (In (year - 1)%Z years /\ (year - 1 + 1)%Z = year).
Proof.
  intros H; unfold years in H; simpl in H.
  repeat (destruct H as [<-|H]; [simpl; auto 20|]); contradiction.
Qed.

Lemma strict_key_shift (self : Strict.optimizer) (k : key) (year : Z) :
  In k (Strict.x_keys self) ->
  In year years ->
  In (key_land k, year, key_season k, key_crop k) (Strict.x_keys self).
Proof.
  intros Hk Hy; apply strict_x_keys_inv in Hk; apply strict_x_keys_inv.
  destruct Hk as (land_name & li & opt & Hl & _ & Ho & Ht & E).
  exists land_name, li, opt; cbn [key_year].
  repeat (split; [assumption|]).
  destruct k as [[[l y] s] c]; cbn [key_land key_season key_crop key_year] in *.
  inversion E; subst; reflexivity.
Qed.

Lemma advanced_key_shift (self : Advanced.optimizer) (k : key) (year : Z) :
  In k (Advanced.x_keys self) ->
  In year years ->
  In (key_land k, year, key_season k, key_crop k) (Advanced.x_keys self).
Proof.
  intros Hk Hy; apply advanced_x_keys_inv in Hk; apply advanced_x_keys_inv.
  destruct Hk as (land_name & li & opt & Hl & _ & Ho & Ht & E).
  exists land_name, li, opt; cbn [key_year].
  repeat (split; [assumption|]).
  destruct k as [[[l y] s] c]; cbn [key_land key_season key_crop key_year] in *.
  inversion E; subst; reflexivity.
Qed.

(** X19.  A tenth of a mu at most: since the variables of a land, season and
    crop exist in every year of the horizon and two consecutive ones may add
    up to 0.1 mu only, no planting variable of the strict or of the advanced
    model exceeds 0.1 mu in a feasible solution. *)
Theorem planting_never_exceeds_a_tenth (generator : Type)
  (uniform : Q -> Q -> generator -> Q * generator) (wb : workbook) (g : generator)
  (a : valuation) (k : key) :
  let strict := Strict.init wb in
  let advanced := fst (Advanced.init generator uniform wb g) in
  (forall m,
      Strict.create_strict_model strict = Some m ->
      feasible a m ->
      In k (Strict.x_keys strict) ->
      a (Plant k) <= 0.1)
  /\ (forall m,
         Advanced.create_advanced_model advanced = Some m ->
         feasible a m ->
         In k (Advanced.x_keys advanced) ->
         a (Plant k) <= 0.1).
Proof.
  intros strict advanced; subst strict advanced.
  destruct k as [[[land_name year] season] crop_id].
  split; intros m Hm Hf Hk.
  - destruct (strict_model_parts _ m Hm) as (ar & sa & le_ & _ & _ & _ & _ & Hx & _).
    assert (Hpos : forall k', In k' (Strict.x_keys (Strict.init wb)) -> 0 <= a (Plant k')).
    { intros k' Hk'; destruct Hf as (_ & Hf & _); rewrite Forall_forall in Hf.
      apply Hf; rewrite Hx; apply in_map, Hk'. }
    assert (Hy : In year years).
    { apply strict_x_keys_inv in Hk; destruct Hk as (_ & _ & _ & _ & Hy & _).
      exact Hy. }
    destruct (year_has_neighbour year Hy) as [Hn|[Hn En]].
    + pose proof (strict_key_shift _ _ _ Hk Hn) as Hk'.
      cbn [key_land key_season key_crop] in Hk'.
      pose proof (strict_consecutive_years wb m a land_name season crop_id year
                    Hm Hf Hk Hk') as G.
      specialize (Hpos _ Hk'); lra.
    + pose proof (strict_key_shift _ _ _ Hk Hn) as Hk'.
      cbn [key_land key_season key_crop] in Hk'.
      pose proof (strict_consecutive_years wb m a land_name season crop_id
                    (year - 1)%Z Hm Hf Hk') as G.
      rewrite En in G; specialize (G Hk).
      specialize (Hpos _ Hk'); lra.
  - destruct (advanced_model_parts _ m Hm)
      as (ba & de & ro & ri & co & _ & _ & _ & _ & _ & _ & Hx & _).
    assert (Hpos : forall k',
               In k' (Advanced.x_keys (fst (Advanced.init generator uniform wb g))) ->
               0 <= a (Plant k')).
    { intros k' Hk'; destruct Hf as (_ & Hf & _); rewrite Forall_forall in Hf.
      apply Hf; rewrite Hx; apply in_map, Hk'. }
    assert (Hy : In year years).
    { apply advanced_x_keys_inv in Hk; destruct Hk as (_ & _ & _ & _ & Hy & _).
      exact Hy. }
    destruct (year_has_neighbour year Hy) as [Hn|[Hn En]].
    + pose proof (advanced_key_shift _ _ _ Hk Hn) as Hk'.
      cbn [key_land key_season key_crop] in Hk'.
      pose proof (advanced_consecutive_years generator uniform wb g m a land_name
                    season crop_id year Hm Hf Hk Hk') as G.
      specialize (Hpos _ Hk'); lra.
    + pose proof (advanced_key_shift _ _ _ Hk Hn) as Hk'.
      cbn [key_land key_season key_crop] in Hk'.
      pose proof (advanced_consecutive_years generator uniform wb g m a land_name
                    season crop_id (year - 1)%Z Hm Hf Hk') as G.
      rewrite En in G; specialize (G Hk).
      specialize (Hpos _ Hk'); lra.
Qed.

(** The theorem at the soybeans of 2024 on the dry field. *)
Lemma planting_never_exceeds_a_tenth_witness :
  plan (Plant ("A1", 2024%Z, single_season, 1%Z)) <= 0.1.
Proof.
  destruct strict_farm_feasible as (m & Hm & Hf).
  apply (proj1 (planting_never_exceeds_a_tenth unit midpoint farm tt plan
                  ("A1", 2024%Z, single_season, 1%Z)) m Hm Hf).
  vm_compute; auto 20.
Defined.

Lemma mapM_map {A B : Type} (f : A -> option B) (h : A -> B) (l : list A) (r : list B) :
  mapM f l = Some r ->
  (forall a, In a l -> f a = Some (h a)) ->
  r = map h l.
Proof.
  intros H Hf; apply mapM_Some in H.
  induction H as [|a b l r Hab _ IH]; [reflexivity|]; simpl.
  rewrite (Hf a (or_introl eq_refl)) in Hab; apply Some_eq in Hab; subst b.
  f_equal; apply IH; intros x Hx; apply Hf; right; exact Hx.
Qed.

Lemma filter_flags (p : key -> bool) (keep : bool -> bool) (l : list key) :
  map (fun kb : key * bool => Plant (fst kb))
      (filter (fun kb => keep (snd kb)) (map (fun k => (k, p k)) l))
  = map Plant (filter (fun k => keep (p k)) l).
Proof.
  induction l as [|k l IH]; simpl; [reflexivity|].
  destruct (keep (p k)); simpl; rewrite IH; reflexivity.
Qed.

Lemma filter_filter {A : Type} (p q : A -> bool) (l : list A) :
  filter p (filter q l) = filter (fun a => q a && p a) l.
Proof.
  induction l as [|a l IH]; simpl; [reflexivity|].
  destruct (q a); simpl; [destruct (p a)|]; rewrite IH; reflexivity.
Qed.

Lemma sum_terms_scaled (a : valuation) (q : Q) (ks : list key) :
  sum_terms a (map (fun v => (q * 1, v)) (map Plant ks)) == q * total_area a ks.
Proof.
  induction ks as [|k ks IH]; simpl; [ring|].
  simpl in IH; rewrite IH; ring.
Qed.

Lemma total_area_app (a : valuation) (l1 l2 : list key) :
  total_area a (l1 ++ l2) == total_area a l1 + total_area a l2.
Proof.
  induction l1 as [|k l1 IH]; simpl; [ring|].
  simpl in IH; rewrite IH; ring.
Qed.

Lemma eval_scaled_sum (a : valuation) (q : Q) (l1 l2 : list key) :
  eval a (Advanced.scaled_sum q (map Plant l1 ++ map Plant l2))
  == q * (total_area a l1 + total_area a l2).
Proof.
  unfold eval, Advanced.scaled_sum; cbn [terms const].
  rewrite <- map_app, sum_terms_scaled, total_area_app; ring.
Qed.

Section AdvancedCaps.
Variable generator : Type.
Variable uniform : Q -> Q -> generator -> Q * generator.
Variable wb : workbook.
Variable g : generator.

Let self : Advanced.optimizer := fst (Advanced.init generator uniform wb g).

Lemma advanced_flagged_keys (year : Z) (flag : Advanced.crop_info -> bool)
  (r : list key) :
  filterM
    (fun k =>
       if Z.eqb (key_year k) year then
         crop_info <- dict_get Z.eqb (Advanced.crops self) (key_crop k) ;;
         Some (flag crop_info)
       else Some false)
    (Advanced.x_keys self) = Some r ->
  r = filter
        (fun k => Z.eqb (key_year k) year
                  && match dict_get Z.eqb (Advanced.crops self) (key_crop k) with
                     | Some crop_info => flag crop_info
                     | None => false
                     end)
        (Advanced.x_keys self).
Proof.
  intros H; apply (filterM_filter _ _ _ _ H); intros k Hk; cbv beta.
  destruct (Z.eqb (key_year k) year); [|reflexivity].
  destruct (advanced_key_crop generator uniform wb g k Hk) as [ci Hci].
  fold self in Hci; rewrite Hci; reflexivity.
Qed.

Lemma advanced_risk_parts (risk : list constraint) (year : Z) :
  Advanced._add_risk_control_constraints self = Some risk ->
  In year years ->
  let keys := Advanced.x_keys self in
  let mushrooms := filter (fun k => Z.eqb (key_year k) year && mushroom_key self k) keys in
  (forall crop_id,
      In crop_id (dict_keys (Advanced.crops self)) ->
      incl (when_nonempty (map Plant (Advanced.crop_year_keys keys year crop_id))
              [le (lpSum (map Plant (Advanced.crop_year_keys keys year crop_id)))
                  (number (Advanced.total_land_area self * 0.4))])
           risk)
  /\ incl (when_nonempty (map Plant mushrooms)
             [le (lpSum (map Plant mushrooms))
                 (number (Advanced.total_land_area self * 0.15))])
          risk.
Proof.
  intros Hri Hy keys mushrooms.
  unfold Advanced._add_risk_control_constraints in Hri; cbv zeta in Hri.
  match type of Hri with
  | context [flat_mapM ?f ?l] =>
      destruct (flat_mapM f l) as [ms|] eqn:Ems; [|discriminate]
  end.
  cbn [bind] in Hri; apply Some_eq in Hri; rewrite <- Hri; split.
  - intros crop_id Hc c Hc'; apply in_or_app; left.
    apply in_flat_map; exists crop_id; split; [exact Hc|].
    apply in_flat_map; exists year; split; [exact Hy|exact Hc'].
  - intros c Hc'; apply in_or_app; right.
    destruct (flat_mapM_intro _ _ _ year Ems Hy) as (bs & Hbs & I).
    apply I; cbv beta in Hbs; unbind Hbs.
    apply advanced_flagged_keys in E; subst v.
    apply Some_eq in Hbs; subst bs; exact Hc'.
Qed.

(** The two lists that [_add_complementarity_constraints] builds for a
    year. *)
Lemma advanced_complementarity_parts (complementarity : list constraint) (year : Z) :
  Advanced._add_complementarity_constraints self = Some complementarity ->
  In year years ->
  let keys := Advanced.x_keys self in
  let legumes := filter (fun k => Z.eqb (key_year k) year && legume_key self k) keys in
  let others :=
    filter (fun k => Z.eqb (key_year k) year && negb (legume_key self k)) keys in
  incl (when_nonempty (map Plant legumes)
          (when_nonempty (map Plant others)
             [ge (lpSum (map Plant legumes))
                 (Advanced.scaled_sum 0.05 (map Plant legumes ++ map Plant others));
              le (lpSum (map Plant legumes))
                 (Advanced.scaled_sum 0.25 (map Plant legumes ++ map Plant others))]))
       complementarity.
Proof.
  intros Hco Hy keys legumes others.
  unfold Advanced._add_complementarity_constraints in Hco.
  destruct (flat_mapM_intro _ _ _ year Hco Hy) as (bs & Hbs & I).
  cbv beta in Hbs; unbind Hbs.
  apply (mapM_map _ (fun k => (k, legume_key self k))) in E.
  2:{ intros k Hk; apply filter_In in Hk; destruct Hk as [Hk _].
      unfold legume_key.
      destruct (advanced_key_crop generator uniform wb g k Hk) as [ci Hci].
      fold self in Hci; rewrite Hci; reflexivity. }
  subst v; cbv zeta in Hbs.
  change (filter snd) with (filter (fun kb : key * bool => (fun b => b) (snd kb))) in Hbs.
  change (filter (fun kb : key * bool => negb (snd kb)))
    with (filter (fun kb : key * bool => (fun b => negb b) (snd kb))) in Hbs.
  rewrite !filter_flags, !filter_filter in Hbs.
  fold keys legumes others in Hbs.
  apply Some_eq in Hbs; rewrite <- Hbs in I; exact I.
Qed.

End AdvancedCaps.

Lemma mixed_farm_feasible :
  exists m,
    Advanced.create_advanced_model (fst (Advanced.init unit midpoint mixed_farm tt))
    = Some m
    /\ feasible mixed_plan m.
Proof.
  destruct (Advanced.create_advanced_model
              (fst (Advanced.init unit midpoint mixed_farm tt))) as [m|] eqn:E.
  - exists m; split; [reflexivity|].
    apply feasibleb_feasible.
    assert (H : option_map (feasibleb mixed_plan)
                  (Advanced.create_advanced_model
                     (fst (Advanced.init unit midpoint mixed_farm tt)))
                = Some true) by (vm_compute; reflexivity).
    rewrite E in H; inversion H; reflexivity.
  - exfalso.
    assert (H : option_map (fun _ => tt)
                  (Advanced.create_advanced_model
                     (fst (Advanced.init unit midpoint mixed_farm tt)))
                = Some tt) by (vm_compute; reflexivity).
    rewrite E in H; discriminate.
Qed.

(** X20.  Risk caps of the advanced model: in a feasible solution no crop
    covers, in one year, more than 40% of the total area of the lands, and
    the mushrooms of one year together cover at most 15% of it. *)
Theorem advanced_risk_caps (generator : Type)
  (uniform : Q -> Q -> generator -> Q * generator) (wb : workbook) (g : generator)
  (m : problem) (a : valuation) (year : Z) :
  let self := fst (Advanced.init generator uniform wb g) in
  Advanced.create_advanced_model self = Some m ->
  feasible a m ->
  In year years ->
  0 <= Advanced.total_land_area self ->
  (forall crop_id,
      total_area a (Advanced.crop_year_keys (Advanced.x_keys self) year crop_id)
      <= Advanced.total_land_area self * 0.4)
  /\ total_area a
       (filter (fun k => Z.eqb (key_year k) year && mushroom_key self k)
          (Advanced.x_keys self))
     <= Advanced.total_land_area self * 0.15.
Proof.
  intros self Hm Hf Hy Ht.
  destruct (advanced_model_parts self m Hm)
    as (ba & de & ro & ri & co & _ & _ & _ & Hri & _ & Hc & _).
  destruct (advanced_risk_parts generator uniform wb g ri year Hri Hy) as [I1 I2].
  fold self in I1, I2.
  assert (Hin : forall cs c, incl cs ri -> In c cs -> holds a c).
  { intros cs c I Hc'; apply (feasible_holds a m); [assumption|].
    rewrite Hc; do 5 (apply in_or_app; right); apply in_or_app; left.
    apply I, Hc'. }
  split.
  - intros crop_id.
    assert (H0 : 0 <= Advanced.total_land_area self * 0.4) by nra.
    destruct (Advanced.crop_year_keys (Advanced.x_keys self) year crop_id)
      as [|k0 ks] eqn:Ek; [exact H0|]; rewrite <- Ek.
    assert (Hk0 : In k0 (Advanced.crop_year_keys (Advanced.x_keys self) year crop_id))
      by (rewrite Ek; left; reflexivity).
    apply filter_In in Hk0; destruct Hk0 as [Hk0 E0].
    apply andb_prop in E0; destruct E0 as [_ E0]; apply Z.eqb_eq in E0.
    destruct (advanced_key_crop_known generator uniform wb g k0 Hk0) as [_ Hc0].
    fold self in Hc0; rewrite E0 in Hc0.
    apply (block_bounds_area a _ (number (Advanced.total_land_area self * 0.4)));
      [|exact H0|rewrite eval_number; apply Qle_refl].
    intros c; apply Hin, I1, Hc0.
  - assert (H0 : 0 <= Advanced.total_land_area self * 0.15) by nra.
    apply (block_bounds_area a _ (number (Advanced.total_land_area self * 0.15)));
      [|exact H0|rewrite eval_number; apply Qle_refl].
    intros c; apply Hin, I2.
Qed.

(** The theorem on the mixed farm in 2024: wheat on a tenth of a mu, against
    four mu, and no mushrooms. *)
Lemma advanced_risk_caps_witness :
  total_area mixed_plan
    (Advanced.crop_year_keys (Advanced.x_keys mixed_advanced) 2024 6)
  <= 10 * 0.4.
Proof.
  destruct mixed_farm_feasible as (m & Hm & Hf).
  assert (Hy : In 2024%Z years) by (vm_compute; auto 20).
  assert (Ht : 0 <= Advanced.total_land_area mixed_advanced)
    by (vm_compute; discriminate).
  apply (Qle_trans _ _ _
           (proj1 (advanced_risk_caps unit midpoint mixed_farm tt m mixed_plan 2024
                     Hm Hf Hy Ht) 6%Z)).
  vm_compute; discriminate.
Defined.

(** X21.  Share of the legumes in the advanced model: in a year that has
    variables for legumes and for other crops, a feasible solution plants
    legumes on at least 5% and at most 25% of all the area planted that
    year. *)
Theorem advanced_legume_band (generator : Type)
  (uniform : Q -> Q -> generator -> Q * generator) (wb : workbook) (g : generator)
  (m : problem) (a : valuation) (year : Z) :
  let self := fst (Advanced.init generator uniform wb g) in
  let legumes :=
    filter (fun k => Z.eqb (key_year k) year && legume_key self k)
      (Advanced.x_keys self) in
  let others :=
    filter (fun k => Z.eqb (key_year k) year && negb (legume_key self k))
      (Advanced.x_keys self) in
  Advanced.create_advanced_model self = Some m ->
  feasible a m ->
  In year years ->
  legumes <> [] ->
  others <> [] ->
  0.05 * (total_area a legumes + total_area a others) <= total_area a legumes
  /\ total_area a legumes <= 0.25 * (total_area a legumes + total_area a others).
Proof.
  intros self legumes others Hm Hf Hy N1 N2.
  destruct (advanced_model_parts self m Hm)
    as (ba & de & ro & ri & co & _ & _ & _ & _ & Hco & Hc & _).
  pose proof (advanced_complementarity_parts generator uniform wb g co year Hco Hy)
    as I; fold self in I; fold legumes others in I.
  assert (G : forall c,
             In c [ge (lpSum (map Plant legumes))
                      (Advanced.scaled_sum 0.05 (map Plant legumes ++ map Plant others));
                   le (lpSum (map Plant legumes))
                      (Advanced.scaled_sum 0.25 (map Plant legumes ++ map Plant others))] ->
             holds a c).
  { intros c Hc'; apply (feasible_holds a m); [assumption|].
    rewrite Hc; do 6 (apply in_or_app; right).
    apply I.
    apply when_nonempty_In; [apply map_Plant_not_nil, N1|].
    apply when_nonempty_In; [apply map_Plant_not_nil, N2|exact Hc']. }
  split.
  - specialize (G _ (or_introl eq_refl)).
    unfold holds, ge in G; cbn [rel lhs rhs] in G.
    rewrite eval_lpSum, eval_scaled_sum in G; exact G.
  - specialize (G _ (or_intror (or_introl eq_refl))).
    unfold holds, le in G; cbn [rel lhs rhs] in G.
    rewrite eval_lpSum, eval_scaled_sum in G; exact G.
Qed.

(** The theorem on the mixed farm in 2024: a tenth of a mu of soybeans among
    four tenths planted, the largest share allowed. *)
Lemma advanced_legume_band_witness :
  total_area mixed_plan
    (filter (fun k => Z.eqb (key_year k) 2024 && legume_key mixed_advanced k)
       (Advanced.x_keys mixed_advanced))
  <= 0.25
     * (total_area mixed_plan
          (filter (fun k => Z.eqb (key_year k) 2024 && legume_key mixed_advanced k)
             (Advanced.x_keys mixed_advanced))
        + total_area mixed_plan
            (filter (fun k => Z.eqb (key_year k) 2024
                              && negb (legume_key mixed_advanced k))
               (Advanced.x_keys mixed_advanced))).
Proof.
  destruct mixed_farm_feasible as (m & Hm & Hf).
  apply (advanced_legume_band unit midpoint mixed_farm tt m mixed_plan 2024 Hm Hf).
  - vm_compute; auto 20.
  - vm_compute; discriminate.
  - vm_compute; discriminate.
Defined.

(* ================================================================== *)
(** ** Data processing, relations and checks *)

Lemma insert_desc_sorted (o : Base.planting_option) (l : list Base.planting_option) :
  StronglySorted profit_desc l -> StronglySorted profit_desc (Base.insert_desc o l).
Proof.
  induction l as [|p l IH]; simpl; intros H.
  - constructor; [constructor | constructor].
  - inversion H as [|? ? Hs Hall]; subst.
    destruct (Qle_bool (Base.profit_per_mu o) (Base.profit_per_mu p)) eqn:E.
    + apply Qle_bool_iff in E.
      constructor; [apply IH, Hs|].
      rewrite Forall_forall in *; intros q Hq.
      apply insert_desc_In in Hq; destruct Hq as [->|Hq]; [exact E | apply Hall, Hq].
    + assert (Hlt : Base.profit_per_mu p < Base.profit_per_mu o).
      { apply Qnot_le_lt; intros C; apply Qle_bool_iff in C; congruence. }
      constructor; [exact H|].
      rewrite Forall_forall in *; intros q [<-|Hq].
      * apply Qlt_le_weak, Hlt.
      * unfold profit_desc in *; specialize (Hall q Hq); lra.
Qed.

Lemma sort_desc_sorted (l : list Base.planting_option) :
  StronglySorted profit_desc (Base.sort_desc l).
Proof.
  unfold Base.sort_desc.
  assert (G : forall acc, StronglySorted profit_desc acc ->
                          StronglySorted profit_desc
                            (fold_left (fun acc o => Base.insert_desc o acc) l acc)).
  { induction l as [|p l IH]; simpl; intros acc H; [exact H|].
    apply IH, insert_desc_sorted, H. }
  apply G; constructor.
Qed.

(** The first match of a sorted list stands before every other match. *)
Lemma find_sorted {A : Type} (R : A -> A -> Prop) (p : A -> bool) (l : list A) (o : A) :
  StronglySorted R l ->
  (forall a, R a a) ->
  find p l = Some o ->
  In o l /\ p o = true /\ forall o', In o' l -> p o' = true -> R o o'.
Proof.
  intros Hs Hrefl; induction Hs as [|a l Hs IH Hall]; simpl; [discriminate|].
  destruct (p a) eqn:E.
  - intros H; inversion H; subst a; clear H.
    repeat split; auto.
    intros o' [<-|Ho'] _; [apply Hrefl|].
    rewrite Forall_forall in Hall; apply Hall, Ho'.
  - intros H; destruct (IH H) as (Hin & Hp & Hbest).
    repeat split; auto.
    intros o' [<-|Ho'] Hp'; [congruence | apply Hbest; assumption].
Qed.

(** X22.  The option behind an objective coefficient of the base model: the
    option that [next(...)] finds for a land type, a season and a crop is a
    rule-abiding option of the statistics whose crop has a positive expected
    sale, and no option of [viable_options] for the same land type, season
    and crop has a larger profit per mu. *)
Theorem base_objective_takes_best_option (wb : workbook) (land_type season : string)
  (crop_id : Z) (o : Base.planting_option) :
  let self := Base._process_data wb in
  Base.find_option self land_type season crop_id = Some o ->
  In o (Base.valid_planting_options self)
  /\ Base.tradeable (Base.expected_sales self) o = true
  /\ Base.land_type o = land_type
  /\ Base.season o = season
  /\ Base.crop_id o = crop_id
  /\ forall o',
       In o' (Base.viable_options self) ->
       Base.land_type o' = land_type ->
       Base.season o' = season ->
       Base.crop_id o' = crop_id ->
       Base.profit_per_mu o' <= Base.profit_per_mu o.
Proof.
  intros self H; unfold Base.find_option in H.
  change (Base.viable_options self)
    with (Base.sort_desc (filter (Base.tradeable (Base.expected_sales self))
                            (Base.valid_planting_options self))) in *.
  apply (find_sorted profit_desc) in H;
    [|apply sort_desc_sorted | intros a; apply Qle_refl].
  destruct H as (Hin & Hp & Hbest).
  apply sort_desc_In, filter_In in Hin; destruct Hin as [Hin Ht].
  apply andb_prop in Hp; destruct Hp as [Hp H3].
  apply andb_prop in Hp; destruct Hp as [H1 H2].
  apply String.eqb_eq in H1, H2; apply Z.eqb_eq in H3.
  repeat (split; [assumption|]).
  intros o' Ho' E1 E2 E3; apply (Hbest o' Ho').
  rewrite E1, E2, E3, !String.eqb_refl, Z.eqb_refl; reflexivity.
Qed.

(** The theorem at the soybeans of the dry field. *)
Lemma base_objective_takes_best_option_witness :
  exists o,
    Base.find_option base_farm "平旱地" single_season 1 = Some o
    /\ Base.tradeable (Base.expected_sales base_farm) o = true
    /\ Base.profit_per_mu o == 900.
Proof.
  destruct (Base.find_option base_farm "平旱地" single_season 1) as [o|] eqn:E.
  - exists o; split; [reflexivity|]; split.
    + apply (base_objective_takes_best_option farm "平旱地" single_season 1 o E).
    + vm_compute in E; inversion E; reflexivity.
  - vm_compute in E; discriminate.
Defined.

Lemma base_legume_fold (crops : list (Z * Base.crop_info)) (rows : list planting_row)
  (d : list (string * bool)) (land_name : string) :
  dict_get String.eqb
    (fold_left
       (fun d row =>
          let land_name := pr_block_name row in
          let d1 := if dict_mem String.eqb d land_name then d
                    else dict_set String.eqb d land_name false in
          if Base.crop_is_legume crops (pr_crop_id row)
          then dict_set String.eqb d1 land_name true
          else d1)
       rows d) land_name = Some true
  <-> dict_get String.eqb d land_name = Some true
      \/ exists row, In row rows /\ pr_block_name row = land_name
                     /\ Base.crop_is_legume crops (pr_crop_id row) = true.
Proof.
  revert d; induction rows as [|row rows IH]; intros d; cbn [fold_left].
  - split; [auto | intros [H|(r & [] & _)]; exact H].
  - rewrite IH; cbv zeta.
    assert (G : dict_get String.eqb
                  (if Base.crop_is_legume crops (pr_crop_id row)
                   then dict_set String.eqb
                          (if dict_mem String.eqb d (pr_block_name row) then d
                           else dict_set String.eqb d (pr_block_name row) false)
                          (pr_block_name row) true
                   else if dict_mem String.eqb d (pr_block_name row) then d
                        else dict_set String.eqb d (pr_block_name row) false)
                  land_name = Some true
                <-> dict_get String.eqb d land_name = Some true
                    \/ (pr_block_name row = land_name
                        /\ Base.crop_is_legume crops (pr_crop_id row) = true)).
    { destruct (Base.crop_is_legume crops (pr_crop_id row)).
      - rewrite (dict_get_set String.eqb String.eqb_eq).
        destruct (String.eqb_spec (pr_block_name row) land_name) as [E|E].
        + split; auto.
        + destruct (dict_mem String.eqb d (pr_block_name row)).
          * split; [auto | intros [H|[H _]]; [exact H | contradiction]].
          * rewrite (dict_get_set String.eqb String.eqb_eq).
            destruct (String.eqb_spec (pr_block_name row) land_name) as [E'|_];
              [contradiction|].
            split; [auto | intros [H|[H _]]; [exact H | contradiction]].
      - destruct (dict_mem String.eqb d (pr_block_name row)) eqn:Em.
        + split; [auto | intros [H|[_ H]]; [exact H | discriminate]].
        + rewrite (dict_get_set String.eqb String.eqb_eq).
          destruct (String.eqb_spec (pr_block_name row) land_name) as [E|E].
          * split; [discriminate|].
            intros [H|[_ H]]; [|discriminate].
            subst land_name; unfold dict_mem in Em; rewrite H in Em; discriminate.
          * split; [auto | intros [H|[_ H]]; [exact H | discriminate]]. }
    rewrite G; split.
    + intros [[H|(H1 & H2)]|(r & Hr & H)]; auto.
      * right; exists row; simpl; auto.
      * right; exists r; simpl; auto.
    + intros [H|(r & [<-|Hr] & H)]; auto.
      right; exists r; auto.
Qed.

Lemma strict_legume_fold (crops : list (Z * Strict.crop_info)) (rows : list planting_row)
  (s : list string) (land_name : string) :
  str_in land_name
    (fold_left
       (fun s row =>
          match dict_get Z.eqb crops (pr_crop_id row) with
          | Some crop_info =>
              if Strict.is_legume crop_info && negb (str_in (pr_block_name row) s)
              then s ++ [pr_block_name row]
              else s
          | None => s
          end)
       rows s) = true
  <-> str_in land_name s = true
      \/ exists row, In row rows /\ pr_block_name row = land_name
                     /\ match dict_get Z.eqb crops (pr_crop_id row) with
                        | Some crop_info => Strict.is_legume crop_info
                        | None => false
                        end = true.
Proof.
  revert s; induction rows as [|row rows IH]; intros s; cbn [fold_left].
  - split; [auto | intros [H|(r & [] & _)]; exact H].
  - rewrite IH.
    assert (G : str_in land_name
                  match dict_get Z.eqb crops (pr_crop_id row) with
                  | Some crop_info =>
                      if Strict.is_legume crop_info
                         && negb (str_in (pr_block_name row) s)
                      then s ++ [pr_block_name row]
                      else s
                  | None => s
                  end = true
                <-> str_in land_name s = true
                    \/ (pr_block_name row = land_name
                        /\ match dict_get Z.eqb crops (pr_crop_id row) with
                           | Some crop_info => Strict.is_legume crop_info
                           | None => false
                           end = true)).
    { destruct (dict_get Z.eqb crops (pr_crop_id row)) as [ci|];
        [|split; [auto | intros [H|[_ H]]; [exact H | discriminate]]].
      destruct (Strict.is_legume ci); cbn [andb];
        [|split; [auto | intros [H|[_ H]]; [exact H | discriminate]]].
      destruct (str_in (pr_block_name row) s) eqn:Es; cbn [negb].
      - split; [auto | intros [H|[<- _]]; [exact H | exact Es]].
      - unfold str_in; rewrite existsb_app; cbn [existsb]; rewrite orb_false_r.
        rewrite orb_true_iff, String.eqb_eq.
        split.
        + intros [H|H]; [left; exact H | right; split; [symmetry; exact H | reflexivity]].
        + intros [H|[H _]]; [left; exact H | right; symmetry; exact H]. }
    rewrite G; split.
    + intros [[H|(H1 & H2)]|(r & Hr & H)]; auto.
      * right; exists row; simpl; auto.
      * right; exists r; simpl; auto.
    + intros [H|(r & [<-|Hr] & H)]; auto.
      right; exists r; auto.
Qed.

Lemma legume_flag_agrees (wb : workbook) (crop_id : Z) :
  match dict_get Z.eqb (Strict.crops (Strict.init wb)) crop_id with
  | Some crop_info => Strict.is_legume crop_info
  | None => false
  end
  = Base.crop_is_legume (Base.crops (Base._process_data wb)) crop_id.
Proof.
  unfold Base.crop_is_legume.
  change (Strict.crops (Strict.init wb))
    with (dict_of_list Z.eqb (map (fun r => (cr_id r, Strict.classify r)) (crop_df wb))).
  change (Base.crops (Base._process_data wb))
    with (dict_of_list Z.eqb (map (fun r => (cr_id r, Base.classify r)) (crop_df wb))).
  rewrite !(dict_get_of_list Z.eqb Z.eqb_eq), !dict_get_rev_map.
  destruct (find _ _); reflexivity.
Qed.

(** X23.  The legume history of 2023 in the base and in the strict variant:
    the base dictionary holds [True] for a land exactly when the strict set
    holds the land, and that is exactly when some row of the 2023 sheet names
    the land with a crop of the crop sheet that is a legume. *)
Theorem legume_history_agrees (wb : workbook) (land_name : string) :
  let base := Base._process_data wb in
  let strict := Strict.init wb in
  (dict_get String.eqb (Base.legume_planted_2023 base) land_name = Some true
   <-> str_in land_name (Strict.legume_planted_2023 strict) = true)
  /\ (str_in land_name (Strict.legume_planted_2023 strict) = true
      <-> exists row, In row (planting_2023_df wb) /\ legume_row wb land_name row).
Proof.
  intros base strict.
  assert (B : dict_get String.eqb (Base.legume_planted_2023 base) land_name = Some true
              <-> exists row, In row (planting_2023_df wb) /\ legume_row wb land_name row).
  { change (Base.legume_planted_2023 base)
      with (Base.legume_history (Base.crops base) (planting_2023_df wb)).
    unfold Base.legume_history; rewrite base_legume_fold; cbn [dict_get].
    split; [intros [H|H]; [discriminate | exact H] | auto]. }
  assert (S : str_in land_name (Strict.legume_planted_2023 strict) = true
              <-> exists row, In row (planting_2023_df wb) /\ legume_row wb land_name row).
  { change (Strict.legume_planted_2023 strict)
      with (Strict.legume_history (Strict.crops strict) (planting_2023_df wb)).
    unfold Strict.legume_history; rewrite strict_legume_fold.
    unfold str_in at 1; cbn [existsb].
    split.
    - intros [H|(r & Hr & E & H)]; [discriminate|].
      exists r; split; [exact Hr|]; split; [exact E|].
      rewrite <- legume_flag_agrees; exact H.
    - intros (r & Hr & E & H); right; exists r; split; [exact Hr|]; split; [exact E|].
      unfold strict; rewrite legume_flag_agrees; exact H. }
  split; [rewrite B, S; tauto | exact S].
Qed.

Lemma dict_get_of_map {V : Type} (f : Z -> V) (l : list Z) (k : Z) :
  dict_get Z.eqb (dict_of_list Z.eqb (map (fun j => (j, f j)) l)) k
  = if existsb (Z.eqb k) l then Some (f k) else None.
Proof.
  rewrite (dict_get_of_list Z.eqb Z.eqb_eq), dict_get_rev_map.
  destruct (find (fun r => Z.eqb r k) (rev l)) as [r|] eqn:E.
  - apply find_some in E; destruct E as [Hin E]; apply Z.eqb_eq in E; subst r.
    apply in_rev in Hin.
    assert (H : existsb (Z.eqb k) l = true)
      by (apply existsb_exists; exists k; split; [exact Hin | apply Z.eqb_refl]).
    rewrite H; reflexivity.
  - destruct (existsb (Z.eqb k) l) eqn:H; [|reflexivity].
    apply existsb_exists in H; destruct H as (x & Hx & Ex).
    apply Z.eqb_eq in Ex; subst x.
    apply in_rev in Hx; apply (find_none _ _ E) in Hx.
    rewrite Z.eqb_refl in Hx; discriminate.
Qed.

Lemma matrix_of_get (entry : Z -> Z -> option Q) (value : Z -> Z -> Q)
  (crop_ids : list Z) (matrix : list (Z * list (Z * Q))) (i j : Z) :
  (forall i j, In i crop_ids -> In j crop_ids -> entry i j = Some (value i j)) ->
  matrix_of entry crop_ids = Some matrix ->
  matrix_get matrix i j
  = if existsb (Z.eqb i) crop_ids && existsb (Z.eqb j) crop_ids
    then Some (value i j) else None.
Proof.
  intros He H; unfold matrix_of in H; unbind H.
  apply Some_eq in H; subst matrix.
  apply (mapM_map _ (fun i => (i, dict_of_list Z.eqb
                                     (map (fun j => (j, value i j)) crop_ids)))) in E.
  2:{ intros a Ha.
      assert (G : mapM (fun j => v <- entry a j ;; Some (j, v)) crop_ids
                  = Some (map (fun j => (j, value a j)) crop_ids)).
      { destruct (mapM_total (fun j => v <- entry a j ;; Some (j, v)) crop_ids)
          as [r Hr].
        - intros b Hb; rewrite (He a b Ha Hb); cbn [bind]; eauto.
        - rewrite Hr; f_equal.
          apply (mapM_map _ (fun j => (j, value a j)) _ _ Hr).
          intros b Hb; rewrite (He a b Ha Hb); reflexivity. }
      rewrite G; reflexivity. }
  subst v; unfold matrix_get.
  rewrite (dict_get_of_map
             (fun i => dict_of_list Z.eqb (map (fun j => (j, value i j)) crop_ids))).
  destruct (existsb (Z.eqb i) crop_ids); cbn [bind andb]; [|reflexivity].
  apply (dict_get_of_map (value i)).
Qed.

Lemma substitution_entry_sym (crops : list (Z * Advanced.crop_info)) (i j : Z) :
  substitution_entry crops i j = substitution_entry crops j i.
Proof.
  unfold substitution_entry; rewrite (Z.eqb_sym j i).
  destruct (Z.eqb i j); [reflexivity|].
  destruct (dict_get Z.eqb crops i) as [ci|], (dict_get Z.eqb crops j) as [cj|];
    cbn [bind]; try reflexivity.
  rewrite (String.eqb_sym (Advanced.category cj) (Advanced.category ci)).
  destruct (String.eqb_spec (Advanced.category ci) (Advanced.category cj)) as [E|_].
  - rewrite E; reflexivity.
  - rewrite orb_comm; reflexivity.
Qed.

Lemma complementarity_entry_sym (crops : list (Z * Advanced.crop_info)) (i j : Z) :
  complementarity_entry crops i j = complementarity_entry crops j i.
Proof.
  unfold complementarity_entry; rewrite (Z.eqb_sym j i).
  destruct (Z.eqb i j); [reflexivity|].
  destruct (dict_get Z.eqb crops i) as [ci|], (dict_get Z.eqb crops j) as [cj|];
    cbn [bind]; try reflexivity.
  rewrite (String.eqb_sym (Advanced.category cj) (Advanced.category ci)).
  destruct (Advanced.is_legume ci), (Advanced.is_legume cj); reflexivity.
Qed.

Lemma substitution_entry_range (crops : list (Z * Advanced.crop_info)) (i j : Z) (v : Q) :
  substitution_entry crops i j = Some v ->
  0.1 <= v /\ v <= 1 /\ (i = j -> v == 1) /\ (v == 1 -> i = j).
Proof.
  unfold substitution_entry.
  destruct (Z.eqb_spec i j) as [E|E].
  { intros H; apply Some_eq in H; subst v; repeat split; auto; discriminate. }
  destruct (dict_get Z.eqb crops i) as [ci|]; [|discriminate].
  destruct (dict_get Z.eqb crops j) as [cj|]; [|discriminate].
  cbn [bind]; cbv zeta.
  repeat match goal with
         | |- context [if ?b then _ else _] => destruct b
         end;
    intros H; apply Some_eq in H; subst v;
    (repeat split; [discriminate | discriminate | intros C; contradiction
                    | intros C; discriminate C]).
Qed.

Lemma complementarity_entry_range (crops : list (Z * Advanced.crop_info)) (i j : Z)
  (v : Q) :
  complementarity_entry crops i j = Some v ->
  - 0.1 <= v /\ v <= 0.6 /\ (i = j -> v == 0) /\ (v == 0 -> i = j).
Proof.
  unfold complementarity_entry.
  destruct (Z.eqb_spec i j) as [E|E].
  { intros H; apply Some_eq in H; subst v; repeat split; auto; discriminate. }
  destruct (dict_get Z.eqb crops i) as [ci|]; [|discriminate].
  destruct (dict_get Z.eqb crops j) as [cj|]; [|discriminate].
  cbn [bind].
  repeat match goal with
         | |- context [if ?b then _ else _] => destruct b
         end;
    intros H; apply Some_eq in H; subst v;
    (repeat split; [discriminate | discriminate | intros C; contradiction
                    | intros C; discriminate C]).
Qed.

Lemma entry_known (crops : list (Z * Advanced.crop_info)) (i j : Z) :
  In i (dict_keys crops) ->
  In j (dict_keys crops) ->
  (exists v, substitution_entry crops i j = Some v)
  /\ (exists v, complementarity_entry crops i j = Some v).
Proof.
  intros Hi Hj.
  destruct (dict_key_get Z.eqb Z.eqb_eq crops i Hi) as [ci Hci].
  destruct (dict_key_get Z.eqb Z.eqb_eq crops j Hj) as [cj Hcj].
  unfold substitution_entry, complementarity_entry; rewrite Hci, Hcj; cbn [bind].
  split;
    repeat match goal with
           | |- context [if ?b then _ else _] => destruct b
           end; eauto.
Qed.

(** X24.  The matrices of [_define_crop_relationships]: the function never
    raises, and for two crops of the crop sheet both matrices are symmetric;
    a substitution lies between 0.1 and 1 and is 1 exactly on the diagonal,
    a complementarity lies between -0.1 and 0.6 and is 0 exactly on the
    diagonal. *)
Theorem crop_relationships_symmetric (crops : list (Z * Advanced.crop_info))
  (i j : Z) :
  In i (dict_keys crops) ->
  In j (dict_keys crops) ->
  exists r s c,
    _define_crop_relationships crops = Some r
    /\ matrix_get (substitution_matrix r) i j = Some s
    /\ matrix_get (substitution_matrix r) j i = Some s
    /\ matrix_get (complementarity_matrix r) i j = Some c
    /\ matrix_get (complementarity_matrix r) j i = Some c
    /\ 0.1 <= s /\ s <= 1 /\ (s == 1 <-> i = j)
    /\ - 0.1 <= c /\ c <= 0.6 /\ (c == 0 <-> i = j).
Proof.
  intros Hi Hj.
  assert (Hs : forall a b, In a (dict_keys crops) -> In b (dict_keys crops) ->
                           substitution_entry crops a b
                           = Some (entry_value (substitution_entry crops) a b)).
  { intros a b Ha Hb; unfold entry_value.
    destruct (entry_known crops a b Ha Hb) as [[v ->] _]; reflexivity. }
  assert (Hc : forall a b, In a (dict_keys crops) -> In b (dict_keys crops) ->
                           complementarity_entry crops a b
                           = Some (entry_value (complementarity_entry crops) a b)).
  { intros a b Ha Hb; unfold entry_value.
    destruct (entry_known crops a b Ha Hb) as [_ [v ->]]; reflexivity. }
  assert (T : forall entry value,
             (forall a b, In a (dict_keys crops) -> In b (dict_keys crops) ->
                          entry a b = Some (value a b)) ->
             exists m, matrix_of entry (dict_keys crops) = Some m).
  { intros entry value He; unfold matrix_of.
    destruct (mapM_total
                (fun i => row <- mapM (fun j => v <- entry i j ;; Some (j, v))
                                   (dict_keys crops) ;;
                          Some (i, dict_of_list Z.eqb row))
                (dict_keys crops)) as [rows Hrows].
    - intros a Ha.
      destruct (mapM_total (fun j => v <- entry a j ;; Some (j, v)) (dict_keys crops))
        as [row Hrow].
      + intros b Hb; rewrite (He a b Ha Hb); cbn [bind]; eauto.
      + rewrite Hrow; cbn [bind]; eauto.
    - rewrite Hrows; cbn [bind]; eauto. }
  destruct (T _ _ Hs) as [ms Hms], (T _ _ Hc) as [mc Hmc].
  assert (Ei : existsb (Z.eqb i) (dict_keys crops) = true)
    by (apply existsb_exists; exists i; split; [exact Hi | apply Z.eqb_refl]).
  assert (Ej : existsb (Z.eqb j) (dict_keys crops) = true)
    by (apply existsb_exists; exists j; split; [exact Hj | apply Z.eqb_refl]).
  exists {| substitution_matrix := ms; complementarity_matrix := mc |},
         (entry_value (substitution_entry crops) i j),
         (entry_value (complementarity_entry crops) i j).
  cbn [substitution_matrix complementarity_matrix].
  split; [unfold _define_crop_relationships; cbv zeta; rewrite Hms, Hmc; reflexivity|].
  rewrite !(matrix_of_get _ _ _ _ _ _ Hs Hms), !(matrix_of_get _ _ _ _ _ _ Hc Hmc).
  rewrite Ei, Ej; cbn [andb].
  assert (Ys : entry_value (substitution_entry crops) j i
               = entry_value (substitution_entry crops) i j)
    by (unfold entry_value; rewrite substitution_entry_sym; reflexivity).
  assert (Yc : entry_value (complementarity_entry crops) j i
               = entry_value (complementarity_entry crops) i j)
    by (unfold entry_value; rewrite complementarity_entry_sym; reflexivity).
  rewrite Ys, Yc.
  destruct (substitution_entry_range crops i j _ (Hs i j Hi Hj)) as (S1 & S2 & S3 & S4).
  destruct (complementarity_entry_range crops i j _ (Hc i j Hi Hj))
    as (C1 & C2 & C3 & C4).
  do 4 (split; [reflexivity|]).
  split; [exact S1|]; split; [exact S2|]; split; [split; assumption|].
  split; [exact C1|]; split; [exact C2|]; split; assumption.
Qed.

(** The theorem at the soybeans and the wheat of [farm]: a grain that is a
    legume against a grain that is not. *)
Lemma crop_relationships_symmetric_witness :
  exists r s c,
    _define_crop_relationships (Advanced.crops advanced_farm) = Some r
    /\ matrix_get (substitution_matrix r) 1 6 = Some s
    /\ matrix_get (substitution_matrix r) 6 1 = Some s
    /\ matrix_get (complementarity_matrix r) 1 6 = Some c
    /\ matrix_get (complementarity_matrix r) 6 1 = Some c
    /\ 0.1 <= s /\ s <= 1 /\ (s == 1 <-> 1%Z = 6%Z)
    /\ - 0.1 <= c /\ c <= 0.6 /\ (c == 0 <-> 1%Z = 6%Z).
Proof.
  apply (crop_relationships_symmetric (Advanced.crops advanced_farm) 1 6).
  - vm_compute; auto 20.
  - vm_compute; auto 20.
Defined.

Lemma expected_sales_fold (lookup : list (Preprocessing.stat_key * Preprocessing.statistic))
  (land_info : list (string * Preprocessing.land))
  (planting_data : list Preprocessing.planting) (d : list (Z * Q)) :
  exists sales,
    fold_left
      (fun acc p =>
         expected_sales <- acc ;;
         match Preprocessing.total_yield lookup land_info p with
         | Some total_yield =>
             let crop_id := Preprocessing.pl_crop_id p in
             let expected_sales :=
               if dict_mem Z.eqb expected_sales crop_id then expected_sales
               else dict_set Z.eqb expected_sales crop_id 0 in
             old <- dict_get Z.eqb expected_sales crop_id ;;
             Some (dict_set Z.eqb expected_sales crop_id (old + total_yield))
         | None => Some expected_sales
         end)
      planting_data (Some d) = Some sales
    /\ forall crop_id,
         dict_get Z.eqb sales crop_id
         = accumulate (dict_get Z.eqb d crop_id)
             (yields_of lookup land_info crop_id planting_data).
Proof.
  revert d; induction planting_data as [|p ps IH]; intros d; cbn [fold_left].
  - exists d; split; [reflexivity|]; intros c; reflexivity.
  - cbn [bind].
    destruct (Preprocessing.total_yield lookup land_info p) as [t|] eqn:Et.
    + cbv zeta.
      set (c0 := Preprocessing.pl_crop_id p).
      set (d1 := if dict_mem Z.eqb d c0 then d else dict_set Z.eqb d c0 0).
      assert (G : dict_get Z.eqb d1 c0
                  = Some match dict_get Z.eqb d c0 with Some v => v | None => 0 end).
      { unfold d1, dict_mem.
        destruct (dict_get Z.eqb d c0) as [v|] eqn:E; [exact E|].
        rewrite (dict_get_set Z.eqb Z.eqb_eq), Z.eqb_refl; reflexivity. }
      rewrite G; cbn [bind].
      destruct (IH (dict_set Z.eqb d1 c0
                      (match dict_get Z.eqb d c0 with Some v => v | None => 0 end + t)))
        as (sales & Hs & Hget).
      exists sales; split; [exact Hs|].
      intros c; rewrite Hget, (dict_get_set Z.eqb Z.eqb_eq).
      unfold yields_of; cbn [flat_map]; fold (yields_of lookup land_info c ps).
      fold c0; rewrite Et.
      destruct (Z.eqb_spec c0 c) as [E|E].
      * subst c; cbn [app].
        destruct (yields_of lookup land_info c0 ps); reflexivity.
      * cbn [app].
        assert (G1 : dict_get Z.eqb d1 c = dict_get Z.eqb d c).
        { unfold d1; destruct (dict_mem Z.eqb d c0); [reflexivity|].
          rewrite (dict_get_set Z.eqb Z.eqb_eq).
          destruct (Z.eqb_spec c0 c); [contradiction | reflexivity]. }
        rewrite G1; reflexivity.
    + destruct (IH d) as (sales & Hs & Hget).
      exists sales; split; [exact Hs|].
      intros c; rewrite Hget.
      unfold yields_of; cbn [flat_map]; fold (yields_of lookup land_info c ps).
      rewrite Et; destruct (Z.eqb (Preprocessing.pl_crop_id p) c); reflexivity.
Qed.

(** X26.  [calculate_expected_sales] never raises, and the expected sale of a
    crop is the production of 2023 as the sheets give it: the sum, from 0 and
    in the order of the planting sheet, of area times yield per mu over the
    plantings of the crop whose crop, type of land and season have a record in
    the statistics; a crop without such a planting has no entry at all. *)
Theorem expected_sales_are_production (planting_data : list Preprocessing.planting)
  (statistics_data : list Preprocessing.statistic)
  (land_info : list (string * Preprocessing.land)) :
  exists sales,
    Preprocessing.calculate_expected_sales planting_data statistics_data land_info
    = Some sales
    /\ forall crop_id,
         dict_get Z.eqb sales crop_id
         = match yields_of (Preprocessing.stats_lookup statistics_data) land_info
                   crop_id planting_data with
           | [] => None
           | yields => Some (fold_left Qplus yields 0)
           end.
Proof.
  destruct (expected_sales_fold (Preprocessing.stats_lookup statistics_data) land_info
              planting_data []) as (sales & Hs & Hget).
  exists sales; split; [exact Hs|].
  intros c; rewrite Hget; cbn [dict_get]; unfold accumulate.
  destruct (yields_of _ land_info c planting_data); reflexivity.
Qed.

Lemma smart_copy_is_no_source (stat : Preprocessing.statistic) :
  Preprocessing.first_season_vegetable (Preprocessing.as_smart_greenhouse stat) = false.
Proof. reflexivity. Qed.

Lemma filter_smart_copies (l : list Preprocessing.statistic) :
  filter Preprocessing.first_season_vegetable
    (map Preprocessing.as_smart_greenhouse l) = [].
Proof.
  induction l as [|stat l IH]; [reflexivity|].
  cbn [map filter]; rewrite smart_copy_is_no_source; exact IH.
Qed.

(** X25.  [supplement_smart_greenhouse_data] keeps the records it is given,
    in place, and appends one smart-greenhouse copy of each first-season
    record of a common greenhouse that is no mushroom.  The copies are no
    sources themselves, and smart-greenhouse records already present are not
    looked at: a second run appends the same copies once more. *)
Theorem supplement_appends_again (statistics_data : list Preprocessing.statistic) :
  let sources := filter Preprocessing.first_season_vegetable statistics_data in
  let copies := map Preprocessing.as_smart_greenhouse sources in
  let once := Preprocessing.supplement_smart_greenhouse_data statistics_data in
  filter Preprocessing.first_season_vegetable once = sources
  /\ Preprocessing.supplement_smart_greenhouse_data once
     = statistics_data ++ copies ++ copies
  /\ (Preprocessing.supplement_smart_greenhouse_data once = once <-> sources = []).
Proof.
  intros sources copies once.
  assert (F : filter Preprocessing.first_season_vegetable once = sources).
  { unfold once, Preprocessing.supplement_smart_greenhouse_data; cbv zeta.
    rewrite filter_app, filter_smart_copies, app_nil_r; reflexivity. }
  assert (T : Preprocessing.supplement_smart_greenhouse_data once
              = statistics_data ++ copies ++ copies).
  { unfold Preprocessing.supplement_smart_greenhouse_data at 1; cbv zeta.
    rewrite F; unfold once, Preprocessing.supplement_smart_greenhouse_data; cbv zeta.
    fold sources; fold copies; rewrite <- app_assoc; reflexivity. }
  split; [exact F|]; split; [exact T|].
  rewrite T; unfold once, Preprocessing.supplement_smart_greenhouse_data; cbv zeta.
  fold sources; fold copies; split.
  - intros H; apply app_inv_head in H.
    apply (f_equal (@List.length _)) in H; rewrite length_app in H.
    unfold copies in H; rewrite length_map in H.
    destruct sources; [reflexivity | simpl in H; lia].
  - unfold copies; intros ->; reflexivity.
Qed.

(** X27.  Padded labels in the statistics lose the sale: with the lands of
    [process_land_data], whose types are stripped, a crop whose statistics
    records all carry a land type that [strip] would change has no expected
    sale, whatever was planted in 2023. *)
Theorem padded_statistics_sell_nothing (land_df : list land_row)
  (planting_data : list Preprocessing.planting)
  (statistics_data : list Preprocessing.statistic) (crop_id : Z) :
  (forall stat,
      In stat statistics_data ->
      Preprocessing.crop_id stat = crop_id ->
      strip (Preprocessing.land_type stat) <> Preprocessing.land_type stat) ->
  exists sales,
    Preprocessing.calculate_expected_sales planting_data statistics_data
      (Preprocessing.process_land_data land_df) = Some sales
    /\ dict_get Z.eqb sales crop_id = None.
Proof.
  intros Hpad.
  set (land_info := Preprocessing.process_land_data land_df).
  assert (E : yields_of (Preprocessing.stats_lookup statistics_data) land_info crop_id
                planting_data = []).
  { unfold yields_of.
    induction planting_data as [|p ps IH]; [reflexivity|]; cbn [flat_map].
    rewrite IH, app_nil_r.
    destruct (Z.eqb_spec (Preprocessing.pl_crop_id p) crop_id) as [Ec|_];
      [|reflexivity].
    unfold Preprocessing.total_yield; cbv zeta.
    destruct (dict_get Preprocessing.stat_key_eqb
                (Preprocessing.stats_lookup statistics_data) _) as [stat|] eqn:El;
      [exfalso|reflexivity].
    assert (Hk : forall a b, Preprocessing.stat_key_eqb a b = true <-> a = b).
    { intros [[c1 t1] s1] [[c2 t2] s2]; unfold Preprocessing.stat_key_eqb.
      rewrite !andb_true_iff, Z.eqb_eq, !String.eqb_eq.
      split; [intros [[-> ->] ->]; reflexivity | intros H; inversion H; auto]. }
    apply (dict_get_In _ Hk) in El.
    apply (dict_of_list_In Preprocessing.stat_key_eqb Hk) in El.
    apply in_map_iff in El; destruct El as (stat' & E & Hin).
    inversion E as [[E1 E2 E3]]; subst stat'; clear E.
    apply (Hpad stat Hin); [congruence|].
    rewrite E2; unfold Preprocessing.land_type_of.
    destruct (dict_get String.eqb land_info (Preprocessing.pl_block_name p))
      as [info|] eqn:Ei; [|reflexivity].
    apply (dict_get_In _ String.eqb_eq) in Ei.
    apply (dict_of_list_In String.eqb String.eqb_eq) in Ei.
    apply in_map_iff in Ei; destruct Ei as (row & E & _).
    inversion E; subst info; cbn [Preprocessing.type].
    apply strip_idempotent. }
  destruct (expected_sales_fold (Preprocessing.stats_lookup statistics_data) land_info
              planting_data []) as (sales & Hs & Hget).
  exists sales; split; [exact Hs|].
  rewrite Hget; cbn [dict_get].
  rewrite E; reflexivity.
Qed.

(** The theorem at the shiitake of greenhouse E1: 0.6 mu were planted in
    2023, and nothing is expected to sell. *)
Lemma padded_statistics_sell_nothing_witness :
  exists sales,
    Preprocessing.calculate_expected_sales [shiitake_planting] [padded_statistic]
      (Preprocessing.process_land_data greenhouse_sheet) = Some sales
    /\ dict_get Z.eqb sales 38%Z = None.
Proof.
  apply (padded_statistics_sell_nothing greenhouse_sheet [shiitake_planting]
           [padded_statistic] 38%Z).
  intros stat [<-|[]] _; vm_compute; discriminate.
Defined.










(* ================================================================== *)
(** ** The crop indicators and the planted area *)

(** The pair of constraints that ties an area to its indicator. *)
Lemma indicator_tells (a : valuation) (all keys : list key) (v : var) (q : Q) :
  Forall (fun v => 0 <= a v) (map Plant all) ->
  (forall k, In k keys -> In k all) ->
  holds a (le (lpSum (map Plant keys)) (times 1000 v)) ->
  holds a (ge (lpSum (map Plant keys)) (times q v)) ->
  is_binary (a v) ->
  (a v == 0 /\ total_area a keys == 0) \/ (a v == 1 /\ q <= total_area a keys).
Proof.
  intros Hpos Hsub Hle Hge Hb.
  unfold holds, le, ge in Hle, Hge; cbn [rel lhs rhs] in Hle, Hge.
  rewrite eval_lpSum, eval_times in Hle, Hge.
  pose proof (total_area_nonneg a all keys Hpos Hsub) as H0.
  destruct Hb as [Hb|Hb]; [left|right]; (split; [exact Hb|]); rewrite Hb in Hle, Hge.
  - apply Qle_antisym; [|exact H0].
    rewrite Qmult_0_r in Hle; exact Hle.
  - rewrite Qmult_1_r in Hge; exact Hge.
Qed.

(** X29.  The crop indicators tell the truth: for a crop that has variables
    in a year, a feasible solution of the strict model either leaves the
    indicator at 0 and plants nothing of the crop that year, or sets it to 1
    and plants at least 0.01 mu; in the advanced model the same holds with
    0.1 mu. *)
Theorem indicator_follows_area (generator : Type)
  (uniform : Q -> Q -> generator -> Q * generator) (wb : workbook) (g : generator)
  (a : valuation) (year crop_id : Z) :
  let strict := Strict.init wb in
  let advanced := fst (Advanced.init generator uniform wb g) in
  (forall m,
      Strict.create_strict_model strict = Some m ->
      feasible a m ->
      let keys := Strict.crop_year_keys (Strict.x_keys strict) year crop_id in
      keys <> [] ->
      (a (Grown year crop_id) == 0 /\ total_area a keys == 0)
      \/ (a (Grown year crop_id) == 1 /\ 0.01 <= total_area a keys))
  /\ (forall m,
         Advanced.create_advanced_model advanced = Some m ->
         feasible a m ->
         let keys := Advanced.crop_year_keys (Advanced.x_keys advanced) year crop_id in
         keys <> [] ->
         (a (Grown year crop_id) == 0 /\ total_area a keys == 0)
         \/ (a (Grown year crop_id) == 1 /\ 0.1 <= total_area a keys)).
Proof.
  intros strict advanced; split; intros m Hm Hf keys N.
  - destruct keys as [|k0 ks] eqn:Ek; [contradiction|]; rewrite <- Ek.
    assert (Hk0 : In k0 keys) by (rewrite Ek; left; reflexivity).
    unfold keys, Strict.crop_year_keys in Hk0; apply filter_In in Hk0.
    destruct Hk0 as [Hx Hyc]; apply andb_true_iff in Hyc; destruct Hyc as [Hy Hc].
    apply Z.eqb_eq in Hy, Hc.
    destruct (strict_key_crop_known wb k0 Hx) as [Hyear Hcrop].
    fold strict in Hcrop; rewrite Hy in Hyear; rewrite Hc in Hcrop.
    destruct (strict_model_parts strict m Hm)
      as (ar & sa & le_ & _ & _ & _ & Hc' & Hx' & Hb).
    assert (Hin : forall c,
               In c [le (lpSum (map Plant keys)) (times 1000 (Grown year crop_id));
                     ge (lpSum (map Plant keys)) (times 0.01 (Grown year crop_id))] ->
               holds a c).
    { intros c Hc''; apply (feasible_holds a m); [assumption|].
      rewrite Hc'; do 4 (apply in_or_app; right).
      unfold Strict.diversity_constraints.
      apply in_flat_map; exists year; split; [assumption|].
      apply in_or_app; left.
      apply in_flat_map; exists crop_id; split; [assumption|].
      apply when_nonempty_In; [|exact Hc''].
      fold keys; rewrite Ek; discriminate. }
    apply (indicator_tells a (Strict.x_keys strict)).
    + rewrite <- Hx'; apply Hf.
    + intros k Hk; apply filter_In in Hk; apply Hk.
    + apply Hin; left; reflexivity.
    + apply Hin; right; left; reflexivity.
    + apply (feasible_binary a m); [assumption|].
      rewrite Hb; apply in_or_app; right.
      unfold Strict.crop_count_vars.
      apply in_flat_map; exists year; split; [assumption|].
      apply in_map; assumption.
  - destruct keys as [|k0 ks] eqn:Ek; [contradiction|]; rewrite <- Ek.
    assert (Hk0 : In k0 keys) by (rewrite Ek; left; reflexivity).
    unfold keys, Advanced.crop_year_keys in Hk0; apply filter_In in Hk0.
    destruct Hk0 as [Hx Hyc]; apply andb_true_iff in Hyc; destruct Hyc as [Hy Hc].
    apply Z.eqb_eq in Hy, Hc.
    destruct (advanced_key_crop_known generator uniform wb g k0 Hx) as [Hyear Hcrop].
    fold advanced in Hcrop; rewrite Hy in Hyear; rewrite Hc in Hcrop.
    destruct (advanced_model_parts advanced m Hm)
      as (ba & de & ro & ri & co & _ & _ & _ & _ & _ & Hc' & Hx' & Hb).
    assert (Hin : forall c,
               In c [le (lpSum (map Plant keys)) (times 1000 (Grown year crop_id));
                     ge (lpSum (map Plant keys)) (times 0.1 (Grown year crop_id))] ->
               holds a c).
    { intros c Hc''; apply (feasible_holds a m); [assumption|].
      rewrite Hc'; do 2 (apply in_or_app; right); apply in_or_app; left.
      unfold Advanced._add_crop_indicator_constraints.
      apply in_flat_map; exists year; split; [assumption|].
      apply in_flat_map; exists crop_id; split; [assumption|].
      apply when_nonempty_In; [|exact Hc''].
      fold keys; rewrite Ek; discriminate. }
    apply (indicator_tells a (Advanced.x_keys advanced)).
    + rewrite <- Hx'; apply Hf.
    + intros k Hk; apply filter_In in Hk; apply Hk.
    + apply Hin; left; reflexivity.
    + apply Hin; right; left; reflexivity.
    + apply (feasible_binary a m); [assumption|].
      rewrite Hb; apply in_or_app; right.
      apply in_map_iff; exists (year, crop_id); split; [reflexivity|].
      unfold Advanced.z_crop_keys.
      apply in_flat_map; exists year; split; [assumption|].
      apply in_map; assumption.
Qed.

(** The theorem at the wheat of the mixed farm in 2024 and in 2025. *)
Lemma indicator_follows_area_witness :
  ((mixed_plan (Grown 2024 6) == 0
    /\ total_area mixed_plan
         (Advanced.crop_year_keys (Advanced.x_keys mixed_advanced) 2024 6) == 0)
   \/ (mixed_plan (Grown 2024 6) == 1
       /\ 0.1 <= total_area mixed_plan
                   (Advanced.crop_year_keys (Advanced.x_keys mixed_advanced) 2024 6)))
  /\ mixed_plan (Grown 2024 6) == 1
  /\ mixed_plan (Grown 2025 6) == 0.
Proof.
  split; [|split; reflexivity].
  destruct mixed_farm_feasible as (m & Hm & Hf).
  apply (proj2 (indicator_follows_area unit midpoint mixed_farm tt mixed_plan 2024 6)
           m Hm Hf).
  vm_compute; discriminate.
Defined.
